(** * Pragmatic auto-translator: embedding client, retrieval pipeline, page logic

    A shallow embedding of the browser code of the translator demo:
    - [EmbeddingJina]: the JINA embeddings client (API key management,
      [callJinaAPI], [createUserInputEmbedding], [loadEmbeddingModel]);
    - [Similarity]: the retrieval core named by the design document
      (scorer, ranker, budgeter), whose source file is not part of the
      sources at hand;
    - [Main]: the page script ([showStatus], [handleTranslation],
      [updateTranslationOutput], [loadCorpusData], the language toggle)
      and the browser's event loop;
    - [App]: the page script run on top of the client, and the helpers
      that main.js attaches to [window].

    JavaScript strings are modelled by [string], one character per code
    unit, for the code units below 256 (Latin-1); JavaScript numbers by
    binary64 [float]; console logging
    ([debugLog], [console.log], timers of [startTimer]) has no effect on
    the program and is left out. *)

From Stdlib Require Import Floats QArith Lia Ascii String Sorting.Sorted Permutation.
From stdpp Require Import gmap strings list pretty.

Local Open Scope string_scope.
Local Open Scope list_scope.

(** ** JavaScript values, errors and results *)

Module Js.

(** A value as the code observes it: a string, or any other value, of
    which the code only uses the truthiness ([!v]) and the conversion to
    a string ([String(v)], as [localStorage.setItem] does). [typeof] is
    ['string'] exactly on [JsString]. *)
Inductive JsValue : Type :=
| JsString (s : string)
| JsOther (truthiness : bool) (shown : string).

Definition truthy (v : JsValue) : bool :=
  match v with
  | JsString s => negb (String.eqb s "")
  | JsOther b _ => b
  end.

Definition is_string (v : JsValue) : bool :=
  match v with JsString _ => true | JsOther _ _ => false end.

Definition ToString (v : JsValue) : string :=
  match v with JsString s => s | JsOther _ shown => shown end.

(** A string-or-null slot ([null], [undefined] are [None]); the value it
    holds when it is truthy. *)
Definition truthy_key (k : option string) : option string :=
  match k with
  | Some s => if String.eqb s "" then None else Some s
  | None => None
  end.

(** JSON documents, as far as requests and responses carry them. *)
#[warnings="-register-all"]
Inductive Json : Type :=
| JNull
| JBool (b : bool)
| JNum (n : nat)
| JStr (s : string)
| JArr (items : list Json).

(** A thrown [Error]: its message, and the stages that tagged it on its
    way out (outermost first). *)
Record JsError : Type := mkError {
  error_stage : list string;
  error_message : string
}.

Definition Error (message : string) : JsError := mkError [] message.

Inductive outcome (A : Type) : Type :=
| Return (a : A)
| Throw (e : JsError).
Arguments Return {A} a.
Arguments Throw {A} e.

(** [haystack.includes(needle)] *)
Fixpoint includes (needle haystack : string) : bool :=
  String.prefix needle haystack
  || match haystack with
     | EmptyString => false
     | String _ rest => includes needle rest
     end.

(** White space and line terminators among the code units below 256: tab
    to carriage return, space, and the no-break space U+00A0. *)
Definition is_space (c : ascii) : bool :=
  let n := nat_of_ascii c in
  (Nat.eqb n 32) || ((9 <=? n)%nat && (n <=? 13)%nat) || (Nat.eqb n 160).

Fixpoint trim_start (s : string) : string :=
  match s with
  | String c rest => if is_space c then trim_start rest else s
  | EmptyString => EmptyString
  end.

(** [s.trim()] *)
Definition trim (s : string) : string :=
  String.rev (trim_start (String.rev (trim_start s))).

End Js.
Export Js.

(** ** The JINA embeddings client *)

Module EmbeddingJina.

Inductive Environment : Type := github_pages | local_development.

Definition environment_name (e : Environment) : string :=
  match e with
  | github_pages => "github_pages"
  | local_development => "local_development"
  end.

(** The default export of [api-config.js], read through
    [localConfig?.JINA_CONFIG?.API_KEY]. *)
Record LocalConfig : Type := { config_API_KEY : option string }.

Record Request : Type := {
  req_url : string;
  req_method : string;
  req_headers : list (string * string);
  req_body : gmap string Json;      (* the object handed to JSON.stringify *)
  req_timeout : nat                 (* AbortSignal.timeout, milliseconds *)
}.

Record EmbeddingData : Type := { embedding : option (list float) }.

(** The parsed body of a response: [data.data] is [None] when it is
    missing or not an array. *)
Record ResponseData : Type := {
  data : option (list EmbeddingData);
  usage : option Json
}.

Record Response : Type := {
  resp_ok : bool;
  resp_status : nat;
  resp_text : option string;           (* None: response.text() rejects *)
  resp_json : outcome ResponseData     (* Throw: response.json() rejects *)
}.

Inductive FetchResult : Type :=
| Responds (r : Response)
| Rejects (e : JsError).               (* network failure, timeout *)

(** What the page's surroundings answer; none of it is changed by the
    client. [fetch] may answer the same request differently each time:
    it is given the number of earlier requests. *)
Record Env : Type := {
  hostname : string;                          (* window.location.hostname *)
  ENV_VARS_JINA_API_KEY : option string;      (* window.ENV_VARS?.JINA_API_KEY *)
  api_config_js : option LocalConfig;         (* None: the import fails *)
  fetch : nat -> Request -> FetchResult;
  cleanText : string -> string;               (* utils.js *)
  EMBEDDING_dimension : nat;                  (* config.MODELS.EMBEDDING.dimension *)
  now : string                                (* new Date().toISOString() *)
}.

(** The module's mutable variables, the browser's storage, and the
    requests sent so far (oldest first). *)
Record State : Type := {
  API_KEY : option string;                    (* JINA_CONFIG.API_KEY *)
  localStorage : option (gmap string string); (* None: no window.localStorage *)
  localApiConfig : option LocalConfig;
  configLoadAttempted : bool;
  fetched : list Request
}.

Record JinaConfig : Type := {
  EMBEDDING_URL : string;
  MODEL : string;
  DIMENSIONS : nat;
  MAX_INPUT_LENGTH : nat;
  TIMEOUT : nat;
  DEFAULT_OPTIONS : gmap string Json
}.

Definition JINA_CONFIG : JinaConfig := {|
  EMBEDDING_URL := "https://api.jina.ai/v1/embeddings";
  MODEL := "jina-embeddings-v3";
  DIMENSIONS := 1024;
  MAX_INPUT_LENGTH := 8192;
  TIMEOUT := 30000;
  DEFAULT_OPTIONS :=
    <["normalized" := JBool true]> (<["embedding_type" := JStr "float"]> ∅)
|}.

(** *** The monad of the client: state, and errors that keep the state *)

Definition M (A : Type) : Type := State -> outcome A * State.

Definition ret {A} (a : A) : M A := fun s => (Return a, s).
Definition throw {A} (e : JsError) : M A := fun s => (Throw e, s).
Definition bind {A B} (m : M A) (k : A -> M B) : M B :=
  fun s =>
    match m s with
    | (Return a, s') => k a s'
    | (Throw e, s') => (Throw e, s')
    end.
Definition get : M State := fun s => (Return s, s).
Definition lift {A} (o : outcome A) : M A := fun s => (o, s).
(** [try { m } catch (error) { h error }] *)
Definition try_catch {A} (m : M A) (h : JsError -> M A) : M A :=
  fun s =>
    match m s with
    | (Return a, s') => (Return a, s')
    | (Throw e, s') => h e s'
    end.

Notation "'let*' x ':=' m 'in' k" := (bind m (fun x => k))
  (at level 10, x name, m at level 100, k at level 200).
Notation "'do' m 'then' k" := (bind m (fun _ => k))
  (at level 10, m at level 100, k at level 200).

Definition with_API_KEY (key : option string) (s : State) : State :=
  {| API_KEY := key; localStorage := localStorage s;
     localApiConfig := localApiConfig s;
     configLoadAttempted := configLoadAttempted s; fetched := fetched s |}.

Definition with_localStorage (items : gmap string string) (s : State) : State :=
  {| API_KEY := API_KEY s; localStorage := Some items;
     localApiConfig := localApiConfig s;
     configLoadAttempted := configLoadAttempted s; fetched := fetched s |}.

Definition with_localApiConfig (config : option LocalConfig) (s : State) : State :=
  {| API_KEY := API_KEY s; localStorage := localStorage s;
     localApiConfig := config;
     configLoadAttempted := true; fetched := fetched s |}.

Definition with_request (r : Request) (s : State) : State :=
  {| API_KEY := API_KEY s; localStorage := localStorage s;
     localApiConfig := localApiConfig s;
     configLoadAttempted := configLoadAttempted s;
     fetched := fetched s ++ [r] |}.

Definition modify (f : State -> State) : M unit := fun s => (Return tt, f s).

(** Modelled from the spec: [safeAsync] of utils.js, which is not among
    the sources. The wrapped function's result is passed on; an error
    is "surfaced to the caller tagged with the stage it occurred in"
    and keeps its message. *)
Definition safeAsync {A} (body : M A) (errorType : string) : M A :=
  try_catch body
    (fun e => throw (mkError (errorType :: error_stage e) (error_message e))).

Section Client.
Variable env : Env.

Definition detectEnvironment : Environment :=
  if includes "github.io" (hostname env) || includes "github.com" (hostname env)
  then github_pages
  else local_development.

(** [configLoadAttempted] is set before the import is tried; a failed
    import leaves [localApiConfig] as it was and answers [null]. *)
Definition tryLoadLocalConfig : M (option LocalConfig) :=
  let* s := get in
  if configLoadAttempted s then ret (localApiConfig s)
  else
    match api_config_js env with
    | Some module_default =>
        do modify (with_localApiConfig (Some module_default)) then
        ret (Some module_default)
    | None =>
        do modify (with_localApiConfig (localApiConfig s)) then
        ret None
    end.

Definition setJinaApiKey (apiKey : JsValue) : M unit :=
  if negb (truthy apiKey) || negb (is_string apiKey)
  then throw (Error "Invalid API key provided")
  else modify (with_API_KEY (Some (ToString apiKey))).

(** [localStorage.getItem(key)]; without a storage object the property
    access fails. *)
Definition localStorage_getItem (key : string) : M (option string) :=
  let* s := get in
  match localStorage s with
  | Some items => ret (items !! key)
  | None => throw (Error "TypeError: localStorage is undefined")
  end.

Definition storeApiKeyLocally (apiKey : JsValue) : M unit :=
  let* s := get in
  match localStorage s with
  | Some items =>
      do modify (with_localStorage (<["jina_api_key" := ToString apiKey]> items)) then
      setJinaApiKey apiKey               (* Also set in memory *)
  | None => throw (Error "localStorage not available")
  end.

Definition getApiKey : M (option string) :=
  let environment := detectEnvironment in
  let* s := get in
  (* 1. Check manually set key first (works in both environments) *)
  match truthy_key (API_KEY s) with
  | Some key => ret (Some key)
  | None =>
      (* 2. For local development, try multiple sources *)
      let* fromLocal :=
        match environment with
        | local_development =>
            let* storedKey := localStorage_getItem "jina_api_key" in
            match truthy_key storedKey with
            | Some key => ret (Some key)
            | None =>
                let* localConfig := tryLoadLocalConfig in
                ret (truthy_key (localConfig ≫= config_API_KEY))
            end
        | github_pages => ret None
        end in
      match fromLocal with
      | Some key => ret (Some key)
      | None =>
          (* 3. For GitHub Pages, try environment variables *)
          match environment with
          | github_pages => ret (truthy_key (ENV_VARS_JINA_API_KEY env))
          | local_development => ret None
          end
      end
  end.

Record KeyStatus : Type := {
  hasKey : bool;
  source : string;
  keyPreview : option string;
  environment : Environment;
  isProduction : bool
}.

Definition getApiKeyStatus : M KeyStatus :=
  let environment := detectEnvironment in
  let* key := getApiKey in
  let* source :=
    match truthy_key key with
    | Some key =>
        let* s := get in
        if match truthy_key (API_KEY s) with
           | Some manual => String.eqb key manual
           | None => false
           end
        then ret "manual"
        else
          let* storedKey := localStorage_getItem "jina_api_key" in
          if match storedKey with
             | Some stored => String.eqb stored key
             | None => false
             end
          then ret "localStorage"
          else
            match environment with
            | github_pages => ret "github_environment"
            | local_development => ret "api_config_file"
            end
    | None => ret "none"
    end in
  ret {| hasKey := bool_decide (is_Some (truthy_key key));
         source := source;
         keyPreview :=
           (fun key => String.substring 0 10 key +:+ "...") <$> truthy_key key;
         environment := environment;
         isProduction :=
           match environment with
           | github_pages => true
           | local_development => false
           end |}.

(** The argument of [callJinaAPI]: an array, or one value that is
    wrapped into a one-element array. *)
Inductive JinaInput : Type :=
| Single (v : JsValue)
| Array (vs : list JsValue).

(** [Array.isArray(input) ? input : [input]] *)
Definition inputArray_of (input : JinaInput) : list JsValue :=
  match input with Array vs => vs | Single v => [v] end.

Definition truncate_input (text : string) : string :=
  if (MAX_INPUT_LENGTH JINA_CONFIG <? String.length text)%nat
  then String.substring 0 (MAX_INPUT_LENGTH JINA_CONFIG) text
  else text.

(** The [forEach] over [inputArray]: the first entry that is not a
    string stops it with an error; longer strings are cut. *)
Fixpoint check_inputs (index : nat) (inputArray : list JsValue)
  : outcome (list string) :=
  match inputArray with
  | [] => Return []
  | JsString text :: rest =>
      match check_inputs (S index) rest with
      | Return rest' => Return (truncate_input text :: rest')
      | Throw e => Throw e
      end
  | JsOther _ _ :: _ =>
      Throw (Error ("Input " +:+ pretty index +:+ " must be a string"))
  end.

Definition requestBody (inputArray : list string) (options : gmap string Json)
  : gmap string Json :=
  options
  ∪ DEFAULT_OPTIONS JINA_CONFIG
  ∪ <["input" := JArr (JStr <$> inputArray)]>
      (<["model" := JStr (MODEL JINA_CONFIG)]>
         (<["dimensions" := JNum (DIMENSIONS JINA_CONFIG)]> ∅)).

(** [await fetch(url, init)]: the request is recorded, the surroundings
    answer. *)
Definition do_fetch (r : Request) : M Response :=
  let* s := get in
  do modify (with_request r) then
  match fetch env (List.length (fetched s)) r with
  | Responds response => ret response
  | Rejects e => throw e
  end.

Definition callJinaAPI (input : JinaInput) (options : gmap string Json)
  : M ResponseData :=
  safeAsync
    (let* apiKey := getApiKey in
     match truthy_key apiKey with
     | None =>
         let* status := getApiKeyStatus in
         throw (Error ("JINA API key not available. Environment: "
                       +:+ environment_name (environment status)
                       +:+ ", Source: " +:+ source status
                       +:+ ". Use setJinaApiKey() or storeApiKeyLocally()."))
     | Some apiKey =>
         let* inputArray := lift (check_inputs 0 (inputArray_of input)) in
         let* response :=
           do_fetch {| req_url := EMBEDDING_URL JINA_CONFIG;
                       req_method := "POST";
                       req_headers :=
                         [("Content-Type", "application/json");
                          ("Authorization", "Bearer " +:+ apiKey)];
                       req_body := requestBody inputArray options;
                       req_timeout := TIMEOUT JINA_CONFIG |} in
         if negb (resp_ok response) then
           let errorText := default "Unknown error" (resp_text response) in
           throw (Error ("JINA API error " +:+ pretty (resp_status response)
                         +:+ ": " +:+ errorText))
         else
           let* data := lift (resp_json response) in
           match EmbeddingJina.data data with
           | None => throw (Error "Invalid response structure from JINA API")
           | Some _ => ret data
           end
     end)
    "JINA_API_ERROR".

Record DimensionNote : Type := {
  userEmbedding : nat;
  corpusVectors : nat;
  note : string
}.

Record UserInputEmbedding : Type := {
  originalText : string;
  preprocessedText : string;
  ue_embedding : list float;
  dimension : nat;
  model : string;
  apiType : string;
  apiKeySource : string;
  ue_environment : Environment;
  ue_usage : option Json;
  timestamp : string;
  dimensionMismatch : DimensionNote
}.

Definition createUserInputEmbedding (text : JsValue) : M UserInputEmbedding :=
  safeAsync
    (if negb (truthy text) || negb (is_string text)
     then throw (Error "Input text is required and must be a string")
     else
       let text := ToString text in
       let cleanedText := cleanText env text in
       if String.eqb cleanedText ""
       then throw (Error "Input text is empty after cleaning")
       else
         let* response := callJinaAPI (Single (JsString cleanedText)) ∅ in
         match default [] (data response) !! 0%nat with
         | None =>
             throw (Error "TypeError: cannot read 'embedding' of undefined")
         | Some embeddingData =>
             match embedding embeddingData with
             | None => throw (Error "No embedding returned from JINA API")
             | Some vector =>
                 let* keyStatus := getApiKeyStatus in
                 ret {| originalText := text;
                        preprocessedText := cleanedText;
                        ue_embedding := vector;
                        dimension := List.length vector;
                        model := MODEL JINA_CONFIG;
                        apiType := "jina";
                        apiKeySource := source keyStatus;
                        ue_environment := environment keyStatus;
                        ue_usage := usage response;
                        timestamp := now env;
                        dimensionMismatch :=
                          {| userEmbedding := List.length vector;
                             corpusVectors := EMBEDDING_dimension env;
                             note :=
                               if negb (Nat.eqb (List.length vector)
                                                (EMBEDDING_dimension env))
                               then "Dimension mismatch - consider regenerating corpus"
                               else "Dimensions match" |} |}
             end
         end)
    "EMBEDDING_CREATE_ERROR".

Definition loadEmbeddingModel : M KeyStatus :=
  safeAsync
    (let* keyStatus := getApiKeyStatus in
     if negb (hasKey keyStatus)
     then throw (Error ("JINA API key required. Environment: "
                        +:+ environment_name (environment keyStatus)))
     else
       do callJinaAPI (Single (JsString "test")) ∅ then
       ret keyStatus)
    "MODEL_LOAD_ERROR".

Definition isEmbeddingModelReady : M bool :=
  safeAsync
    (let* keyStatus := getApiKeyStatus in
     if negb (hasKey keyStatus) then ret false
     else
       try_catch
         (do callJinaAPI (Single (JsString "test")) ∅ then ret true)
         (fun _ => ret false))
    "MODEL_CHECK_ERROR".

(** What [getEmbeddingModelStatus] answers: the fields of the key status
    ([...keyStatus]), the model's constants, and the outcome of the test
    call; a field that the answer does not have is [None]. *)
Record ModelStatus : Type := {
  modelName : string;
  status_dimensions : nat;
  status_apiType : string;
  endpointUrl : string;
  status_key : KeyStatus;
  status : string;
  ready : bool;
  status_message : option string;
  testPassed : option bool;
  status_error : option string
}.

Definition getEmbeddingModelStatus : M ModelStatus :=
  safeAsync
    (let* keyStatus := getApiKeyStatus in
     let baseStatus status ready message testPassed error :=
       {| modelName := MODEL JINA_CONFIG;
          status_dimensions := DIMENSIONS JINA_CONFIG;
          status_apiType := "jina";
          endpointUrl := EMBEDDING_URL JINA_CONFIG;
          status_key := keyStatus;
          status := status; ready := ready; status_message := message;
          testPassed := testPassed; status_error := error |} in
     if negb (hasKey keyStatus)
     then ret (baseStatus "api_key_missing" false
                 (Some ("JINA API key required for "
                        +:+ environment_name (environment keyStatus)))
                 None None)
     else
       try_catch
         (do callJinaAPI (Single (JsString "test")) ∅ then
          ret (baseStatus "ready" true None (Some true) None))
         (fun error =>
            ret (baseStatus "error" false None None (Some (error_message error)))))
    "MODEL_STATUS_ERROR".

(** *** Where a credential can come from *)

Definition stored_key (s : State) : option string :=
  truthy_key (localStorage s ≫= (.!! "jina_api_key")).

(** Some source holds a key: the manual key, the stored key, the
    configuration file (loaded, or still to be loaded), the injected
    environment variables. *)
Definition credential_configured (s : State) : bool :=
  bool_decide (is_Some (truthy_key (API_KEY s)))
  || bool_decide (is_Some (stored_key s))
  || bool_decide (is_Some (truthy_key (localApiConfig s ≫= config_API_KEY)))
  || (negb (configLoadAttempted s)
      && bool_decide (is_Some (truthy_key (api_config_js env ≫= config_API_KEY))))
  || bool_decide (is_Some (truthy_key (ENV_VARS_JINA_API_KEY env))).

(** The same, source by source. *)
Record NoCredential (s : State) : Prop := {
  nc_manual : truthy_key (API_KEY s) = None;
  nc_stored : stored_key s = None;
  nc_cached : truthy_key (localApiConfig s ≫= config_API_KEY) = None;
  nc_file : configLoadAttempted s = false ->
            truthy_key (api_config_js env ≫= config_API_KEY) = None;
  nc_env : truthy_key (ENV_VARS_JINA_API_KEY env) = None
}.

(** The storage object exists wherever [getApiKey] reads it. *)
Definition storage_readable (s : State) : bool :=
  bool_decide (is_Some (localStorage s))
  || match detectEnvironment with
     | github_pages => true
     | local_development => false
     end.

Definition missing_credential_message : string :=
  "JINA API key not available. Environment: "
  +:+ environment_name detectEnvironment
  +:+ ", Source: none. Use setJinaApiKey() or storeApiKeyLocally().".

Definition key_required_message : string :=
  "JINA API key required. Environment: " +:+ environment_name detectEnvironment.

End Client.

(** The request that [callJinaAPI] hands to [fetch] for the checked
    inputs, with the key it has found. *)
Definition embedding_request (apiKey : string) (inputArray : list string)
           (options : gmap string Json) : Request :=
  {| req_url := EMBEDDING_URL JINA_CONFIG;
     req_method := "POST";
     req_headers := [("Content-Type", "application/json");
                     ("Authorization", "Bearer " +:+ apiKey)];
     req_body := requestBody inputArray options;
     req_timeout := TIMEOUT JINA_CONFIG |}.

(** An error as it leaves a function wrapped by [safeAsync]. *)
Definition tagged (errorType : string) (e : JsError) : JsError :=
  mkError (errorType :: error_stage e) (error_message e).

(** The request of the test calls: the input "test" and no options. *)
Definition test_request (apiKey : string) : Request :=
  embedding_request apiKey ["test"] ∅.

(** The body of the provider's answer to the [n]-th request, when
    [callJinaAPI] accepts it: the response is [ok], its body parses, and
    it has a [data] array. *)
Definition accepted_answer (env : Env) (n : nat) (request : Request)
  : option ResponseData :=
  match fetch env n request with
  | Responds response =>
      if resp_ok response then
        match resp_json response with
        | Return answer =>
            match data answer with Some _ => Some answer | None => None end
        | Throw _ => None
        end
      else None
  | Rejects _ => None
  end.

(** What the functions of the client other than [setJinaApiKey] and
    [storeApiKeyLocally] keep: the key held in memory and the storage are
    as they were, and at most [requests] requests have been added to the
    ones sent. *)
Definition keeps_keys (requests : nat) {A} (m : M A) : Prop :=
  forall s, let s' := snd (m s) in
    API_KEY s' = API_KEY s
    /\ localStorage s' = localStorage s
    /\ exists more, fetched s' = fetched s ++ more
                    /\ (List.length more <= requests)%nat.

(** [getApiKey] called once in each of the given surroundings, in turn. *)
Fixpoint getApiKey_each (envs : list Env) (s : State)
  : list (outcome (option string)) * State :=
  match envs with
  | [] => ([], s)
  | env :: rest =>
      let '(key, s') := getApiKey env s in
      let '(keys, s'') := getApiKey_each rest s' in
      (key :: keys, s'')
  end.

End EmbeddingJina.

(** ** The retrieval core: scorer, ranker, budgeter *)

Module Similarity.

Inductive Level : Type := document | section | paragraph.

Record CorpusItem : Type := {
  id : nat;
  level : Level;
  item_embedding : list float;
  text : string;
  title : option string;
  document_id : option string
}.

(** [vectorData]: three sequences in corpus file order. *)
Record VectorStore : Type := {
  documents : list CorpusItem;
  sections : list CorpusItem;
  paragraphs : list CorpusItem
}.

Definition DimensionMismatch : JsError := Error "DimensionMismatch".

(** *** SimilarityScorer *)

Module Scorer.
Local Open Scope float_scope.

Definition dot (a b : list float) : float :=
  fold_left (fun acc xy => acc + fst xy * snd xy) (combine a b) 0.

Definition magnitude (a : list float) : float := PrimFloat.sqrt (dot a a).

Section Score.
(** The level-specific weighting of the advanced mode, which the
    design leaves open: any function of the query, the candidate and
    the level. *)
Variable weighting : Level -> list float -> list float -> float.

(** Modelled from the spec: [score(query, candidate, level, advanced)]
    of the SimilarityScorer, whose source file is missing. It "fails
    with DimensionMismatchError if len(query) ≠ len(candidate)"; "if
    either vector has zero magnitude ... this must be treated as a
    score of 0"; the base case is "dot(query, candidate) /
    (‖query‖ · ‖candidate‖)"; the advanced case "applies a
    level-specific weighting". *)
Definition score (query candidate : list float) (lvl : Level)
           (advanced : bool) : outcome float :=
  if negb (Nat.eqb (List.length query) (List.length candidate))
  then Throw DimensionMismatch
  else if (magnitude query =? 0) || (magnitude candidate =? 0)
  then Return 0
  else if advanced
  then Return (weighting lvl query candidate)
  else Return (dot query candidate / (magnitude query * magnitude candidate)).
End Score.
End Scorer.

(** *** Score domains

    The ranker only compares scores and adds a bonus to them. It is
    written over any domain with these two operations; the page runs it
    on binary64 numbers. *)

Class ScoreDomain (num : Type) : Type := {
  score_leb : num -> num -> bool;
  score_add : num -> num -> num
}.

#[export] Instance float_scores : ScoreDomain float :=
  {| score_leb := PrimFloat.leb; score_add := PrimFloat.add |}.

Record ScoredMatch (num : Type) : Type := {
  item : CorpusItem;
  score : num;
  match_level : Level
}.
Arguments item {num} _.
Arguments score {num} _.
Arguments match_level {num} _.

Inductive PriorityStrategy : Type :=
| balanced | documents_first | paragraphs_first.

Record RankOptions : Type := {
  advanced : bool;
  priorityStrategy : PriorityStrategy
}.

(** *** ContextRanker *)

Section Ranker.
Context {num : Type} `{ScoreDomain num}.
Variable scorer : list float -> list float -> Level -> bool -> outcome num.
(** The magnitude of the bonus is an implementation choice. *)
Variable bonus : num.

Fixpoint score_all (query : list float) (advanced : bool)
         (items : list CorpusItem) : outcome (list (ScoredMatch num)) :=
  match items with
  | [] => Return []
  | it :: rest =>
      match scorer query (item_embedding it) (level it) advanced with
      | Throw e => Throw e
      | Return s =>
          match score_all query advanced rest with
          | Throw e => Throw e
          | Return scored =>
              Return ({| item := it; score := s; match_level := level it |}
                        :: scored)
          end
      end
  end.

Definition favoured (strategy : PriorityStrategy) (lvl : Level) : bool :=
  match strategy, lvl with
  | documents_first, document => true
  | paragraphs_first, paragraph => true
  | _, _ => false
  end.

Definition effective_score (strategy : PriorityStrategy)
           (m : ScoredMatch num) : num :=
  if favoured strategy (match_level m)
  then score_add (score m) bonus
  else score m.

(** [a] may stand before [b]: its effective score is not lower. *)
Definition ranks_before (strategy : PriorityStrategy) (a b : ScoredMatch num) : Prop :=
  score_leb (effective_score strategy b) (effective_score strategy a) = true.

(** [m] goes in front of the first entry that does not score higher, so
    that of two equal scores the one seen first stays first. *)
Fixpoint insert_ranked (strategy : PriorityStrategy) (m : ScoredMatch num)
         (sorted : list (ScoredMatch num)) : list (ScoredMatch num) :=
  match sorted with
  | [] => [m]
  | m' :: rest =>
      if score_leb (effective_score strategy m') (effective_score strategy m)
      then m :: sorted
      else m' :: insert_ranked strategy m rest
  end.

Definition sort_ranked (strategy : PriorityStrategy)
           (scored : list (ScoredMatch num)) : list (ScoredMatch num) :=
  foldr (insert_ranked strategy) [] scored.

(** Modelled from the spec: [rank(query, store, options)] of the
    ContextRanker, whose source file is missing. It "scores every item
    across all three levels using SimilarityScorer", "merges into one
    descending-by-score list", ties "broken by stable original
    insertion order"; [documents_first] and [paragraphs_first] "boost
    the named level's effective rank (e.g., via an additive ... bonus)
    before the stable sort"; there is "no fixed top-k cutoff". *)
Definition rank (query : list float) (store : VectorStore)
           (options : RankOptions) : outcome (list (ScoredMatch num)) :=
  match score_all query (advanced options)
          (documents store ++ sections store ++ paragraphs store) with
  | Throw e => Throw e
  | Return scored => Return (sort_ranked (priorityStrategy options) scored)
  end.
End Ranker.


(** *** ContextBudgeter *)

Record ContextSelection (num : Type) : Type := {
  items : list (ScoredMatch num);
  totalResults : nat;
  contextLength : nat
}.
Arguments items {num} _.
Arguments totalResults {num} _.
Arguments contextLength {num} _.

Section Budgeter.
Context {num : Type}.

Definition text_length (m : ScoredMatch num) : nat :=
  String.length (text (item m)).

Definition total_length (ranked : list (ScoredMatch num)) : nat :=
  list_sum (text_length <$> ranked).

(** The walk over the ranked list with its running total. *)
Fixpoint select (maxContextLength running : nat)
         (ranked : list (ScoredMatch num)) : list (ScoredMatch num) :=
  match ranked with
  | [] => []
  | m :: rest =>
      if (running + text_length m <=? maxContextLength)%nat
      then m :: select maxContextLength (running + text_length m) rest
      else select maxContextLength running rest
  end.

(** Modelled from the spec: [budget(ranked, maxContextLength)] of the
    ContextBudgeter, whose source file is missing. It "walks the ranked
    list in order, accumulating each candidate's text length", "includes
    an item only if adding its full text would not exceed
    maxContextLength", after a skip "continue[s] checking subsequent
    (lower-ranked) items", and returns the included items "plus
    totalResults = count(included) and contextLength = sum(len(text)
    for included)". *)
Definition budget (ranked : list (ScoredMatch num))
           (maxContextLength : nat) : ContextSelection num :=
  let included := select maxContextLength 0 ranked in
  {| items := included;
     totalResults := List.length included;
     contextLength := total_length included |}.
End Budgeter.

Record SearchOptions : Type := {
  useAdvancedScoring : bool;
  search_priorityStrategy : PriorityStrategy;
  maxContextLength : nat
}.

(** Modelled from the spec: [findSimilarContext], which main.js calls and
    whose source file is missing; the data flow of the design is
    "SimilarityScorer × VectorStore → ContextRanker → ContextBudgeter". *)
Definition findSimilarContext {num : Type} `{ScoreDomain num}
           (scorer : list float -> list float -> Level -> bool -> outcome num)
           (bonus : num)
           (queryEmbedding : list float) (vectorData : VectorStore)
           (options : SearchOptions) : outcome (ContextSelection num) :=
  match rank scorer bonus queryEmbedding vectorData
          {| advanced := useAdvancedScoring options;
             priorityStrategy := search_priorityStrategy options |} with
  | Throw e => Throw e
  | Return ranked => Return (budget ranked (maxContextLength options))
  end.

End Similarity.

(** ** The page script *)

Module Main.
Import EmbeddingJina Similarity.

(** Markup assigned to [innerHTML]: the elements of the template literal,
    without the white space between them; [Markup] is an interpolated
    string, inserted as it is. *)
#[warnings="-register-all"]
Inductive Html : Type :=
| Element (tag : string) (attributes : list (string * string)) (children : list Html)
| Markup (s : string).

Record StatusIndicator : Type := {
  textContent : string;
  className : string;
  hidden : bool
}.

Record DocumentDatabase : Type := {
  english : gmap string Json;
  spanish : gmap string Json
}.

Record LanguageDirection : Type := {
  direction_source : string;
  direction_target : string
}.

(** What [findSimilarContext] hands to the page: the selection, with its
    counts under [metadata]. *)
Record SearchMetadata : Type := {
  meta_totalResults : nat;
  meta_contextLength : nat
}.

Record ContextResults : Type := {
  results : list (ScoredMatch float);
  metadata : SearchMetadata
}.

(** An entry of [contextUsed], as [updateTranslationOutput] reads it. *)
Record ContextUsed : Type := {
  used_score : float;
  used_level : string;
  used_title : option string;
  used_document_id : option string;
  used_text : string
}.

Record TranslationResult : Type := {
  translatedText : string;
  contextUsed : list ContextUsed;
  translation_metadata : Json
}.

(** The DOM elements the script holds (an element that is not in the
    document is [None]), the script's global variables, and what the user
    would answer to a [prompt]. *)
Record Page : Type := {
  statusIndicator : option StatusIndicator;
  translationOutput : option (list Html);       (* innerHTML *)
  contextInfo : option (list Html);             (* innerHTML *)
  sourceTextArea : option string;               (* value *)
  translateButton : bool;
  advancedScoring : option bool;                (* checked *)
  priorityStrategySelect : option string;       (* value *)
  vectorData : VectorStore;
  documentDatabase : DocumentDatabase;
  currentSourceLang : string;
  hideTimers : nat;                             (* pending setTimeout callbacks *)
  promptReply : option string                   (* None: the dialog is cancelled *)
}.

Definition with_status (indicator : StatusIndicator) (timers : nat) (p : Page) : Page :=
  {| statusIndicator := Some indicator;
     translationOutput := translationOutput p; contextInfo := contextInfo p;
     sourceTextArea := sourceTextArea p; translateButton := translateButton p;
     advancedScoring := advancedScoring p;
     priorityStrategySelect := priorityStrategySelect p;
     vectorData := vectorData p; documentDatabase := documentDatabase p;
     currentSourceLang := currentSourceLang p; hideTimers := timers;
     promptReply := promptReply p |}.

Definition with_translationOutput (html : list Html) (p : Page) : Page :=
  {| statusIndicator := statusIndicator p;
     translationOutput := Some html; contextInfo := contextInfo p;
     sourceTextArea := sourceTextArea p; translateButton := translateButton p;
     advancedScoring := advancedScoring p;
     priorityStrategySelect := priorityStrategySelect p;
     vectorData := vectorData p; documentDatabase := documentDatabase p;
     currentSourceLang := currentSourceLang p; hideTimers := hideTimers p;
     promptReply := promptReply p |}.

Definition with_contextInfo (html : list Html) (p : Page) : Page :=
  {| statusIndicator := statusIndicator p;
     translationOutput := translationOutput p; contextInfo := Some html;
     sourceTextArea := sourceTextArea p; translateButton := translateButton p;
     advancedScoring := advancedScoring p;
     priorityStrategySelect := priorityStrategySelect p;
     vectorData := vectorData p; documentDatabase := documentDatabase p;
     currentSourceLang := currentSourceLang p; hideTimers := hideTimers p;
     promptReply := promptReply p |}.

Definition with_sourceText (value : string) (p : Page) : Page :=
  {| statusIndicator := statusIndicator p;
     translationOutput := translationOutput p; contextInfo := contextInfo p;
     sourceTextArea := Some value; translateButton := translateButton p;
     advancedScoring := advancedScoring p;
     priorityStrategySelect := priorityStrategySelect p;
     vectorData := vectorData p; documentDatabase := documentDatabase p;
     currentSourceLang := currentSourceLang p; hideTimers := hideTimers p;
     promptReply := promptReply p |}.

Definition with_currentSourceLang (lang : string) (p : Page) : Page :=
  {| statusIndicator := statusIndicator p;
     translationOutput := translationOutput p; contextInfo := contextInfo p;
     sourceTextArea := sourceTextArea p; translateButton := translateButton p;
     advancedScoring := advancedScoring p;
     priorityStrategySelect := priorityStrategySelect p;
     vectorData := vectorData p; documentDatabase := documentDatabase p;
     currentSourceLang := lang; hideTimers := hideTimers p;
     promptReply := promptReply p |}.

(** What [initializeCorpusLegacyFormat] of corpora-retrieval.js resolves
    with. *)
Record CorpusData : Type := {
  corpus_vectorData : VectorStore;
  corpus_documentDatabase : DocumentDatabase
}.

Definition with_corpus (corpusData : CorpusData) (p : Page) : Page :=
  {| statusIndicator := statusIndicator p;
     translationOutput := translationOutput p; contextInfo := contextInfo p;
     sourceTextArea := sourceTextArea p; translateButton := translateButton p;
     advancedScoring := advancedScoring p;
     priorityStrategySelect := priorityStrategySelect p;
     vectorData := corpus_vectorData corpusData;
     documentDatabase := corpus_documentDatabase corpusData;
     currentSourceLang := currentSourceLang p; hideTimers := hideTimers p;
     promptReply := promptReply p |}.

(** *** Asynchronous calls and tasks

    An [async] function is a tree of synchronous steps on the page and of
    [await]s of calls into other modules; between an [await] and its
    answer the event loop may run other handlers. *)

(** The asynchronous functions that [handleTranslation] awaits: three of
    embedding-jina.js, and [findSimilarContext], [isDeepSeekApiReady] and
    [translateWithContext], which main.js uses as free identifiers. *)
Inductive Call : Type -> Type :=
| IsEmbeddingModelReady : Call bool
| LoadEmbeddingModel : Call KeyStatus
| CreateUserInputEmbedding (text : string) : Call UserInputEmbedding
| FindSimilarContext (queryEmbedding : list float) (store : VectorStore)
    (options : SearchOptions) : Call ContextResults
| IsDeepSeekApiReady : Call bool
| TranslateWithContext (sourceText : string) (context : ContextResults)
    (direction : LanguageDirection) (database : DocumentDatabase)
  : Call TranslationResult.

Inductive Task (A : Type) : Type :=
| Done (a : A)
| Raise (e : JsError)
| Sync {X : Type} (act : Page -> X * Page) (k : X -> Task A)
| Await {X : Type} (c : Call X) (k : outcome X -> Task A).
Arguments Done {A} a.
Arguments Raise {A} e.
Arguments Sync {A X} act k.
Arguments Await {A X} c k.

Fixpoint task_bind {A B} (t : Task A) (f : A -> Task B) : Task B :=
  match t with
  | Done a => f a
  | Raise e => Raise e
  | Sync act k => Sync act (fun x => task_bind (k x) f)
  | Await c k => Await c (fun o => task_bind (k o) f)
  end.

(** [try { t } catch (error) { h error }] *)
Fixpoint task_catch {A} (t : Task A) (h : JsError -> Task A) : Task A :=
  match t with
  | Done a => Done a
  | Raise e => h e
  | Sync act k => Sync act (fun x => task_catch (k x) h)
  | Await c k => Await c (fun o => task_catch (k o) h)
  end.

Definition of_outcome {A} (o : outcome A) : Task A :=
  match o with Return a => Done a | Throw e => Raise e end.

Definition await {X} (c : Call X) : Task X := Await c of_outcome.
Definition read {X} (f : Page -> X) : Task X := Sync (fun p => (f p, p)) Done.
Definition update (f : Page -> Page) : Task unit := Sync (fun p => (tt, f p)) Done.

Notation "'let!' x ':=' t 'in' k" := (task_bind t (fun x => k))
  (at level 10, x name, t at level 100, k at level 200).
Notation "'run!' t 'then' k" := (task_bind t (fun _ => k))
  (at level 10, t at level 100, k at level 200).

(** What evaluating an identifier that is neither imported nor defined
    throws, and what a call throws when the call stack is exhausted (with
    the message that V8 gives it). *)
Definition ReferenceError (name : string) : JsError :=
  Error (name +:+ " is not defined").

Definition RangeError : JsError := Error "Maximum call stack size exceeded".

(** A call statement whose function is such an identifier. *)
Definition unresolved (name : string) : Task unit := Raise (ReferenceError name).

Section Script.
(** [truncateText] of utils.js and the built-in methods
    [Number.prototype.toFixed] and [String.prototype.toUpperCase] are not
    among the sources. *)
Variable truncateText : string -> nat -> string.
Variable toFixed : float -> nat -> string.
Variable toUpperCase : string -> string.
(** The frames that the call stack has left when a handler of the page
    starts. *)
Variable frames : nat.

Definition showStatus_on (message type : string) (p : Page) : Page :=
  match statusIndicator p with
  | None => p
  | Some _ =>
      with_status {| textContent := message;
                     className := "status-indicator status-" +:+ type;
                     hidden := false |}
                  (if String.eqb type "success"
                   then S (hideTimers p) else hideTimers p)
                  p
  end.

Definition showStatus (message type : string) : Task unit :=
  update (showStatus_on message type).

Definition getCurrentLanguageDirection (p : Page) : LanguageDirection :=
  {| direction_source := currentSourceLang p;
     direction_target := if String.eqb (currentSourceLang p) "en" then "es" else "en" |}.

Definition context_item_html (context : ContextUsed) : Html :=
  let score := toFixed (used_score context * 100)%float 1 in
  Element "div" [("class", "context-item")]
    [ Element "div" [("class", "context-header")]
        [ Element "span" [("class", "context-level")]
            [Markup (toUpperCase (used_level context))];
          Element "span" [("class", "context-score")]
            [Markup (score +:+ "% similar")] ];
      Element "div" [("class", "context-title")]
        [Markup (default "Unknown Source"
                   (match truthy_key (used_title context) with
                    | Some t => Some t
                    | None => truthy_key (used_document_id context)
                    end))];
      Element "div" [("class", "context-preview")]
        [Markup (truncateText (used_text context) 150)] ].

Definition no_context_html : list Html :=
  [ Element "p" [("style", "color: var(--gray-500); font-style: italic;")]
      [Markup "No relevant context found in corpus for this translation."] ].

Definition translation_html (translatedText : string) : list Html :=
  [ Element "div" [("class", "translation-result")]
      [ Element "h3" [] [Markup "Translation:"];
        Element "p" [("class", "translated-text")] [Markup translatedText] ] ].

Definition context_html (contextUsed : list ContextUsed) : list Html :=
  [ Element "div" [("class", "context-summary")]
      [Element "h4" [] [Markup "Context Sources Used:"]];
    Element "div" [("class", "context-items")]
      (context_item_html <$> contextUsed) ].

Definition updateTranslationOutput_on (translatedText : string)
           (contextUsed : list ContextUsed) (p : Page) : Page :=
  let p :=
    match translationOutput p with
    | Some _ => with_translationOutput (translation_html translatedText) p
    | None => p
    end in
  match contextInfo p with
  | Some _ =>
      if (0 <? List.length contextUsed)%nat
      then with_contextInfo (context_html contextUsed) p
      else with_contextInfo no_context_html p
  | None => p
  end.

Definition updateTranslationOutput (translatedText : string)
           (contextUsed : list ContextUsed) : Task unit :=
  update (updateTranslationOutput_on translatedText contextUsed).

(** Steps 7 and 8 of [handleTranslation]. *)
Definition translate_and_display (sourceText : string)
           (contextResults : ContextResults) : Task unit :=
  run! showStatus "Translating with context..." "loading" then
  let! languageDirection := read getCurrentLanguageDirection in
  let! database := read documentDatabase in
  let! translationResult :=
    await (TranslateWithContext sourceText contextResults
             languageDirection database) in
  run! showStatus "Translation completed successfully!" "success" then
  updateTranslationOutput (translatedText translationResult)
                          (contextUsed translationResult).

Definition translation_failed (error : JsError) : Task unit :=
  let message := error_message error in
  if includes "DeepSeek API" message
  then showStatus "Translation service error - please check your API key" "error"
  else if includes "embedding server" message
  then showStatus "Embedding server issue - check if server is running" "error"
  else if includes "No relevant context" message
  then showStatus "No relevant context found in corpus" "error"
  else showStatus ("Translation failed: " +:+ message) "error".

(** What is left of [handleTranslation] once the translation call has
    settled: the end of the [try] block, under its [catch]. *)
Definition translation_settled (o : outcome TranslationResult) : Task unit :=
  task_catch
    (let! translationResult := of_outcome o in
     run! showStatus "Translation completed successfully!" "success" then
     updateTranslationOutput (translatedText translationResult)
                             (contextUsed translationResult))
    translation_failed.

(** The options that [handleTranslation] reads from the page; a value of
    the select element that names no strategy is taken as [balanced]. *)
Definition page_search_options (p : Page) : SearchOptions :=
  {| useAdvancedScoring :=
       match advancedScoring p with Some false => false | _ => true end;
     search_priorityStrategy :=
       let priorityStrategy := default "balanced" (truthy_key (priorityStrategySelect p)) in
       if String.eqb priorityStrategy "documents_first" then documents_first
       else if String.eqb priorityStrategy "paragraphs_first" then paragraphs_first
       else balanced;
     maxContextLength := 8000 |}.

(** Step 1: Ensure embedding API is ready *)
Definition ensure_embedding_ready : Task unit :=
  let! isReady := await IsEmbeddingModelReady in
  if negb isReady
  then run! showStatus "Checking embedding API..." "loading" then
       run! await LoadEmbeddingModel then
       showStatus "Embedding API ready" "success"
  else Done tt.

(** Step 2: Create embedding for user input *)
Definition create_embedding (sourceText : string) : Task UserInputEmbedding :=
  run! showStatus "Creating text embedding..." "loading" then
  let! userEmbedding := await (CreateUserInputEmbedding sourceText) in
  run! showStatus "Text vectorized successfully" "success" then
  Done userEmbedding.

(** Steps 3 to 5: read the options, search the corpus, show the counts *)
Definition search_context (userEmbedding : UserInputEmbedding) : Task ContextResults :=
  let! options := read page_search_options in
  run! showStatus "Searching corpus for relevant context..." "loading" then
  let! store := read vectorData in
  let! contextResults :=
    await (FindSimilarContext (ue_embedding userEmbedding) store options) in
  let resultCount := meta_totalResults (metadata contextResults) in
  let contextLength := meta_contextLength (metadata contextResults) in
  run! (if (0 <? resultCount)%nat
        then showStatus ("Found " +:+ pretty resultCount
                         +:+ " relevant passages (" +:+ pretty contextLength
                         +:+ " chars)") "success"
        else showStatus
               "No relevant context found - translating without corpus assistance"
               "error") then
  Done contextResults.

(** [window.setDeepSeekApiKey]. main.js imports no [setDeepSeekApiKey]
    and declares none: the identifier in the body of the function is the
    property of [window] that this assignment defines, so that the
    function calls itself, one frame deeper each time, and what stands
    after the call is never reached. [storeDeepSeekApiKeyLocally] is
    neither imported nor defined. *)
Fixpoint window_setDeepSeekApiKey (depth : nat) (apiKey : string) : Task unit :=
  match depth with
  | 0 => Raise RangeError
  | S depth =>
      run! window_setDeepSeekApiKey depth apiKey then
      run! unresolved "storeDeepSeekApiKeyLocally" then
      showStatus "DeepSeek API key set and stored" "success"
  end.

(** Step 6: Check translation API readiness; [false] when the user gives
    no key and [handleTranslation] returns. The [setDeepSeekApiKey] that
    is called with the key is the global [window.setDeepSeekApiKey]. *)
Definition ensure_translation_ready : Task bool :=
  run! showStatus "Checking translation API..." "loading" then
  let! translationReady := await IsDeepSeekApiReady in
  if negb translationReady then
    run! showStatus "DeepSeek API key required. Please set your API key."
           "error" then
    let! apiKey := read promptReply in
    match truthy_key apiKey with
    | Some apiKey =>
        run! window_setDeepSeekApiKey frames apiKey then
        run! unresolved "storeDeepSeekApiKeyLocally" then
        run! showStatus "API key set successfully" "success" then
        Done true
    | None =>
        run! showStatus "Translation cancelled - API key required" "error" then
        Done false
    end
  else Done true.

Definition handleTranslation : Task unit :=
  let! sourceText := read (fun p => trim <$> sourceTextArea p) in
  match truthy_key sourceText with
  | None => showStatus "Please enter some text to translate" "error"
  | Some sourceText =>
      task_catch
        (run! ensure_embedding_ready then
         let! userEmbedding := create_embedding sourceText in
         let! contextResults := search_context userEmbedding in
         let! proceed := ensure_translation_ready in
         if proceed
         then translate_and_display sourceText contextResults
         else Done tt)
        translation_failed
  end.

(** *** One pipeline, run to its end

    The calls are answered on the spot by [answer]; the calls made are
    recorded, oldest first. *)

Inductive Issued : Type :=
| issued {X : Type} (c : Call X).

Definition Answers : Type := forall X : Type, Call X -> outcome X.

(** The answers as main.js stands: it imports the three calls of
    embedding-jina.js, answered by [a], and neither imports nor defines
    [findSimilarContext], [isDeepSeekApiReady] and [translateWithContext],
    so that, unless another script of the page defines them as globals,
    evaluating the call throws. *)
Definition shipped (a : Answers) : Answers :=
  fun X call =>
    match call in Call X return outcome X with
    | FindSimilarContext _ _ _ => Throw (ReferenceError "findSimilarContext")
    | IsDeepSeekApiReady => Throw (ReferenceError "isDeepSeekApiReady")
    | TranslateWithContext _ _ _ _ => Throw (ReferenceError "translateWithContext")
    | IsEmbeddingModelReady => a _ IsEmbeddingModelReady
    | LoadEmbeddingModel => a _ LoadEmbeddingModel
    | CreateUserInputEmbedding text => a _ (CreateUserInputEmbedding text)
    end.

Fixpoint run {A} (answer : Answers) (t : Task A) (p : Page)
  : outcome A * Page * list Issued :=
  match t with
  | Done a => (Return a, p, [])
  | Raise e => (Throw e, p, [])
  | Sync act k => let '(x, p') := act p in run answer (k x) p'
  | Await c k =>
      let '(r, p', calls) := run answer (k (answer _ c)) p in
      (r, p', issued c :: calls)
  end.

(** *** The event loop

    A task runs until it awaits; the awaited call and the rest of the task
    are kept until the call settles. *)

Inductive Suspended : Type :=
| suspended {X : Type} (c : Call X) (k : outcome X -> Task unit).

Fixpoint advance (t : Task unit) (p : Page) : Page * option Suspended :=
  match t with
  | Done _ => (p, None)
  | Raise _ => (p, None)
  | Sync act k => let '(x, p') := act p in advance (k x) p'
  | Await c k => (p, Some (suspended c k))
  end.

Record Loop : Type := {
  page : Page;
  pending : list Suspended
}.

Definition resume (t : Task unit) (before after : list Suspended) (p : Page) : Loop :=
  let '(p', s) := advance t p in
  {| page := p'; pending := before ++ option_list s ++ after |}.

(** The events of the page: the user edits the text area; the user clicks
    the translate button, whose listener [setupTranslateButton] installs
    when the button exists and which starts [handleTranslation]; the call
    awaited by the [i]-th suspended task settles, with the answer that
    [answer] gives for it; a status timer fires. *)
Inductive Event : Type :=
| Input (value : string)
| Click
| Settle (i : nat) (answer : Answers)
| Timer.

(** The loop after an event; [None] when the event cannot happen. *)
Definition fire (e : Event) (l : Loop) : option Loop :=
  match e with
  | Input value =>
      Some {| page := with_sourceText value (page l); pending := pending l |}
  | Click =>
      if translateButton (page l)
      then Some (resume handleTranslation (pending l) [] (page l))
      else None
  | Settle i answer =>
      match pending l !! i with
      | Some (suspended c k) =>
          Some (resume (k (answer _ c)) (take i (pending l))
                       (drop (S i) (pending l)) (page l))
      | None => None
      end
  | Timer =>
      match statusIndicator (page l), hideTimers (page l) with
      | Some indicator, S n =>
          Some {| page := with_status {| textContent := textContent indicator;
                                         className := className indicator;
                                         hidden := true |} n (page l);
                  pending := pending l |}
      | _, _ => None
      end
  end.


(** The empty selection, as the page receives it. *)
Definition no_context : ContextResults :=
  {| results := [];
     metadata := {| meta_totalResults := 0; meta_contextLength := 0 |} |}.

(** Two pages that differ at most in the status line and its timers. *)
Record same_content (p q : Page) : Prop := {
  sc_translationOutput : translationOutput q = translationOutput p;
  sc_contextInfo : contextInfo q = contextInfo p;
  sc_sourceTextArea : sourceTextArea q = sourceTextArea p;
  sc_advancedScoring : advancedScoring q = advancedScoring p;
  sc_priorityStrategySelect : priorityStrategySelect q = priorityStrategySelect p;
  sc_vectorData : vectorData q = vectorData p;
  sc_documentDatabase : documentDatabase q = documentDatabase p;
  sc_currentSourceLang : currentSourceLang q = currentSourceLang p;
  sc_promptReply : promptReply q = promptReply p
}.


(** *** The rest of the script *)

(** The status line that the [catch] of [handleTranslation] shows for an
    error with this message. *)
Definition failure_status (message : string) : string :=
  if includes "DeepSeek API" message
  then "Translation service error - please check your API key"
  else if includes "embedding server" message
  then "Embedding server issue - check if server is running"
  else if includes "No relevant context" message
  then "No relevant context found in corpus"
  else "Translation failed: " +:+ message.

(** [q] is [p] after some status messages: all that the steps of
    [handleTranslation] before the display of the translation do to the
    page. *)
Inductive status_only : Page -> Page -> Prop :=
| status_only_refl (p : Page) : status_only p p
| status_only_show (p q : Page) (message type : string) :
    status_only p q -> status_only p (showStatus_on message type q).

(** Two pages that agree on everything but the translation area and the
    context area. *)
Definition status_only_fields (p q : Page) : Prop :=
  statusIndicator q = statusIndicator p
  /\ sourceTextArea q = sourceTextArea p
  /\ translateButton q = translateButton p
  /\ advancedScoring q = advancedScoring p
  /\ priorityStrategySelect q = priorityStrategySelect p
  /\ vectorData q = vectorData p
  /\ documentDatabase q = documentDatabase p
  /\ currentSourceLang q = currentSourceLang p
  /\ hideTimers q = hideTimers p
  /\ promptReply q = promptReply p.

(** The error of a result, and the error with which an issued call has
    been answered, if any. *)
Definition error_of {A} (r : outcome A) : option JsError :=
  match r with Throw e => Some e | Return _ => None end.

Definition thrown_by (answer : Answers) (i : Issued) : option JsError :=
  match i with issued c => error_of (answer _ c) end.

Definition loaded_message (store : VectorStore) : string :=
  let totalVectors :=
    (List.length (documents store) + List.length (paragraphs store)
     + List.length (sections store))%nat in
  "Loaded " +:+ pretty (List.length (documents store)) +:+ " documents, "
  +:+ pretty (List.length (sections store)) +:+ " sections, "
  +:+ pretty (List.length (paragraphs store)) +:+ " paragraphs (Total: "
  +:+ pretty totalVectors +:+ " vectors)".

(** [loadCorpusData], run from its start to its end, given how the one
    call it awaits, [initializeCorpusLegacyFormat()], settles. *)
Definition loadCorpusData (loaded : outcome CorpusData) (p : Page) : bool * Page :=
  let p := showStatus_on "Loading corpus vector data..." "loading" p in
  match loaded with
  | Return corpusData =>
      let p := with_corpus corpusData p in
      (true, showStatus_on (loaded_message (vectorData p)) "success" p)
  | Throw error =>
      (false,
       showStatus_on "Failed to load corpus data. Translation may not work optimally."
                     "error" p)
  end.

Definition submitFeedback : Task unit :=
  showStatus "Feedback system coming soon..." "success".

Definition getVectorData (p : Page) : VectorStore := vectorData p.
Definition getDocumentDatabase (p : Page) : DocumentDatabase := documentDatabase p.

(** *** The language toggle *)

(** An element of [languageOptions]: its [data-lang] attribute, and
    whether its class list holds "active". *)
Record LanguageOption : Type := {
  dataset_lang : string;
  active : bool
}.

(** The elements that only the toggle touches: the options, the text of
    [targetLanguageSpan] ([None]: no such element), and the placeholder
    of the text area. *)
Record Toggle : Type := {
  languageOptions : list LanguageOption;
  targetLanguageSpan : option string;
  placeholder : string
}.

Definition deactivate (o : LanguageOption) : LanguageOption :=
  {| dataset_lang := dataset_lang o; active := false |}.

Definition activate (o : LanguageOption) : LanguageOption :=
  {| dataset_lang := dataset_lang o; active := true |}.

(** Two pages that differ at most in the source language. *)
Definition same_content_but_language (p q : Page) : Prop :=
  statusIndicator q = statusIndicator p
  /\ translationOutput q = translationOutput p
  /\ contextInfo q = contextInfo p
  /\ sourceTextArea q = sourceTextArea p
  /\ vectorData q = vectorData p
  /\ documentDatabase q = documentDatabase p
  /\ hideTimers q = hideTimers p.

(** "Ingrese su texto en espa\u00F1ol aqu\u00ED para traducir al
    ingl\u00E9s...", with the three letters that are not ASCII as their
    code units 241, 237 and 233. *)
Definition spanish_placeholder : string :=
  "Ingrese su texto en espa" +:+ String "241"%char "ol aqu"
  +:+ String "237"%char " para traducir al ingl" +:+ String "233"%char "s...".

(** The listener that [setupLanguageToggle] installs on the [i]-th
    option; [None] when there is no such option. *)
Definition language_option_click (i : nat) (t : Toggle) (p : Page)
  : option (Toggle * Page) :=
  match languageOptions t !! i with
  | None => None
  | Some clicked =>
      let lang := dataset_lang clicked in
      Some ({| languageOptions :=
                 alter activate i (deactivate <$> languageOptions t);
               targetLanguageSpan :=
                 (fun _ => if String.eqb lang "en" then "Spanish" else "English")
                   <$> targetLanguageSpan t;
               placeholder :=
                 match sourceTextArea p with
                 | Some _ =>
                     if String.eqb lang "en"
                     then "Enter your English text here for translation to Spanish..."
                     else spanish_placeholder
                 | None => placeholder t
                 end |},
            with_currentSourceLang lang p)
  end.

End Script.

End Main.

(** ** The page script on top of the embeddings client *)

Module App.
Import EmbeddingJina Similarity Main.

(** The state of the two modules together. *)
Record World : Type := {
  client : State;
  view : Page
}.

(** Whether a call goes to embedding-jina.js. *)
Definition client_call {X} (c : Call X) : bool :=
  match c with
  | IsEmbeddingModelReady | LoadEmbeddingModel | CreateUserInputEmbedding _ => true
  | FindSimilarContext _ _ _ | IsDeepSeekApiReady | TranslateWithContext _ _ _ _ => false
  end.

(** A task that awaits no call of embedding-jina.js, however the calls
    it awaits are answered. *)
Inductive no_client_call {A : Type} : Task A -> Prop :=
| no_client_call_Done (a : A) : no_client_call (Done a)
| no_client_call_Raise (e : JsError) : no_client_call (Raise e)
| no_client_call_Sync {X : Type} (act : Page -> X * Page) (k : X -> Task A) :
    (forall x, no_client_call (k x)) -> no_client_call (Sync act k)
| no_client_call_Await {X : Type} (c : Call X) (k : outcome X -> Task A) :
    client_call c = false -> (forall o, no_client_call (k o)) ->
    no_client_call (Await c k).

Section Linked.
Variable env : Env.
Variable truncateText : string -> nat -> string.
Variable toFixed : float -> nat -> string.
(** The answers of the modules that are not at hand, for
    [findSimilarContext], [isDeepSeekApiReady] and
    [translateWithContext]. *)
Variable other : Answers.

(** A call, as the module that exports it runs it. *)
Definition settle {X} (c : Call X) : M X :=
  match c in Call X return M X with
  | IsEmbeddingModelReady => isEmbeddingModelReady env
  | LoadEmbeddingModel => loadEmbeddingModel env
  | CreateUserInputEmbedding text => createUserInputEmbedding env (JsString text)
  | FindSimilarContext queryEmbedding store options =>
      lift (other _ (FindSimilarContext queryEmbedding store options))
  | IsDeepSeekApiReady => lift (other _ IsDeepSeekApiReady)
  | TranslateWithContext sourceText context direction database =>
      lift (other _ (TranslateWithContext sourceText context direction database))
  end.

(** One task, run to its end on both modules; the calls made are
    recorded, oldest first. *)
Fixpoint run_linked {A} (t : Task A) (w : World) : outcome A * World * list Issued :=
  match t with
  | Done a => (Return a, w, [])
  | Raise e => (Throw e, w, [])
  | Sync act k =>
      let '(x, p') := act (view w) in
      run_linked (k x) {| client := client w; view := p' |}
  | Await c k =>
      let '(o, s') := settle c (client w) in
      let '(r, w', calls) := run_linked (k o) {| client := s'; view := view w |} in
      (r, w', issued c :: calls)
  end.

(** [window.testEmbedding], run from its start to its end; [None] is the
    [undefined] that it answers after an error. *)
Definition window_testEmbedding (w : World) : option ModelStatus * World :=
  let p := showStatus_on "Testing JINA API..." "loading" (view w) in
  match getEmbeddingModelStatus env (client w) with
  | (Return status, s) =>
      (Some status,
       {| client := s; view := showStatus_on "JINA API test completed" "success" p |})
  | (Throw _, s) =>
      (None, {| client := s; view := showStatus_on "JINA API test failed" "error" p |})
  end.

(** [window.setJinaApiKey] and [window.storeJinaKey]: the status line is
    reached only when the key has been accepted. *)
Definition window_setJinaApiKey (apiKey : JsValue) (w : World) : outcome unit * World :=
  match setJinaApiKey apiKey (client w) with
  | (Return _, s) =>
      (Return tt,
       {| client := s;
          view := showStatus_on "JINA API key set successfully" "success" (view w) |})
  | (Throw e, s) => (Throw e, {| client := s; view := view w |})
  end.

Definition window_storeJinaKey (apiKey : JsValue) (w : World) : outcome unit * World :=
  match storeApiKeyLocally apiKey (client w) with
  | (Return _, s) =>
      (Return tt,
       {| client := s;
          view := showStatus_on "JINA API key stored locally" "success" (view w) |})
  | (Throw e, s) => (Throw e, {| client := s; view := view w |})
  end.

End Linked.

End App.

(** ** Sample data *)

Module Examples.
Import EmbeddingJina Similarity Main App.

Definition provider_response (vector : list float) : Response :=
  {| resp_ok := true; resp_status := 200; resp_text := Some "";
     resp_json := Return {| data := Some [ {| embedding := Some vector |} ];
                            usage := None |} |}.

(** A development machine whose provider answers with two-dimensional
    vectors, against a corpus of dimension 1024. *)
Definition local_env : Env :=
  {| hostname := "localhost";
     ENV_VARS_JINA_API_KEY := None;
     api_config_js := None;
     fetch := fun _ _ => Responds (provider_response [0.5; 0.25]%float);
     cleanText := trim;
     EMBEDDING_dimension := 1024;
     now := "2025-01-01T00:00:00.000Z" |}.

Definition pages_env : Env :=
  {| hostname := "alamar-b.github.io";
     ENV_VARS_JINA_API_KEY := None;
     api_config_js := None;
     fetch := fun _ _ => Responds (provider_response [0.5; 0.25]%float);
     cleanText := trim;
     EMBEDDING_dimension := 1024;
     now := "2025-01-01T00:00:00.000Z" |}.

Definition fresh_state : State :=
  {| API_KEY := None; localStorage := Some ∅; localApiConfig := None;
     configLoadAttempted := false; fetched := [] |}.

Definition keyed_state : State :=
  {| API_KEY := Some "jina_test_key"; localStorage := Some ∅;
     localApiConfig := None; configLoadAttempted := false; fetched := [] |}.

(** The same machine with a key in its storage, and one with a key in
    api-config.js; a deployed page with an injected key. *)
Definition stored_state : State :=
  {| API_KEY := None; localStorage := Some (<["jina_api_key" := "jina_stored"]> ∅);
     localApiConfig := None; configLoadAttempted := false; fetched := [] |}.

(** A storage that holds a copy of the injected key. *)
Definition copied_state : State :=
  {| API_KEY := None; localStorage := Some (<["jina_api_key" := "jina_injected"]> ∅);
     localApiConfig := None; configLoadAttempted := false; fetched := [] |}.

Definition file_env : Env :=
  {| hostname := "localhost";
     ENV_VARS_JINA_API_KEY := None;
     api_config_js := Some {| config_API_KEY := Some "jina_from_file" |};
     fetch := fun _ _ => Responds (provider_response [0.5; 0.25]%float);
     cleanText := trim;
     EMBEDDING_dimension := 1024;
     now := "2025-01-01T00:00:00.000Z" |}.

(** A development machine whose provider refuses every request. *)
Definition denied_env : Env :=
  {| hostname := "localhost";
     ENV_VARS_JINA_API_KEY := None;
     api_config_js := None;
     fetch := fun _ _ =>
       Responds {| resp_ok := false; resp_status := 401; resp_text := None;
                   resp_json := Throw (Error "SyntaxError: Unexpected end of JSON input") |};
     cleanText := trim;
     EMBEDDING_dimension := 1024;
     now := "2025-01-01T00:00:00.000Z" |}.

(** A development machine whose provider answers with an empty [data]
    array. *)
Definition empty_env : Env :=
  {| hostname := "localhost";
     ENV_VARS_JINA_API_KEY := None;
     api_config_js := None;
     fetch := fun _ _ =>
       Responds {| resp_ok := true; resp_status := 200; resp_text := Some "";
                   resp_json := Return {| data := Some []; usage := None |} |};
     cleanText := trim;
     EMBEDDING_dimension := 1024;
     now := "2025-01-01T00:00:00.000Z" |}.

Definition injected_env : Env :=
  {| hostname := "alamar-b.github.io";
     ENV_VARS_JINA_API_KEY := Some "jina_injected";
     api_config_js := None;
     fetch := fun _ _ => Responds (provider_response [0.5; 0.25]%float);
     cleanText := trim;
     EMBEDDING_dimension := 1024;
     now := "2025-01-01T00:00:00.000Z" |}.

Fixpoint replicate_char (n : nat) (c : ascii) : string :=
  match n with
  | O => EmptyString
  | S n' => String c (replicate_char n' c)
  end.

Definition long_text : string := replicate_char 8200 "a".

(** The corpus of the budgeting example: a long document scored 0.9 and a
    short paragraph scored 0.5. *)
Definition item1 : CorpusItem :=
  {| id := 1; level := document; item_embedding := [1; 0]%float;
     text := replicate_char 50 "x"; title := None; document_id := None |}.

Definition item2 : CorpusItem :=
  {| id := 2; level := paragraph; item_embedding := [0.5; 0.5]%float;
     text := replicate_char 10 "y"; title := None; document_id := None |}.

Definition ranked_example : list (ScoredMatch Q) :=
  [ {| item := item1; score := 9 # 10; match_level := document |};
    {| item := item2; score := 1 # 2; match_level := paragraph |} ].

Definition store_example : VectorStore :=
  {| documents := [item1]; sections := []; paragraphs := [item2] |}.

Definition plain_weighting (lvl : Level) (query candidate : list float) : float :=
  (Scorer.dot query candidate / (Scorer.magnitude query * Scorer.magnitude candidate))%float.












Definition demo_page : Page :=
  {| statusIndicator := Some {| textContent := ""; className := "status-indicator";
                                hidden := true |};
     translationOutput := Some [];
     contextInfo := Some [];
     sourceTextArea := Some "";
     translateButton := true;
     advancedScoring := Some false;
     priorityStrategySelect := Some "balanced";
     vectorData := store_example;
     documentDatabase := {| english := ∅; spanish := ∅ |};
     currentSourceLang := "en";
     hideTimers := 0;
     promptReply := None |}.

Definition demo_embedding (text : string) : UserInputEmbedding :=
  {| originalText := text; preprocessedText := text;
     ue_embedding := [1; 0]%float; dimension := 2;
     model := MODEL JINA_CONFIG; apiType := "jina"; apiKeySource := "manual";
     ue_environment := local_development; ue_usage := None;
     timestamp := "2025-01-01T00:00:00.000Z";
     dimensionMismatch := {| userEmbedding := 2; corpusVectors := 2;
                             note := "Dimensions match" |} |}.

(** Answers of a page on which every call succeeds: the model is ready,
    the embedding is created, and the three functions that main.js does
    not import are defined by another script, as stubs: the search finds
    nothing, the translation service says whether it is [ready] and
    translates every text into [translation]. *)
Definition provided (ready : bool) (translation : string) : Answers :=
  fun X call =>
    match call in Call X return outcome X with
    | IsEmbeddingModelReady => Return true
    | LoadEmbeddingModel => Throw (Error "not used")
    | CreateUserInputEmbedding text => Return (demo_embedding text)
    | FindSimilarContext _ _ _ => Return no_context
    | IsDeepSeekApiReady => Return ready
    | TranslateWithContext _ _ _ _ =>
        Return {| translatedText := translation; contextUsed := [];
                  translation_metadata := JNull |}
    end.

Definition demo_truncateText (s : string) (n : nat) : string := String.substring 0 n s.
Definition demo_toFixed (x : float) (digits : nat) : string := "0.0".
(** [toUpperCase] as it is on strings of ASCII characters. *)
Definition demo_toUpperCase (s : string) : string :=
  string_of_list_ascii
    ((fun c => let n := nat_of_ascii c in
               if (97 <=? n)%nat && (n <=? 122)%nat then ascii_of_nat (n - 32) else c)
       <$> list_ascii_of_string s).
Definition demo_frames : nat := 3.


(** The same page before any corpus is loaded. *)
Definition empty_corpus_page : Page :=
  {| statusIndicator := statusIndicator demo_page;
     translationOutput := Some [];
     contextInfo := Some [];
     sourceTextArea := Some "  good morning ";
     translateButton := true;
     advancedScoring := None;
     priorityStrategySelect := None;
     vectorData := {| documents := []; sections := []; paragraphs := [] |};
     documentDatabase := {| english := ∅; spanish := ∅ |};
     currentSourceLang := "en";
     hideTimers := 0;
     promptReply := None |}.

(** What [createUserInputEmbedding] returns for " hola " on the
    development machine. *)
Definition hola_embedding : UserInputEmbedding :=
  {| originalText := " hola "; preprocessedText := "hola";
     ue_embedding := [0.5; 0.25]%float; dimension := 2;
     model := "jina-embeddings-v3"; apiType := "jina"; apiKeySource := "manual";
     ue_environment := local_development; ue_usage := None;
     timestamp := "2025-01-01T00:00:00.000Z";
     dimensionMismatch :=
       {| userEmbedding := 2; corpusVectors := 1024;
          note := "Dimension mismatch - consider regenerating corpus" |} |}.

Definition uno : Answers := provided true "uno".










Definition buenos_dias : TranslationResult :=
  {| translatedText := "buenos dias"; contextUsed := [];
     translation_metadata := JNull |}.

(** A page with a toggle of two options, English chosen. *)
Definition demo_toggle : Toggle :=
  {| languageOptions := [ {| dataset_lang := "en"; active := true |};
                          {| dataset_lang := "es"; active := false |} ];
     targetLanguageSpan := Some "Spanish";
     placeholder := "Enter your English text here for translation to Spanish..." |}.

(** The page on a development machine, without and with a key. *)
Definition fresh_world : World :=
  {| client := fresh_state; view := empty_corpus_page |}.

Definition keyed_world : World :=
  {| client := keyed_state; view := empty_corpus_page |}.

End Examples.

(** * Properties *)

(** ** The embeddings client *)

Module EmbeddingJinaProofs.
Import EmbeddingJina Examples.

Ltac run_monad :=
  unfold safeAsync, try_catch, bind, get, ret, throw, lift, modify in *;
  simpl in *.

Lemma not_is_Some_None {A} (o : option A) :
  bool_decide (is_Some o) = false -> o = None.
Proof.
  destruct o as [a|]; [|done].
  intros H. apply bool_decide_eq_false in H. destruct H. by exists a.
Qed.

Lemma credential_configured_false (env : Env) (s : State) :
  credential_configured env s = false <-> NoCredential env s.
Proof.
  unfold credential_configured. split.
  - intros Hc.
    repeat (apply orb_false_iff in Hc; destruct Hc as [Hc ?]).
    repeat match goal with
           | H : bool_decide (is_Some _) = false |- _ => apply not_is_Some_None in H
           end.
    split; try assumption.
    intros Hatt. rewrite Hatt in *. simpl in *. by apply not_is_Some_None.
  - intros [H1 H2 H3 H4 H5]. rewrite H1, H2, H3, H5. simpl.
    destruct (configLoadAttempted s); simpl; [done|]. by rewrite H4.
Qed.

(** Without a credential [getApiKey] answers [null]; it may have tried the
    configuration file, and nothing else has changed. *)
Lemma getApiKey_none (env : Env) (s : State) :
  NoCredential env s ->
  storage_readable env s = true ->
  exists s', getApiKey env s = (Return None, s')
    /\ fetched s' = fetched s
    /\ NoCredential env s'
    /\ storage_readable env s' = true.
Proof.
  intros Hnc Hr. pose proof Hnc as [H1 H2 H3 H4 H5].
  unfold stored_key in H2.
  assert (Hkeep : forall cfg, truthy_key (cfg ≫= config_API_KEY) = None ->
            NoCredential env (with_localApiConfig cfg s)
            /\ storage_readable env (with_localApiConfig cfg s) = true).
  { intros cfg Hcfg. split; [|exact Hr]. split; try assumption. simpl. done. }
  unfold getApiKey, tryLoadLocalConfig, localStorage_getItem. run_monad.
  rewrite H1.
  destruct (detectEnvironment env) eqn:Henv; simpl.
  - rewrite H5. by exists s.
  - pose proof Hr as Hr0.
    unfold storage_readable in Hr. rewrite Henv, orb_false_r in Hr.
    apply bool_decide_eq_true in Hr.
    destruct Hr as [items Hls]. rewrite Hls in *. simpl in *. rewrite H2.
    destruct (configLoadAttempted s) eqn:Hatt; simpl.
    + rewrite H3. by exists s.
    + destruct (api_config_js env) as [cfg|] eqn:Hcfg; simpl.
      * specialize (H4 eq_refl). simpl in H4. rewrite H4.
        eexists; split; [reflexivity|]. split; [reflexivity|].
        apply (Hkeep (Some cfg)). exact H4.
      * eexists; split; [reflexivity|]. split; [reflexivity|].
        apply (Hkeep (localApiConfig s)). exact H3.
Qed.

Lemma getApiKeyStatus_none (env : Env) (s : State) :
  NoCredential env s ->
  storage_readable env s = true ->
  exists s', getApiKeyStatus env s =
               (Return {| hasKey := false; source := "none"; keyPreview := None;
                          environment := detectEnvironment env;
                          isProduction := match detectEnvironment env with
                                          | github_pages => true
                                          | local_development => false
                                          end |}, s')
    /\ fetched s' = fetched s
    /\ NoCredential env s'
    /\ storage_readable env s' = true.
Proof.
  intros Hnc Hr.
  destruct (getApiKey_none env s Hnc Hr) as (s' & Hget & Hf & Hnc' & Hr').
  exists s'. unfold getApiKeyStatus, bind. rewrite Hget. simpl. done.
Qed.

Lemma callJinaAPI_none (env : Env) (s : State) (input : JinaInput)
      (options : gmap string Json) :
  NoCredential env s ->
  storage_readable env s = true ->
  exists s',
    callJinaAPI env input options s
    = (Throw {| error_stage := ["JINA_API_ERROR"];
                error_message := missing_credential_message env |}, s')
    /\ fetched s' = fetched s.
Proof.
  intros Hc Hr.
  destruct (getApiKey_none env s Hc Hr) as (s1 & Hget & Hf1 & Hnc1 & Hr1).
  destruct (getApiKeyStatus_none env s1 Hnc1 Hr1) as (s2 & Hst & Hf2 & _ & _).
  exists s2. split; [|congruence].
  unfold callJinaAPI, safeAsync, try_catch, bind. rewrite Hget. simpl.
  rewrite Hst. simpl. reflexivity.
Qed.

(** C8. When no credential is configured (no manual key, no stored key, no
    key in the configuration file or in the environment variables),
    [callJinaAPI] throws the error "JINA API key not available. ..."
    tagged [JINA_API_ERROR], [loadEmbeddingModel] throws "JINA API key
    required. ...", and [createUserInputEmbedding] on a usable text throws
    the error of [callJinaAPI]; in all three no request has been sent when
    the error is thrown. *)
Theorem embedding_call_without_credential (env : Env) (s : State) :
  credential_configured env s = false ->
  storage_readable env s = true ->
  (forall input options, exists s',
      callJinaAPI env input options s
      = (Throw {| error_stage := ["JINA_API_ERROR"];
                  error_message := missing_credential_message env |}, s')
      /\ fetched s' = fetched s)
  /\ (exists s',
      loadEmbeddingModel env s
      = (Throw {| error_stage := ["MODEL_LOAD_ERROR"];
                  error_message := key_required_message env |}, s')
      /\ fetched s' = fetched s)
  /\ (forall text, text <> "" -> cleanText env text <> "" -> exists s',
      createUserInputEmbedding env (JsString text) s
      = (Throw {| error_stage := ["EMBEDDING_CREATE_ERROR"; "JINA_API_ERROR"];
                  error_message := missing_credential_message env |}, s')
      /\ fetched s' = fetched s).
Proof.
  intros Hc Hr. apply credential_configured_false in Hc.
  split; [|split].
  - intros input options. by apply callJinaAPI_none.
  - destruct (getApiKeyStatus_none env s Hc Hr) as (s1 & Hst & Hf & _ & _).
    exists s1. split; [|exact Hf].
    unfold loadEmbeddingModel, safeAsync, try_catch, bind. rewrite Hst. reflexivity.
  - intros text Htext Hclean.
    destruct (callJinaAPI_none env s (Single (JsString (cleanText env text))) ∅ Hc Hr)
      as (s1 & Hcall & Hf).
    exists s1. split; [|exact Hf].
    unfold createUserInputEmbedding, safeAsync, try_catch, bind. simpl.
    apply String.eqb_neq in Htext, Hclean. rewrite Htext, Hclean. simpl.
    unfold safeAsync, try_catch, bind in Hcall. unfold bind.
    rewrite Hcall. reflexivity.
Qed.

Lemma embedding_call_without_credential_witness :
  (exists s',
      callJinaAPI local_env (Single (JsString "hola")) ∅ fresh_state
      = (Throw {| error_stage := ["JINA_API_ERROR"];
                  error_message := missing_credential_message local_env |}, s')
      /\ fetched s' = fetched fresh_state)
  /\ (exists s',
      loadEmbeddingModel pages_env fresh_state
      = (Throw {| error_stage := ["MODEL_LOAD_ERROR"];
                  error_message := key_required_message pages_env |}, s')
      /\ fetched s' = fetched fresh_state).
Proof.
  split.
  - destruct (embedding_call_without_credential local_env fresh_state) as [H _];
      [reflexivity|reflexivity|apply H].
  - destruct (embedding_call_without_credential pages_env fresh_state) as (_ & H & _);
      [reflexivity|reflexivity|apply H].
Defined.

(** *** The input sent to the provider *)

Lemma length_substring_prefix (n : nat) (s : string) :
  (n <= String.length s)%nat -> String.length (String.substring 0 n s) = n.
Proof.
  revert s. induction n as [|n IH]; intros [|c s]; simpl; intros Hn;
    try reflexivity; try lia.
  f_equal. apply IH. lia.
Qed.

Lemma truncate_input_long (text : string) :
  (MAX_INPUT_LENGTH JINA_CONFIG < String.length text)%nat ->
  truncate_input text = String.substring 0 (MAX_INPUT_LENGTH JINA_CONFIG) text
  /\ String.length (truncate_input text) = MAX_INPUT_LENGTH JINA_CONFIG.
Proof.
  intros Hlong. unfold truncate_input.
  destruct (Nat.ltb_spec (MAX_INPUT_LENGTH JINA_CONFIG) (String.length text)) as [_|Hle];
    [|lia].
  split; [reflexivity|]. apply length_substring_prefix. lia.
Qed.

Lemma truncate_input_short (text : string) :
  (String.length text <= MAX_INPUT_LENGTH JINA_CONFIG)%nat ->
  truncate_input text = text.
Proof.
  intros Hshort. unfold truncate_input.
  destruct (Nat.ltb_spec (MAX_INPUT_LENGTH JINA_CONFIG) (String.length text)) as [Hlt|_];
    [lia|reflexivity].
Qed.

Lemma check_inputs_strings (index : nat) (texts : list string) :
  check_inputs index (JsString <$> texts) = Return (truncate_input <$> texts).
Proof.
  revert index. induction texts as [|text texts IH]; intros index; simpl.
  - reflexivity.
  - rewrite IH. reflexivity.
Qed.

Lemma requestBody_input (inputArray : list string) (options : gmap string Json) :
  options !! "input" = None ->
  requestBody inputArray options !! "input" = Some (JArr (JStr <$> inputArray)).
Proof.
  intros Hopt. unfold requestBody.
  rewrite lookup_union_r.
  - apply lookup_insert_eq.
  - rewrite lookup_union_None. split; [exact Hopt|]. reflexivity.
Qed.

(** C9. With a key at hand, [callJinaAPI] on string inputs sends one
    request whose [input] holds each string cut to its first
    [MAX_INPUT_LENGTH] = 8192 characters when it is longer, and unchanged
    otherwise; the cut raises no error: the result is the provider's
    answer whenever that answer is well formed. *)
Theorem callJinaAPI_truncates_input (env : Env) (s s1 : State) (key : string)
        (input : JinaInput) (texts : list string) (options : gmap string Json) :
  getApiKey env s = (Return (Some key), s1) ->
  key <> "" ->
  inputArray_of input = JsString <$> texts ->
  options !! "input" = None ->
  exists request result s',
    callJinaAPI env input options s = (result, s')
    /\ fetched s' = fetched s1 ++ [request]
    /\ req_body request !! "input" = Some (JArr (JStr <$> (truncate_input <$> texts)))
    /\ MAX_INPUT_LENGTH JINA_CONFIG = 8192%nat
    /\ Forall (fun text =>
                 ((8192 < String.length text)%nat ->
                  truncate_input text = String.substring 0 8192 text
                  /\ String.length (truncate_input text) = 8192%nat)
                 /\ ((String.length text <= 8192)%nat ->
                     truncate_input text = text)) texts
    /\ (forall response answer embeddings,
           fetch env (List.length (fetched s1)) request = Responds response ->
           resp_ok response = true ->
           resp_json response = Return answer ->
           data answer = Some embeddings ->
           result = Return answer).
Proof.
  intros Hkey Hne Hinput Hopt.
  destruct (callJinaAPI env input options s) as [result s'] eqn:Hcall.
  unfold callJinaAPI, safeAsync, try_catch, bind in Hcall.
  rewrite Hkey in Hcall. simpl in Hcall.
  apply String.eqb_neq in Hne. rewrite Hne in Hcall.
  rewrite Hinput, check_inputs_strings in Hcall.
  unfold lift, do_fetch, bind, get, modify in Hcall. simpl in Hcall.
  match type of Hcall with
  | context [with_request ?r s1] => set (request := r) in *
  end.
  exists request, result, s'. split; [reflexivity|].
  assert (Hfetched : fetched s' = fetched s1 ++ [request]).
  { destruct (fetch env (List.length (fetched s1)) request) as [response|e];
      unfold ret, throw in Hcall; simpl in Hcall.
    - destruct (resp_ok response); simpl in Hcall.
      + destruct (resp_json response) as [answer|e]; simpl in Hcall.
        * destruct (data answer); simpl in Hcall; by inversion Hcall.
        * by inversion Hcall.
      + by inversion Hcall.
    - by inversion Hcall. }
  split; [exact Hfetched|].
  split; [by apply requestBody_input|].
  split; [reflexivity|].
  split.
  - apply Forall_forall. intros text _. split.
    + apply truncate_input_long.
    + apply truncate_input_short.
  - intros response answer embeddings Hresp Hok Hjson Hdata.
    rewrite Hresp in Hcall. unfold ret in Hcall. simpl in Hcall.
    rewrite Hok in Hcall. simpl in Hcall.
    rewrite Hjson in Hcall. simpl in Hcall.
    rewrite Hdata in Hcall. simpl in Hcall. by inversion Hcall.
Qed.

Lemma callJinaAPI_truncates_input_witness :
  exists request result s',
    callJinaAPI local_env (Single (JsString long_text)) ∅ keyed_state = (result, s')
    /\ fetched s' = fetched keyed_state ++ [request]
    /\ req_body request !! "input" = Some (JArr [JStr (truncate_input long_text)])
    /\ String.length long_text = 8200%nat
    /\ String.length (truncate_input long_text) = 8192%nat.
Proof.
  destruct (callJinaAPI_truncates_input local_env keyed_state keyed_state
              "jina_test_key" (Single (JsString long_text)) [long_text] ∅)
    as (request & result & s' & Hcall & Hfetched & Hbody & _ & Hcut & _).
  - reflexivity.
  - discriminate.
  - reflexivity.
  - reflexivity.
  - exists request, result, s'.
    split; [exact Hcall|]. split; [exact Hfetched|]. split; [exact Hbody|].
    split; [vm_compute; reflexivity|].
    apply Forall_cons in Hcut as [[Hlong _] _]. apply Hlong.
    vm_compute. lia.
Defined.

(** *** Keys *)

Lemma getApiKey_manual (env : Env) (s : State) (key : string) :
  API_KEY s = Some key -> key <> "" ->
  getApiKey env s = (Return (Some key), s).
Proof.
  intros Hkey Hne. unfold getApiKey, bind, get. simpl.
  rewrite Hkey. simpl. apply String.eqb_neq in Hne. rewrite Hne. reflexivity.
Qed.

Lemma getApiKey_each_manual (envs : list Env) (s : State) (key : string) :
  API_KEY s = Some key -> key <> "" ->
  getApiKey_each envs s = ((fun _ => Return (Some key)) <$> envs, s).
Proof.
  intros Hkey Hne. induction envs as [|env envs IH]; simpl.
  - reflexivity.
  - rewrite (getApiKey_manual env s key Hkey Hne), IH. reflexivity.
Qed.

Lemma setJinaApiKey_returns (apiKey : JsValue) (s s' : State) :
  setJinaApiKey apiKey s = (Return tt, s') ->
  exists key, apiKey = JsString key /\ key <> "" /\ s' = with_API_KEY (Some key) s.
Proof.
  unfold setJinaApiKey. destruct apiKey as [key|b shown]; simpl.
  - destruct (String.eqb_spec key "") as [->|Hne]; simpl.
    + discriminate.
    + unfold modify. intros [= <-]. by exists key.
  - rewrite orb_true_r. discriminate.
Qed.

Lemma setJinaApiKey_throws (apiKey : JsValue) (s : State) :
  truthy apiKey && is_string apiKey = false ->
  setJinaApiKey apiKey s = (Throw (Error "Invalid API key provided"), s).
Proof.
  intros Hbad. unfold setJinaApiKey.
  destruct (truthy apiKey), (is_string apiKey); simpl in *; try discriminate;
    reflexivity.
Qed.

(** C10. When [storeApiKeyLocally(k)] returns, [k] is a non-empty string,
    it is the key held in memory, and every later [getApiKey], in whatever
    surroundings ([github_pages] included), returns [k] and changes
    nothing; when [k] is empty or not a string, [storeApiKeyLocally(k)]
    throws and the key held in memory is what it was. *)
Theorem storeApiKeyLocally_then_getApiKey (apiKey : JsValue) (s : State) :
  (forall s', storeApiKeyLocally apiKey s = (Return tt, s') ->
     exists key,
       apiKey = JsString key /\ key <> ""
       /\ API_KEY s' = Some key
       /\ (forall env, getApiKey env s' = (Return (Some key), s'))
       /\ (forall envs,
              getApiKey_each envs s' = ((fun _ => Return (Some key)) <$> envs, s')))
  /\ (truthy apiKey && is_string apiKey = false ->
      exists e s', storeApiKeyLocally apiKey s = (Throw e, s')
                   /\ API_KEY s' = API_KEY s).
Proof.
  split.
  - intros s' Hstore. unfold storeApiKeyLocally, bind, get in Hstore. simpl in Hstore.
    destruct (localStorage s) as [items|]; [|discriminate].
    unfold modify in Hstore. simpl in Hstore.
    apply setJinaApiKey_returns in Hstore as (key & -> & Hne & ->).
    exists key. repeat split; try done.
    + intros env. by apply getApiKey_manual.
    + intros envs. by apply getApiKey_each_manual.
  - intros Hbad. unfold storeApiKeyLocally, bind, get. simpl.
    destruct (localStorage s) as [items|].
    + unfold modify. simpl. rewrite (setJinaApiKey_throws _ _ Hbad).
      eexists _, _. split; reflexivity.
    + eexists _, _. split; reflexivity.
Qed.

Lemma storeApiKeyLocally_then_getApiKey_witness :
  (exists key,
      JsString "jina_stored" = JsString key /\ key <> ""
      /\ getApiKey pages_env
           (snd (storeApiKeyLocally (JsString "jina_stored") fresh_state))
         = (Return (Some key),
            snd (storeApiKeyLocally (JsString "jina_stored") fresh_state)))
  /\ (exists e s', storeApiKeyLocally (JsString "") fresh_state = (Throw e, s')
                   /\ API_KEY s' = API_KEY fresh_state).
Proof.
  split.
  - destruct (storeApiKeyLocally_then_getApiKey (JsString "jina_stored") fresh_state)
      as [H _].
    destruct (H (snd (storeApiKeyLocally (JsString "jina_stored") fresh_state)))
      as (key & Hk & Hne & _ & Hget & _).
    + reflexivity.
    + exists key. split; [exact Hk|]. split; [exact Hne|]. apply Hget.
  - destruct (storeApiKeyLocally_then_getApiKey (JsString "") fresh_state)
      as [_ H].
    apply H. reflexivity.
Defined.

(** *** The created embedding *)

(** The provider answers with a vector whose length is not the corpus
    dimension, and the embedding is created all the same. *)
Lemma createUserInputEmbedding_mismatch_returns :
  ~ (forall env text s r s',
        createUserInputEmbedding env text s = (Return r, s') ->
        dimension r = EMBEDDING_dimension env).
Proof.
  intros H.
  pose proof (H local_env (JsString " hola ") keyed_state hola_embedding _ eq_refl)
    as Hdimension.
  simpl in Hdimension. discriminate Hdimension.
Qed.

Lemma createUserInputEmbedding_note (env : Env) (text : JsValue) (s s' : State)
      (r : UserInputEmbedding) :
  createUserInputEmbedding env text s = (Return r, s') ->
  dimension r = List.length (ue_embedding r)
  /\ userEmbedding (dimensionMismatch r) = List.length (ue_embedding r)
  /\ corpusVectors (dimensionMismatch r) = EMBEDDING_dimension env
  /\ note (dimensionMismatch r)
     = if Nat.eqb (List.length (ue_embedding r)) (EMBEDDING_dimension env)
       then "Dimensions match"
       else "Dimension mismatch - consider regenerating corpus".
Proof.
  unfold createUserInputEmbedding, safeAsync, try_catch, bind.
  destruct (negb (truthy text) || negb (is_string text)); simpl; [discriminate|].
  destruct (String.eqb (cleanText env (ToString text)) ""); simpl; [discriminate|].
  destruct (callJinaAPI env _ _ s) as [[response|e] s1]; simpl; [|discriminate].
  destruct (default [] (data response) !! 0%nat) as [embeddingData|]; simpl;
    [|discriminate].
  destruct (embedding embeddingData) as [vector|]; simpl; [|discriminate].
  destruct (getApiKeyStatus env s1) as [[keyStatus|e] s2]; simpl; [|discriminate].
  unfold ret. intros [= <- _]. simpl.
  destruct (Nat.eqb (List.length vector) (EMBEDDING_dimension env)); done.
Qed.

End EmbeddingJinaProofs.

(** ** The retrieval core *)

Module SimilarityProofs.
Import EmbeddingJina Similarity Main Examples.

(** *** Scorer *)

Lemma score_dimension_mismatch weighting (query candidate : list float)
      (lvl : Level) (advanced : bool) :
  List.length query <> List.length candidate ->
  Scorer.score weighting query candidate lvl advanced = Throw DimensionMismatch.
Proof.
  intros Hlen. unfold Scorer.score.
  destruct (Nat.eqb_spec (List.length query) (List.length candidate)); [done|].
  reflexivity.
Qed.

Lemma score_throws_only_mismatch weighting (query candidate : list float)
      (lvl : Level) (advanced : bool) (e : JsError) :
  Scorer.score weighting query candidate lvl advanced = Throw e ->
  e = DimensionMismatch.
Proof.
  unfold Scorer.score.
  destruct (negb _); [congruence|].
  destruct (_ || _); [discriminate|].
  destruct advanced; discriminate.
Qed.

Lemma score_all_throws {num : Type}
      (scorer : list float -> list float -> Level -> bool -> outcome num)
      (query : list float) (advanced : bool)
      (items : list CorpusItem) (it : CorpusItem) (e : JsError) :
  it ∈ items ->
  (forall it', scorer query (item_embedding it') (level it') advanced = Throw e
               \/ exists s, scorer query (item_embedding it') (level it') advanced
                            = Return s) ->
  scorer query (item_embedding it) (level it) advanced = Throw e ->
  score_all scorer query advanced items = Throw e.
Proof.
  intros Hin Honly Hthrow.
  induction items as [|it' items IH]; [by apply elem_of_nil in Hin|].
  simpl. destruct (Honly it') as [Hit'|[s Hit']]; rewrite Hit'; [reflexivity|].
  apply elem_of_cons in Hin as [->|Hin]; [congruence|].
  by rewrite (IH Hin).
Qed.

Lemma findSimilarContext_mismatch weighting (bonus : float) (query : list float)
      (store : VectorStore) (options : SearchOptions) (it : CorpusItem) :
  it ∈ documents store ++ sections store ++ paragraphs store ->
  List.length query <> List.length (item_embedding it) ->
  findSimilarContext (Scorer.score weighting) bonus query store options
  = Throw DimensionMismatch.
Proof.
  intros Hin Hlen. unfold findSimilarContext, rank.
  rewrite (score_all_throws (Scorer.score weighting) query _ _ it DimensionMismatch Hin).
  - reflexivity.
  - intros it'.
    destruct (Scorer.score weighting query (item_embedding it') (level it') _)
      as [s|e] eqn:Hscore.
    + right. by exists s.
    + left. f_equal. by eapply score_throws_only_mismatch.
  - by apply score_dimension_mismatch.
Qed.

Lemma dot_zeros (n : nat) :
  Scorer.dot (repeat 0%float n) (repeat 0%float n) = 0%float.
Proof.
  unfold Scorer.dot. induction n as [|n IH]; simpl; [reflexivity|exact IH].
Qed.

Lemma magnitude_zero_vector (n : nat) :
  (Scorer.magnitude (repeat 0%float n) =? 0)%float = true.
Proof. unfold Scorer.magnitude. rewrite dot_zeros. reflexivity. Qed.

(** C6. For two vectors of one dimension of which at least one has zero
    magnitude, the scorer returns the score 0, in the basic and in the
    advanced mode, and throws nothing. *)
Theorem score_zero_magnitude weighting (query candidate : list float)
        (lvl : Level) (advanced : bool) :
  List.length query = List.length candidate ->
  (Scorer.magnitude query =? 0)%float = true
  \/ (Scorer.magnitude candidate =? 0)%float = true ->
  Scorer.score weighting query candidate lvl advanced = Return 0%float.
Proof.
  intros Hlen Hzero. unfold Scorer.score.
  rewrite Hlen, Nat.eqb_refl. simpl.
  destruct Hzero as [-> | ->]; [reflexivity|].
  by rewrite orb_true_r.
Qed.

Lemma score_zero_magnitude_witness :
  Scorer.score plain_weighting [1; 2; 3]%float (repeat 0%float 3) document true
  = Return 0%float
  /\ Scorer.score plain_weighting (repeat 0%float 3) [1; 2; 3]%float paragraph false
     = Return 0%float.
Proof.
  split; apply score_zero_magnitude.
  - reflexivity.
  - right. apply magnitude_zero_vector.
  - reflexivity.
  - left. apply magnitude_zero_vector.
Defined.

(** *** Budgeter *)

Section BudgeterFacts.
Context {num : Type}.
Implicit Types ranked before after : list (ScoredMatch num).

Lemma select_app (maxLength running : nat) before after :
  select maxLength running (before ++ after)
  = select maxLength running before
    ++ select maxLength (running + total_length (select maxLength running before)) after.
Proof.
  revert running. induction before as [|m before IH]; intros running; simpl.
  - unfold total_length. simpl. by rewrite Nat.add_0_r.
  - destruct (running + text_length m <=? maxLength)%nat; simpl.
    + rewrite IH. unfold total_length. csimpl. by rewrite Nat.add_assoc.
    + apply IH.
Qed.

Lemma select_within (maxLength running : nat) ranked :
  (running <= maxLength)%nat ->
  (running + total_length (select maxLength running ranked) <= maxLength)%nat.
Proof.
  revert running. induction ranked as [|m ranked IH]; intros running Hrun; simpl.
  - unfold total_length. simpl. lia.
  - destruct (Nat.leb_spec (running + text_length m) maxLength) as [Hfit|Hover].
    + specialize (IH _ Hfit). unfold total_length in *. csimpl. lia.
    + by apply IH.
Qed.

Lemma select_none_fits (maxLength running : nat) ranked :
  Forall (fun m => (maxLength < text_length m)%nat) ranked ->
  select maxLength running ranked = [].
Proof.
  induction 1 as [|m ranked Hm _ IH]; simpl; [reflexivity|].
  destruct (Nat.leb_spec (running + text_length m) maxLength); [lia|exact IH].
Qed.

Lemma budget_none_fits (maxLength : nat) ranked :
  Forall (fun m => (maxLength < text_length m)%nat) ranked ->
  budget ranked maxLength = {| items := []; totalResults := 0; contextLength := 0 |}.
Proof. intros Hnone. unfold budget. by rewrite select_none_fits. Qed.

End BudgeterFacts.

(** C4. Whatever was decided for the higher-ranked items [before], the
    budgeter includes [m] exactly when the running total of the included
    items plus the full text of [m] stays within [maxContextLength], and in
    both cases goes on to examine every lower-ranked item of [after] with
    the running total it then has; the counts are those of the included
    items, and the total never exceeds the budget. On a 50-character item
    followed by a 10-character item with budget 20 the selection is item 2
    alone, [totalResults = 1], [contextLength = 10]. *)
Theorem budget_best_effort {num : Type} (before after : list (ScoredMatch num))
        (m : ScoredMatch num) (maxContextLength : nat) :
  let running := contextLength (budget before maxContextLength) in
  let selection := budget (before ++ m :: after) maxContextLength in
  items selection
  = items (budget before maxContextLength)
    ++ (if (running + text_length m <=? maxContextLength)%nat
        then m :: select maxContextLength (running + text_length m) after
        else select maxContextLength running after)
  /\ totalResults selection = List.length (items selection)
  /\ contextLength selection = list_sum (text_length <$> items selection)
  /\ (contextLength selection <= maxContextLength)%nat
  /\ (id ∘ item <$> items (budget ranked_example 20) = [2%nat]
      /\ totalResults (budget ranked_example 20) = 1%nat
      /\ contextLength (budget ranked_example 20) = 10%nat).
Proof.
  simpl. split; [|split; [|split; [|split]]].
  - rewrite select_app. simpl. reflexivity.
  - reflexivity.
  - reflexivity.
  - apply (select_within maxContextLength 0). lia.
  - vm_compute. done.
Qed.

(** *** Ranker *)











Section RankerFacts.
Variable bonus : float.
Variable strategy : PriorityStrategy.
Implicit Types m : ScoredMatch float.
Implicit Types l : list (ScoredMatch float).







(** Ranking a ranked list changes nothing. *)
Lemma sort_ranked_fixpoint l :
  StronglySorted (ranks_before bonus strategy) l -> sort_ranked bonus strategy l = l.
Proof.
  induction 1 as [|m l Hsorted IH Hall]; simpl; [reflexivity|].
  rewrite IH. destruct l as [|m' l]; simpl; [reflexivity|].
  apply Forall_cons in Hall as [Hm' _]. unfold ranks_before in Hm'.
  cbn [score_leb float_scores] in Hm'. by rewrite Hm'.
Qed.


End RankerFacts.





End SimilarityProofs.

(** ** The page script *)

Module MainProofs.
Import EmbeddingJina Similarity Main Examples.

(** *** Running tasks *)

Lemma run_bind {A B} (a : Answers) (t : Task A) (k : A -> Task B) (p : Page) :
  run a (task_bind t k) p
  = match run a t p with
    | (Return x, q, calls) =>
        let '(r, q', calls') := run a (k x) q in (r, q', calls ++ calls')
    | (Throw e, q, calls) => (Throw e, q, calls)
    end.
Proof.
  revert p. induction t as [x|e|X act k' IH|X c k' IH]; intros p; simpl.
  - by destruct (run a (k x) p) as [[r q] calls].
  - reflexivity.
  - destruct (act p) as [x p']. apply IH.
  - rewrite IH. destruct (run a (k' (a X c)) p) as [[[x|e] q] calls]; [|reflexivity].
    by destruct (run a (k x) q) as [[r q'] calls'].
Qed.

Lemma run_catch {A} (a : Answers) (t : Task A) (h : JsError -> Task A) (p : Page) :
  run a (task_catch t h) p
  = match run a t p with
    | (Return x, q, calls) => (Return x, q, calls)
    | (Throw e, q, calls) =>
        let '(r, q', calls') := run a (h e) q in (r, q', calls ++ calls')
    end.
Proof.
  revert p. induction t as [x|e|X act k' IH|X c k' IH]; intros p; simpl.
  - reflexivity.
  - by destruct (run a (h e) p) as [[r q] calls].
  - destruct (act p) as [x p']. apply IH.
  - rewrite IH. destruct (run a (k' (a X c)) p) as [[[x|e] q] calls]; [reflexivity|].
    by destruct (run a (h e) q) as [[r q'] calls'].
Qed.

Lemma same_content_refl (p : Page) : same_content p p.
Proof. by split. Qed.

Lemma same_content_trans (p q r : Page) :
  same_content p q -> same_content q r -> same_content p r.
Proof.
  intros [H1 H2 H3 H4 H5 H6 H7 H8 H9] [G1 G2 G3 G4 G5 G6 G7 G8 G9].
  split; etrans; eassumption.
Qed.

Lemma same_content_showStatus_on (message type : string) (p : Page) :
  same_content p (showStatus_on message type p).
Proof. unfold showStatus_on. destruct (statusIndicator p); by split. Qed.

Lemma same_content_options (p q : Page) :
  same_content p q -> page_search_options q = page_search_options p.
Proof.
  intros Hsame. unfold page_search_options.
  by rewrite (sc_advancedScoring _ _ Hsame), (sc_priorityStrategySelect _ _ Hsame).
Qed.

Lemma same_content_direction (p q : Page) :
  same_content p q -> getCurrentLanguageDirection q = getCurrentLanguageDirection p.
Proof.
  intros Hsame. unfold getCurrentLanguageDirection.
  by rewrite (sc_currentSourceLang _ _ Hsame).
Qed.

Create HintDb page.
#[local] Hint Resolve same_content_refl same_content_showStatus_on : page.
#[local] Hint Extern 2 (same_content _ _) =>
  eapply same_content_trans; [|apply same_content_showStatus_on] : page.

Section ScriptFacts.
Variable truncateText : string -> nat -> string.
Variable toFixed : float -> nat -> string.
Variable toUpperCase : string -> string.
Variable frames : nat.

(** *** Displaying a translation *)

Lemma updateTranslationOutput_on_translationOutput text used p :
  translationOutput (updateTranslationOutput_on truncateText toFixed toUpperCase text used p)
  = (fun _ => translation_html text) <$> translationOutput p.
Proof.
  unfold updateTranslationOutput_on.
  destruct (translationOutput p) eqn:Hout; simpl;
    destruct (contextInfo p) eqn:Hctx; simpl;
    try destruct (0 <? List.length used)%nat; simpl;
    rewrite ?Hout, ?Hctx; reflexivity.
Qed.

Lemma updateTranslationOutput_on_contextInfo text used p :
  contextInfo (updateTranslationOutput_on truncateText toFixed toUpperCase text used p)
  = (fun _ => if (0 <? List.length used)%nat
              then context_html truncateText toFixed toUpperCase used
              else no_context_html) <$> contextInfo p.
Proof.
  unfold updateTranslationOutput_on.
  destruct (translationOutput p) eqn:Hout; simpl;
    destruct (contextInfo p) eqn:Hctx; simpl;
    try destruct (0 <? List.length used)%nat; simpl;
    rewrite ?Hout, ?Hctx; reflexivity.
Qed.

(** *** The event loop *)

(** The task that [handleTranslation] leaves behind at its translation
    call. *)
Lemma translate_and_display_suspends (sourceText : string)
      (context : ContextResults) (p : Page) :
  advance (task_catch (translate_and_display truncateText toFixed toUpperCase sourceText context)
                      translation_failed) p
  = (showStatus_on "Translating with context..." "loading" p,
     Some (suspended (TranslateWithContext sourceText context
                        (getCurrentLanguageDirection p) (documentDatabase p))
                     (translation_settled truncateText toFixed toUpperCase))).
Proof.
  unfold translate_and_display, showStatus, update, read. simpl.
  pose proof (same_content_showStatus_on "Translating with context..." "loading" p)
    as Hsame.
  by rewrite (same_content_direction _ _ Hsame), (sc_documentDatabase _ _ Hsame).
Qed.




End ScriptFacts.



End MainProofs.

(** ** The embeddings client: further properties *)

Module EmbeddingJinaFacts.
Import EmbeddingJina Examples EmbeddingJinaProofs.

(** *** Environments *)

Lemma prefix_app (needle haystack : string) :
  String.prefix needle haystack = true <-> exists post, haystack = needle +:+ post.
Proof.
  revert haystack. induction needle as [|c needle IH]; intros haystack; simpl.
  - destruct haystack; simpl; (split; [intros _; by eexists|done]).
  - destruct haystack as [|d haystack].
    + split; [done|]. intros [post Hpost]. discriminate.
    + simpl. destruct (Ascii.ascii_dec c d) as [->|Hne].
      * rewrite IH. split; intros [post Hpost]; exists post.
        -- by rewrite Hpost.
        -- by injection Hpost.
      * split; [done|]. intros [post Hpost]. injection Hpost as Hcd _. by destruct Hne.
Qed.

Lemma includes_app (needle haystack : string) :
  includes needle haystack = true
  <-> exists pre post, haystack = pre +:+ needle +:+ post.
Proof.
  induction haystack as [|d haystack IH].
  - split.
    + intros Hempty. exists "", "". by destruct needle.
    + intros (pre & post & Hpost). by destruct pre, needle.
  - cbn [includes]. rewrite orb_true_iff, prefix_app, IH. split.
    + intros [[post Hpost] | (pre & post & Hpost)].
      * by exists "", post.
      * exists (String d pre), post. simpl. by rewrite Hpost.
    + intros (pre & post & Hpost). destruct pre as [|c pre].
      * left. by exists post.
      * right. exists pre, post. by injection Hpost.
Qed.

(** X1. [detectEnvironment] answers [github_pages] exactly when the host
    name contains "github.io" or "github.com" somewhere (not only at its
    end), and [local_development] for every other host name. *)
Theorem detectEnvironment_github_pages (env : Env) :
  (detectEnvironment env = github_pages
   <-> exists pre domain post,
         (domain = "github.io" \/ domain = "github.com")
         /\ hostname env = pre +:+ domain +:+ post)
  /\ (detectEnvironment env = local_development
      <-> detectEnvironment env <> github_pages).
Proof.
  unfold detectEnvironment. split.
  - destruct (includes "github.io" (hostname env)) eqn:Hio; simpl.
    + split; [intros _|done]. apply includes_app in Hio as (pre & post & Hhost).
      exists pre, "github.io", post. auto.
    + destruct (includes "github.com" (hostname env)) eqn:Hcom.
      * split; [intros _|done]. apply includes_app in Hcom as (pre & post & Hhost).
        exists pre, "github.com", post. auto.
      * split; [done|]. intros (pre & domain & post & [-> | ->] & Hhost).
        -- assert (includes "github.io" (hostname env) = true) as Hyes
             by (apply includes_app; eauto). congruence.
        -- assert (includes "github.com" (hostname env) = true) as Hyes
             by (apply includes_app; eauto). congruence.
  - destruct (includes "github.io" (hostname env) || includes "github.com" (hostname env));
      split; congruence.
Qed.

(** *** Where the key is taken from *)

(** What [getApiKey] answers is a usable key or [null], never an empty
    string. *)
Lemma truthy_key_idem (k : option string) : truthy_key (truthy_key k) = truthy_key k.
Proof.
  destruct k as [k|]; [|done]. simpl.
  destruct (String.eqb k "") eqn:Hk; [done|]. simpl. by rewrite Hk.
Qed.

Lemma truthy_key_Some (k : option string) (key : string) :
  truthy_key k = Some key <-> k = Some key /\ key <> "".
Proof.
  destruct k as [k|]; simpl; [|by split; [|intros []]].
  destruct (String.eqb_spec k "") as [->|Hne]; split.
  - done.
  - intros [[= <-] Hne]. done.
  - intros [= <-]. done.
  - intros [[= <-] _]. done.
Qed.

(** The configuration that [tryLoadLocalConfig] answers from a state, and
    the state it leaves. *)
Lemma tryLoadLocalConfig_run (env : Env) (s : State) :
  tryLoadLocalConfig env s
  = if configLoadAttempted s then (Return (localApiConfig s), s)
    else (Return (api_config_js env),
          with_localApiConfig
            (match api_config_js env with
             | Some module_default => Some module_default
             | None => localApiConfig s
             end) s).
Proof.
  unfold tryLoadLocalConfig, bind, get, ret, modify. simpl.
  destruct (configLoadAttempted s); [reflexivity|].
  by destruct (api_config_js env).
Qed.

(** X2. Where [getApiKey] looks when no key has been set by hand. On
    GitHub Pages it answers the injected variable
    [window.ENV_VARS.JINA_API_KEY] (or [null] when that is missing or
    empty) and changes nothing: a key kept in [localStorage] or in
    api-config.js is not used, and the file is not loaded. In local
    development the key kept in [localStorage] comes first, and the file
    is not loaded; only without a stored key is the key of api-config.js
    answered: the one loaded before if a load was tried, the one of the
    file otherwise, which has then been loaded; [window.ENV_VARS] is
    never used. No request is sent. *)
Theorem getApiKey_sources (env : Env) (s : State) :
  truthy_key (API_KEY s) = None ->
  (detectEnvironment env = github_pages ->
   getApiKey env s = (Return (truthy_key (ENV_VARS_JINA_API_KEY env)), s))
  /\ (detectEnvironment env = local_development ->
      forall items, localStorage s = Some items ->
      (forall key, items !! "jina_api_key" = Some key -> key <> "" ->
         getApiKey env s = (Return (Some key), s))
      /\ (truthy_key (items !! "jina_api_key") = None ->
          exists s',
            getApiKey env s
            = (Return (truthy_key ((if configLoadAttempted s then localApiConfig s
                                    else api_config_js env) ≫= config_API_KEY)), s')
            /\ configLoadAttempted s' = true
            /\ fetched s' = fetched s)).
Proof.
  intros Hmanual. split.
  - intros Henv. unfold getApiKey, bind, get, ret. simpl.
    rewrite Hmanual, Henv. simpl. reflexivity.
  - intros Henv items Hstorage. split.
    + intros key Hitem Hne.
      unfold getApiKey, localStorage_getItem, bind, get, ret. simpl.
      rewrite Hmanual, Henv, Hstorage. simpl. rewrite Hitem.
      assert (truthy_key (Some key) = Some key) as -> by (by apply truthy_key_Some).
      reflexivity.
    + intros Hnone.
      unfold getApiKey, localStorage_getItem, bind, get, ret. simpl.
      rewrite Hmanual, Henv, Hstorage. simpl. rewrite Hnone.
      rewrite tryLoadLocalConfig_run.
      destruct (configLoadAttempted s) eqn:Hattempted.
      * exists s. by destruct (truthy_key (localApiConfig s ≫= config_API_KEY)).
      * eexists. by destruct (truthy_key (api_config_js env ≫= config_API_KEY)).
Qed.

Lemma getApiKey_sources_witness :
  getApiKey injected_env stored_state = (Return (Some "jina_injected"), stored_state)
  /\ getApiKey local_env stored_state = (Return (Some "jina_stored"), stored_state)
  /\ exists s', getApiKey file_env fresh_state = (Return (Some "jina_from_file"), s')
                /\ configLoadAttempted s' = true.
Proof.
  split; [|split].
  - destruct (getApiKey_sources injected_env stored_state eq_refl) as [Hpages _].
    exact (Hpages eq_refl).
  - destruct (getApiKey_sources local_env stored_state eq_refl) as [_ Hlocal].
    destruct (Hlocal eq_refl _ eq_refl) as [Hstored _].
    apply Hstored; [reflexivity|discriminate].
  - destruct (getApiKey_sources file_env fresh_state eq_refl) as [_ Hlocal].
    destruct (Hlocal eq_refl _ eq_refl) as [_ Hfile].
    destruct (Hfile eq_refl) as (s' & Hget & Hattempted & _). by exists s'.
Defined.

(** X3. The configuration file is loaded at most once. After a call of
    [tryLoadLocalConfig] the load counts as tried, and every later call, in
    whatever surroundings, answers what is kept in [localApiConfig] and
    changes nothing: a failed import is not tried again, even when the
    file has appeared since. *)
Theorem tryLoadLocalConfig_once (env env' : Env) (s s1 : State)
        (answer : outcome (option LocalConfig)) :
  tryLoadLocalConfig env s = (answer, s1) ->
  configLoadAttempted s1 = true
  /\ tryLoadLocalConfig env' s1 = (Return (localApiConfig s1), s1)
  /\ (configLoadAttempted s = false -> localApiConfig s = None ->
      answer = Return (api_config_js env) /\ localApiConfig s1 = api_config_js env).
Proof.
  rewrite tryLoadLocalConfig_run. intros Hrun.
  destruct (configLoadAttempted s) eqn:Hattempted.
  - injection Hrun as <- <-. rewrite tryLoadLocalConfig_run, Hattempted. done.
  - injection Hrun as <- <-. rewrite tryLoadLocalConfig_run. simpl.
    split; [done|]. split; [done|]. intros _ Hnone. rewrite Hnone.
    by destruct (api_config_js env).
Qed.

Lemma tryLoadLocalConfig_once_witness :
  exists s1, tryLoadLocalConfig local_env fresh_state = (Return None, s1)
             /\ tryLoadLocalConfig file_env s1 = (Return None, s1).
Proof.
  destruct (tryLoadLocalConfig local_env fresh_state) as [answer s1] eqn:Hrun.
  destruct (tryLoadLocalConfig_once local_env file_env fresh_state s1 answer Hrun)
    as (_ & Hagain & Hfirst).
  destruct (Hfirst eq_refl eq_refl) as [-> Hconfig].
  exists s1. split; [reflexivity|]. rewrite Hagain, Hconfig. reflexivity.
Defined.


(** *** What the client leaves as it is *)

Lemma keeps_keys_ret {A} (a : A) : keeps_keys 0 (ret a).
Proof. intros s. simpl. repeat split. exists []. by rewrite app_nil_r. Qed.

Lemma keeps_keys_throw {A} (e : JsError) : keeps_keys 0 (@throw A e).
Proof. intros s. simpl. repeat split. exists []. by rewrite app_nil_r. Qed.

Lemma keeps_keys_lift {A} (o : outcome A) : keeps_keys 0 (lift o).
Proof. intros s. simpl. repeat split. exists []. by rewrite app_nil_r. Qed.

Lemma keeps_keys_get : keeps_keys 0 get.
Proof. intros s. simpl. repeat split. exists []. by rewrite app_nil_r. Qed.

Lemma keeps_keys_more {A} (n n' : nat) (m : M A) :
  (n <= n')%nat -> keeps_keys n m -> keeps_keys n' m.
Proof.
  intros Hle Hm s. destruct (Hm s) as (Hkey & Hstorage & more & Hmore & Hlen).
  repeat split; try done. exists more. split; [done|lia].
Qed.

Lemma keeps_keys_bind {A B} (n n' : nat) (m : M A) (k : A -> M B) :
  keeps_keys n m -> (forall a, keeps_keys n' (k a)) -> keeps_keys (n + n') (bind m k).
Proof.
  intros Hm Hk s. unfold bind.
  destruct (Hm s) as (Hkey & Hstorage & more & Hmore & Hlen).
  destruct (m s) as [[a|e] s1]; simpl in *.
  - destruct (Hk a s1) as (Hkey' & Hstorage' & more' & Hmore' & Hlen').
    split; [congruence|]. split; [congruence|]. exists (more ++ more').
    rewrite Hmore', Hmore, length_app, app_assoc. split; [done|lia].
  - split; [done|]. split; [done|]. exists more. split; [done|lia].
Qed.

Lemma keeps_keys_try_catch {A} (n n' : nat) (m : M A) (h : JsError -> M A) :
  keeps_keys n m -> (forall e, keeps_keys n' (h e)) ->
  keeps_keys (n + n') (try_catch m h).
Proof.
  intros Hm Hh s. unfold try_catch.
  destruct (Hm s) as (Hkey & Hstorage & more & Hmore & Hlen).
  destruct (m s) as [[a|e] s1]; simpl in *.
  - split; [done|]. split; [done|]. exists more. split; [done|lia].
  - destruct (Hh e s1) as (Hkey' & Hstorage' & more' & Hmore' & Hlen').
    split; [congruence|]. split; [congruence|]. exists (more ++ more').
    rewrite Hmore', Hmore, length_app, app_assoc. split; [done|lia].
Qed.

Lemma keeps_keys_safeAsync {A} (n : nat) (m : M A) (errorType : string) :
  keeps_keys n m -> keeps_keys n (safeAsync m errorType).
Proof.
  intros Hm. unfold safeAsync. rewrite <- (Nat.add_0_r n).
  apply keeps_keys_try_catch; [done|]. intros e. apply keeps_keys_throw.
Qed.

Lemma keeps_keys_with_localApiConfig (config : option LocalConfig) :
  keeps_keys 0 (modify (with_localApiConfig config)).
Proof. intros s. simpl. repeat split. exists []. by rewrite app_nil_r. Qed.

Lemma keeps_keys_with_request (r : Request) : keeps_keys 1 (modify (with_request r)).
Proof. intros s. simpl. repeat split. exists [r]. done. Qed.

Create HintDb keys.
#[local] Hint Resolve keeps_keys_ret keeps_keys_throw keeps_keys_lift keeps_keys_get
  keeps_keys_with_localApiConfig keeps_keys_with_request : keys.

(** [bind] and [try_catch] of two parts that send [n] and [n'] requests at
    most. *)
Ltac keeps_bind n n' :=
  apply (keeps_keys_bind n n'); [|intros ?].
Ltac keeps_step :=
  first [ apply (keeps_keys_bind 0 0); [solve [auto with keys]|intros ?]
        | solve [auto with keys] ].

Lemma keeps_keys_tryLoadLocalConfig (env : Env) : keeps_keys 0 (tryLoadLocalConfig env).
Proof.
  unfold tryLoadLocalConfig. keeps_step.
  destruct (configLoadAttempted _); [keeps_step|].
  destruct (api_config_js env); repeat keeps_step.
Qed.

Lemma keeps_keys_localStorage_getItem (key : string) :
  keeps_keys 0 (localStorage_getItem key).
Proof.
  unfold localStorage_getItem. keeps_step. destruct (localStorage _); keeps_step.
Qed.

#[local] Hint Resolve keeps_keys_tryLoadLocalConfig keeps_keys_localStorage_getItem : keys.

Lemma keeps_keys_getApiKey (env : Env) : keeps_keys 0 (getApiKey env).
Proof.
  unfold getApiKey. keeps_step. destruct (truthy_key (API_KEY _)); [keeps_step|].
  apply (keeps_keys_bind 0 0).
  - destruct (detectEnvironment env); [keeps_step|].
    keeps_step. destruct (truthy_key _); repeat keeps_step.
  - intros [key|]; [keeps_step|]. destruct (detectEnvironment env); keeps_step.
Qed.

#[local] Hint Resolve keeps_keys_getApiKey : keys.

Lemma keeps_keys_getApiKeyStatus (env : Env) : keeps_keys 0 (getApiKeyStatus env).
Proof.
  unfold getApiKeyStatus. keeps_step. apply (keeps_keys_bind 0 0); [|intros; keeps_step].
  destruct (truthy_key _); [|keeps_step]. keeps_step.
  match goal with |- context [if ?b then _ else _] => destruct b end; [keeps_step|].
  keeps_step.
  match goal with |- context [if ?b then _ else _] => destruct b end; [keeps_step|].
  destruct (detectEnvironment env); keeps_step.
Qed.

#[local] Hint Resolve keeps_keys_getApiKeyStatus : keys.

Lemma keeps_keys_do_fetch (env : Env) (r : Request) : keeps_keys 1 (do_fetch env r).
Proof.
  unfold do_fetch. apply (keeps_keys_bind 0 1); [auto with keys|]. intros s0.
  apply (keeps_keys_bind 1 0); [auto with keys|]. intros _.
  destruct (fetch env _ r); auto with keys.
Qed.

Lemma keeps_keys_callJinaAPI (env : Env) (input : JinaInput) (options : gmap string Json) :
  keeps_keys 1 (callJinaAPI env input options).
Proof.
  unfold callJinaAPI. apply keeps_keys_safeAsync.
  apply (keeps_keys_bind 0 1); [auto with keys|]. intros apiKey.
  destruct (truthy_key apiKey) as [key|].
  - apply (keeps_keys_bind 0 1); [auto with keys|]. intros inputArray.
    apply (keeps_keys_bind 1 0); [apply keeps_keys_do_fetch|]. intros response.
    destruct (negb (resp_ok response)); [keeps_step|].
    keeps_step. destruct (data _); keeps_step.
  - apply (keeps_keys_more 0); [lia|]. repeat keeps_step.
Qed.

#[local] Hint Resolve keeps_keys_callJinaAPI : keys.

Lemma keeps_keys_createUserInputEmbedding (env : Env) (text : JsValue) :
  keeps_keys 1 (createUserInputEmbedding env text).
Proof.
  unfold createUserInputEmbedding. apply keeps_keys_safeAsync.
  destruct (negb (truthy text) || negb (is_string text));
    [apply (keeps_keys_more 0); [lia|auto with keys]|].
  cbv zeta. destruct (String.eqb _ ""); [apply (keeps_keys_more 0); [lia|auto with keys]|].
  apply (keeps_keys_bind 1 0); [auto with keys|]. intros response.
  destruct (default [] (data response) !! 0%nat) as [embeddingData|]; [|keeps_step].
  destruct (embedding embeddingData); repeat keeps_step.
Qed.

Lemma keeps_keys_loadEmbeddingModel (env : Env) : keeps_keys 1 (loadEmbeddingModel env).
Proof.
  unfold loadEmbeddingModel. apply keeps_keys_safeAsync.
  apply (keeps_keys_bind 0 1); [auto with keys|]. intros keyStatus.
  destruct (negb (hasKey keyStatus)); [apply (keeps_keys_more 0); [lia|auto with keys]|].
  apply (keeps_keys_bind 1 0); auto with keys.
Qed.

Lemma keeps_keys_isEmbeddingModelReady (env : Env) :
  keeps_keys 1 (isEmbeddingModelReady env).
Proof.
  unfold isEmbeddingModelReady. apply keeps_keys_safeAsync.
  apply (keeps_keys_bind 0 1); [auto with keys|]. intros keyStatus.
  destruct (negb (hasKey keyStatus)); [apply (keeps_keys_more 0); [lia|auto with keys]|].
  apply (keeps_keys_try_catch 1 0); [|auto with keys].
  apply (keeps_keys_bind 1 0); auto with keys.
Qed.

Lemma keeps_keys_getEmbeddingModelStatus (env : Env) :
  keeps_keys 1 (getEmbeddingModelStatus env).
Proof.
  unfold getEmbeddingModelStatus. apply keeps_keys_safeAsync.
  apply (keeps_keys_bind 0 1); [auto with keys|]. intros keyStatus. cbv zeta.
  destruct (negb (hasKey keyStatus)); [apply (keeps_keys_more 0); [lia|auto with keys]|].
  apply (keeps_keys_try_catch 1 0); [|auto with keys].
  apply (keeps_keys_bind 1 0); auto with keys.
Qed.

(** X4. Of the client's functions only [setJinaApiKey] and
    [storeApiKeyLocally] change the key held in memory or the storage:
    [getApiKey], [getApiKeyStatus], [callJinaAPI],
    [createUserInputEmbedding], [loadEmbeddingModel],
    [isEmbeddingModelReady] and [getEmbeddingModelStatus] leave both as
    they were, whether they return or throw. The first two send no
    request, each of the others at most one. *)
Theorem client_keeps_keys (env : Env) :
  keeps_keys 0 (getApiKey env)
  /\ keeps_keys 0 (getApiKeyStatus env)
  /\ (forall input options, keeps_keys 1 (callJinaAPI env input options))
  /\ (forall text, keeps_keys 1 (createUserInputEmbedding env text))
  /\ keeps_keys 1 (loadEmbeddingModel env)
  /\ keeps_keys 1 (isEmbeddingModelReady env)
  /\ keeps_keys 1 (getEmbeddingModelStatus env).
Proof.
  split; [apply keeps_keys_getApiKey|].
  split; [apply keeps_keys_getApiKeyStatus|].
  split; [intros input options; apply keeps_keys_callJinaAPI|].
  split; [intros text; apply keeps_keys_createUserInputEmbedding|].
  split; [apply keeps_keys_loadEmbeddingModel|].
  split; [apply keeps_keys_isEmbeddingModelReady|].
  apply keeps_keys_getEmbeddingModelStatus.
Qed.


(** *** The key status *)

Lemma getApiKey_truthy (env : Env) (s s1 : State) (key : option string) :
  getApiKey env s = (Return key, s1) -> truthy_key key = key.
Proof.
  unfold getApiKey, localStorage_getItem, bind, get, ret, throw. simpl.
  destruct (truthy_key (API_KEY s)) as [manual|] eqn:Hmanual.
  - intros [= <- _]. by rewrite <- Hmanual, truthy_key_idem.
  - destruct (detectEnvironment env); simpl.
    + intros [= <- _]. apply truthy_key_idem.
    + destruct (localStorage s) as [items|]; [|discriminate]. simpl.
      destruct (truthy_key (items !! "jina_api_key")) as [stored|] eqn:Hstored; simpl.
      * intros [= <- _]. by rewrite <- Hstored, truthy_key_idem.
      * rewrite tryLoadLocalConfig_run.
        destruct (configLoadAttempted s); simpl;
          match goal with
          | |- context [truthy_key ?k] => destruct (truthy_key k) eqn:Hfile
          end; intros [= <- _]; try done; by rewrite <- Hfile, truthy_key_idem.
Qed.

(** With a storage at hand [getApiKey] returns. *)
Lemma getApiKey_returns (env : Env) (s : State) :
  is_Some (localStorage s) ->
  exists key s1, getApiKey env s = (Return key, s1).
Proof.
  intros [items Hstorage].
  unfold getApiKey, localStorage_getItem, bind, get, ret, throw. simpl.
  destruct (truthy_key (API_KEY s)) as [manual|]; [eauto|].
  destruct (detectEnvironment env); simpl; [eauto|]. rewrite Hstorage. simpl.
  destruct (truthy_key (items !! "jina_api_key")) as [stored|]; simpl; [eauto|].
  rewrite tryLoadLocalConfig_run.
  destruct (configLoadAttempted s); simpl;
    match goal with
    | |- context [truthy_key ?k] => destruct (truthy_key k)
    end; eauto.
Qed.

Lemma getApiKeyStatus_run (env : Env) (s s1 : State) (items : gmap string string)
      (key : option string) :
  localStorage s = Some items ->
  getApiKey env s = (Return key, s1) ->
  getApiKeyStatus env s
  = (Return {| hasKey := bool_decide (is_Some key);
               source := match key with
                         | None => "none"
                         | Some key =>
                             if match truthy_key (API_KEY s) with
                                | Some manual => String.eqb key manual
                                | None => false
                                end
                             then "manual"
                             else if match items !! "jina_api_key" with
                                     | Some stored => String.eqb stored key
                                     | None => false
                                     end
                             then "localStorage"
                             else match detectEnvironment env with
                                  | github_pages => "github_environment"
                                  | local_development => "api_config_file"
                                  end
                         end;
               keyPreview := (fun key => String.substring 0 10 key +:+ "...") <$> key;
               environment := detectEnvironment env;
               isProduction := match detectEnvironment env with
                               | github_pages => true
                               | local_development => false
                               end |}, s1).
Proof.
  intros Hstorage Hget.
  pose proof (getApiKey_truthy _ _ _ _ Hget) as Htruthy.
  destruct (keeps_keys_getApiKey env s) as (Hkey & Hstorage1 & _).
  rewrite Hget in Hkey, Hstorage1. simpl in Hkey, Hstorage1.
  unfold getApiKeyStatus, bind. rewrite Hget. rewrite Htruthy.
  destruct key as [key|]; [|reflexivity].
  unfold localStorage_getItem, get, bind, ret. cbn beta iota.
  rewrite Hkey.
  destruct (match truthy_key (API_KEY s) with
            | Some manual => String.eqb key manual
            | None => false
            end); [reflexivity|].
  cbv beta iota. rewrite Hstorage1, Hstorage. cbv beta iota.
  destruct (match items !! "jina_api_key" with
            | Some stored => String.eqb stored key
            | None => false
            end); [reflexivity|].
  by destruct (detectEnvironment env).
Qed.


(** X5. With a storage at hand, [getApiKeyStatus] returns and agrees with
    [getApiKey]: [hasKey] says whether [getApiKey] answers a key, the
    source is "none" exactly when it answers none and "manual" whenever a
    key has been set by hand, the preview is the first ten characters of
    the key followed by "...", and the state is left as [getApiKey] leaves
    it. *)
Theorem getApiKeyStatus_agrees (env : Env) (s : State) :
  is_Some (localStorage s) ->
  exists key s1 st,
    getApiKey env s = (Return key, s1)
    /\ getApiKeyStatus env s = (Return st, s1)
    /\ hasKey st = bool_decide (is_Some key)
    /\ (source st = "none" <-> key = None)
    /\ (is_Some (truthy_key (API_KEY s)) ->
        key = truthy_key (API_KEY s) /\ source st = "manual")
    /\ keyPreview st = (fun key => String.substring 0 10 key +:+ "...") <$> key
    /\ environment st = detectEnvironment env
    /\ (isProduction st = true <-> detectEnvironment env = github_pages).
Proof.
  intros Hsome. destruct (getApiKey_returns env s Hsome) as (key & s1 & Hget).
  destruct Hsome as [items Hstorage].
  exists key, s1. eexists. split; [exact Hget|].
  split; [exact (getApiKeyStatus_run env s s1 items key Hstorage Hget)|].
  cbn [hasKey source keyPreview environment isProduction].
  split; [reflexivity|]. split; [|split; [|split; [reflexivity|split; [reflexivity|]]]].
  - destruct key as [key|]; [|done]. split; [|done].
    repeat match goal with
           | |- context [if ?b then _ else _] => destruct b
           end; discriminate.
  - intros [manual Hmanual]. rewrite Hmanual.
    pose proof Hmanual as Hm. apply truthy_key_Some in Hm as [Hm Hne].
    rewrite (getApiKey_manual env s manual Hm Hne) in Hget.
    injection Hget as <- <-. split; [reflexivity|]. by rewrite String.eqb_refl.
  - destruct (detectEnvironment env); split; congruence.
Qed.

Lemma getApiKeyStatus_agrees_witness :
  exists st, getApiKeyStatus local_env stored_state = (Return st, stored_state)
             /\ hasKey st = true
             /\ keyPreview st = Some "jina_store...".
Proof.
  destruct (getApiKeyStatus_agrees local_env stored_state) as
    (key & s1 & st & Hget & Hstatus & HhasKey & _ & _ & Hpreview & _);
    [by eexists|].
  injection Hget as <- <-. exists st. split; [exact Hstatus|].
  split; [exact HhasKey|exact Hpreview].
Defined.

(** X6. On GitHub Pages [getApiKey] never reads the storage, but
    [getApiKeyStatus] does: when the key comes from the injected variable
    and the storage happens to hold the same string, the source is
    reported as "localStorage"; otherwise it is "github_environment". *)
Theorem getApiKeyStatus_source_on_pages (env : Env) (s : State)
        (items : gmap string string) (key : string) :
  detectEnvironment env = github_pages ->
  truthy_key (API_KEY s) = None ->
  ENV_VARS_JINA_API_KEY env = Some key ->
  key <> "" ->
  localStorage s = Some items ->
  exists st,
    getApiKeyStatus env s = (Return st, s)
    /\ hasKey st = true
    /\ source st = if decide (items !! "jina_api_key" = Some key)
                   then "localStorage" else "github_environment".
Proof.
  intros Henv Hmanual Hinjected Hne Hstorage.
  assert (truthy_key (Some key) = Some key) as Hkey by (by apply truthy_key_Some).
  assert (getApiKey env s = (Return (Some key), s)) as Hget.
  { unfold getApiKey, bind, get, ret. simpl.
    by rewrite Hmanual, Henv, Hinjected, Hkey. }
  eexists. split; [exact (getApiKeyStatus_run env s s items _ Hstorage Hget)|].
  cbn [hasKey source]. split; [by apply bool_decide_eq_true|].
  rewrite Hmanual, Henv.
  destruct (items !! "jina_api_key") as [stored|].
  - destruct (String.eqb_spec stored key) as [->|Hdiff].
    + by rewrite decide_True.
    + rewrite decide_False; [done|]. by intros [= ->].
  - by rewrite decide_False.
Qed.

Lemma getApiKeyStatus_source_on_pages_witness :
  exists st,
    getApiKeyStatus injected_env copied_state = (Return st, copied_state)
    /\ source st = "localStorage".
Proof.
  destruct (getApiKeyStatus_source_on_pages injected_env copied_state
              (<["jina_api_key" := "jina_injected"]> ∅) "jina_injected")
    as (st & Hstatus & _ & Hsource);
    [reflexivity|reflexivity|reflexivity|discriminate|reflexivity|].
  exists st. split; [exact Hstatus|]. rewrite Hsource. reflexivity.
Defined.

(** X7. [storeApiKeyLocally] writes to the storage before it checks the
    key: with a value that is not a string (or with the empty string) it
    throws "Invalid API key provided" and leaves the key held in memory
    as it was, but the storage now holds the value's string form under
    "jina_api_key"; in local development, with no key set by hand, a
    later [getApiKey] answers that string as the key. *)
Theorem storeApiKeyLocally_invalid_key_is_stored (apiKey : JsValue) (s : State)
        (items : gmap string string) :
  localStorage s = Some items ->
  truthy apiKey && is_string apiKey = false ->
  let s' := with_localStorage (<["jina_api_key" := ToString apiKey]> items) s in
  storeApiKeyLocally apiKey s = (Throw (Error "Invalid API key provided"), s')
  /\ API_KEY s' = API_KEY s
  /\ (forall env,
        detectEnvironment env = local_development ->
        truthy_key (API_KEY s) = None ->
        ToString apiKey <> "" ->
        getApiKey env s' = (Return (Some (ToString apiKey)), s')).
Proof.
  intros Hstorage Hbad s'. split; [|split; [reflexivity|]].
  - unfold storeApiKeyLocally, bind, get, modify. simpl. rewrite Hstorage. simpl.
    by rewrite (setJinaApiKey_throws _ _ Hbad).
  - intros env Henv Hmanual Hne.
    unfold getApiKey, localStorage_getItem, bind, get, ret. simpl.
    rewrite Hmanual, Henv. simpl. rewrite lookup_insert_eq.
    assert (truthy_key (Some (ToString apiKey)) = Some (ToString apiKey)) as ->
        by (by apply truthy_key_Some).
    reflexivity.
Qed.

Lemma storeApiKeyLocally_invalid_key_is_stored_witness :
  exists s',
    storeApiKeyLocally (JsOther false "undefined") fresh_state
    = (Throw (Error "Invalid API key provided"), s')
    /\ getApiKey local_env s' = (Return (Some "undefined"), s').
Proof.
  destruct (storeApiKeyLocally_invalid_key_is_stored (JsOther false "undefined")
              fresh_state ∅) as (Hstore & _ & Hget); [reflexivity|reflexivity|].
  eexists. split; [exact Hstore|].
  apply (Hget local_env); [reflexivity|reflexivity|discriminate].
Defined.


(** *** Calls to the provider *)

Lemma check_inputs_Return (index : nat) (inputArray : list JsValue) (texts : list string) :
  check_inputs index inputArray = Return texts ->
  exists originals,
    inputArray = JsString <$> originals /\ texts = truncate_input <$> originals.
Proof.
  revert index texts.
  induction inputArray as [|[text|b shown] rest IH]; intros index texts; simpl.
  - intros [= <-]. by exists [].
  - destruct (check_inputs (S index) rest) as [rest'|e] eqn:Hrest; [|discriminate].
    intros [= <-]. destruct (IH _ _ Hrest) as (originals & -> & ->).
    by exists (text :: originals).
  - discriminate.
Qed.

Lemma check_inputs_Throw (index : nat) (texts : list string) (b : bool)
      (shown : string) (rest : list JsValue) :
  check_inputs index ((JsString <$> texts) ++ JsOther b shown :: rest)
  = Throw (Error ("Input " +:+ pretty (index + List.length texts)%nat
                  +:+ " must be a string")).
Proof.
  revert index. induction texts as [|text texts IH]; intros index; simpl.
  - by rewrite Nat.add_0_r.
  - rewrite IH. by rewrite Nat.add_succ_r.
Qed.

Lemma getApiKey_fetched (env : Env) (s s1 : State) (key : outcome (option string)) :
  getApiKey env s = (key, s1) -> fetched s1 = fetched s.
Proof.
  intros Hget. destruct (keeps_keys_getApiKey env s) as (_ & _ & more & Hmore & Hlen).
  rewrite Hget in Hmore. simpl in Hmore.
  destruct more; [by rewrite app_nil_r in Hmore|simpl in Hlen; lia].
Qed.

(** [callJinaAPI] once [getApiKey] has answered a key. *)
Lemma callJinaAPI_with_key (env : Env) (s s1 : State) (key : string)
      (input : JinaInput) (options : gmap string Json) :
  getApiKey env s = (Return (Some key), s1) ->
  callJinaAPI env input options s
  = match check_inputs 0 (inputArray_of input) with
    | Throw e => (Throw (tagged "JINA_API_ERROR" e), s1)
    | Return inputArray =>
        let request := embedding_request key inputArray options in
        let s2 := with_request request s1 in
        match fetch env (List.length (fetched s1)) request with
        | Rejects e => (Throw (tagged "JINA_API_ERROR" e), s2)
        | Responds response =>
            if resp_ok response then
              match resp_json response with
              | Throw e => (Throw (tagged "JINA_API_ERROR" e), s2)
              | Return answer =>
                  match data answer with
                  | Some _ => (Return answer, s2)
                  | None =>
                      (Throw (tagged "JINA_API_ERROR"
                                (Error "Invalid response structure from JINA API")), s2)
                  end
              end
            else
              (Throw (tagged "JINA_API_ERROR"
                        (Error ("JINA API error " +:+ pretty (resp_status response)
                                +:+ ": " +:+ default "Unknown error" (resp_text response)))),
               s2)
        end
    end.
Proof.
  intros Hget. pose proof (getApiKey_truthy _ _ _ _ Hget) as Htruthy.
  unfold callJinaAPI, safeAsync, try_catch, bind. rewrite Hget. cbv beta iota.
  rewrite Htruthy. unfold lift.
  destruct (check_inputs 0 (inputArray_of input)) as [inputArray|e]; [|reflexivity].
  unfold do_fetch, bind, get, modify. cbv beta iota zeta.
  fold (embedding_request key inputArray options).
  destruct (fetch env _ _) as [response|e]; [|reflexivity].
  unfold ret. cbv beta iota.
  destruct (resp_ok response); simpl; [|reflexivity].
  destruct (resp_json response) as [answer|e]; simpl; [|reflexivity].
  by destruct (data answer).
Qed.

(** X8. With a key at hand, [callJinaAPI] on an array whose entry [i] is
    the first that is not a string throws "Input i must be a string", and
    no request is sent, whatever follows that entry. *)
Theorem callJinaAPI_rejects_non_string (env : Env) (s s1 : State) (key : string)
        (input : JinaInput) (options : gmap string Json)
        (texts : list string) (b : bool) (shown : string) (rest : list JsValue) :
  getApiKey env s = (Return (Some key), s1) ->
  inputArray_of input = (JsString <$> texts) ++ JsOther b shown :: rest ->
  callJinaAPI env input options s
  = (Throw {| error_stage := ["JINA_API_ERROR"];
              error_message := "Input " +:+ pretty (List.length texts)
                               +:+ " must be a string" |}, s1)
  /\ fetched s1 = fetched s.
Proof.
  intros Hget Hinput. split.
  - rewrite (callJinaAPI_with_key env s s1 key input options Hget), Hinput.
    by rewrite check_inputs_Throw.
  - exact (getApiKey_fetched _ _ _ _ Hget).
Qed.

Lemma callJinaAPI_rejects_non_string_witness :
  callJinaAPI local_env (Array [JsString "hola"; JsOther true "42"; JsString "x"]) ∅
              keyed_state
  = (Throw {| error_stage := ["JINA_API_ERROR"];
              error_message := "Input 1 must be a string" |}, keyed_state).
Proof.
  apply (callJinaAPI_rejects_non_string local_env keyed_state keyed_state
           "jina_test_key" _ ∅ ["hola"] true "42" [JsString "x"]); reflexivity.
Defined.

(** X9. Whenever [callJinaAPI] returns an answer, [getApiKey] has found a
    key, every input was a string, exactly one request has been sent (a
    POST to the embeddings URL that carries the key as [Bearer] token and
    the inputs cut to the maximal length), the provider answered it with
    an [ok] response, and the answer returned is that response's body,
    which has a [data] array. *)
Theorem callJinaAPI_returns (env : Env) (s s' : State) (input : JinaInput)
        (options : gmap string Json) (answer : ResponseData) :
  callJinaAPI env input options s = (Return answer, s') ->
  exists key originals response,
    let request := embedding_request key (truncate_input <$> originals) options in
    fst (getApiKey env s) = Return (Some key)
    /\ inputArray_of input = JsString <$> originals
    /\ fetched s' = fetched s ++ [request]
    /\ req_url request = "https://api.jina.ai/v1/embeddings"
    /\ req_method request = "POST"
    /\ ("Authorization", "Bearer " +:+ key) ∈ req_headers request
    /\ fetch env (List.length (fetched s)) request = Responds response
    /\ resp_ok response = true
    /\ resp_json response = Return answer
    /\ is_Some (data answer).
Proof.
  intros Hcall.
  destruct (getApiKey env s) as [[[key|]|e] s1] eqn:Hget.
  - pose proof (getApiKey_fetched _ _ _ _ Hget) as Hfetched.
    rewrite (callJinaAPI_with_key env s s1 key input options Hget) in Hcall.
    destruct (check_inputs 0 (inputArray_of input)) as [inputArray|e] eqn:Hcheck;
      [|discriminate].
    apply check_inputs_Return in Hcheck as (originals & Hinput & ->).
    cbv zeta in Hcall. rewrite Hfetched in Hcall.
    destruct (fetch env _ _) as [response|e] eqn:Hfetch; [|discriminate].
    destruct (resp_ok response) eqn:Hok; [|discriminate].
    destruct (resp_json response) as [body|e] eqn:Hjson; [|discriminate].
    destruct (data body) as [embeddings|] eqn:Hdata; [|discriminate].
    injection Hcall as <- <-.
    exists key, originals, response. cbv zeta.
    split; [reflexivity|]. split; [exact Hinput|].
    split; [by rewrite <- Hfetched|]. split; [reflexivity|]. split; [reflexivity|].
    split; [apply list_elem_of_further, list_elem_of_here|].
    split; [exact Hfetch|]. split; [exact Hok|]. split; [exact Hjson|].
    rewrite Hdata. by eexists.
  - exfalso. revert Hcall.
    unfold callJinaAPI, safeAsync, try_catch, bind. rewrite Hget. cbv beta iota. simpl.
    destruct (getApiKeyStatus env s1) as [[st|e] s2]; discriminate.
  - exfalso. revert Hcall.
    unfold callJinaAPI, safeAsync, try_catch, bind. rewrite Hget. discriminate.
Qed.

Lemma callJinaAPI_returns_witness :
  exists request,
    fetched (snd (callJinaAPI local_env (Single (JsString "hola")) ∅ keyed_state))
    = [request]
    /\ ("Authorization", "Bearer jina_test_key") ∈ req_headers request.
Proof.
  destruct (callJinaAPI local_env (Single (JsString "hola")) ∅ keyed_state)
    as [answer s'] eqn:Hcall.
  destruct answer as [answer|e]; [|discriminate Hcall].
  destruct (callJinaAPI_returns local_env keyed_state s' (Single (JsString "hola")) ∅
              answer Hcall)
    as (key & originals & response & Hkey & _ & Hfetched & _ & _ & Hheader & _).
  injection Hkey as <-.
  eexists. split; [exact Hfetched|exact Hheader].
Defined.


(** X10. With a key at hand and string inputs, every failure of the
    provider reaches the caller of [callJinaAPI] as an error, after the
    one request has been sent: a rejected [fetch] (network failure,
    timeout) keeps its message; a response that is not [ok] gives "JINA
    API error <status>: <body>", with "Unknown error" when the body cannot
    be read; a body that is not JSON keeps the parser's message; a body
    without a [data] array gives "Invalid response structure from JINA
    API". *)
Theorem callJinaAPI_failures (env : Env) (s s1 : State) (key : string)
        (input : JinaInput) (options : gmap string Json) (originals : list string) :
  getApiKey env s = (Return (Some key), s1) ->
  inputArray_of input = JsString <$> originals ->
  let request := embedding_request key (truncate_input <$> originals) options in
  let sent := with_request request s1 in
  let answered := fetch env (List.length (fetched s1)) request in
  let failed message :=
    callJinaAPI env input options s
    = (Throw {| error_stage := ["JINA_API_ERROR"]; error_message := message |}, sent) in
  (forall e, answered = Rejects e ->
     callJinaAPI env input options s = (Throw (tagged "JINA_API_ERROR" e), sent))
  /\ (forall response, answered = Responds response -> resp_ok response = false ->
        failed ("JINA API error " +:+ pretty (resp_status response) +:+ ": "
                +:+ default "Unknown error" (resp_text response)))
  /\ (forall response e, answered = Responds response -> resp_ok response = true ->
        resp_json response = Throw e ->
        callJinaAPI env input options s = (Throw (tagged "JINA_API_ERROR" e), sent))
  /\ (forall response answer, answered = Responds response -> resp_ok response = true ->
        resp_json response = Return answer -> data answer = None ->
        failed "Invalid response structure from JINA API").
Proof.
  intros Hget Hinput request sent answered failed. subst failed. cbv beta.
  rewrite (callJinaAPI_with_key env s s1 key input options Hget), Hinput,
    check_inputs_strings.
  cbv zeta. fold request. fold answered. fold sent.
  split; [|split; [|split]].
  - by intros e ->.
  - by intros response -> ->.
  - by intros response e -> -> ->.
  - by intros response answer -> -> -> ->.
Qed.

Lemma callJinaAPI_failures_witness :
  exists s',
    callJinaAPI denied_env (Single (JsString "hola")) ∅ keyed_state
    = (Throw {| error_stage := ["JINA_API_ERROR"];
                error_message := "JINA API error 401: Unknown error" |}, s')
    /\ List.length (fetched s') = 1%nat.
Proof.
  destruct (callJinaAPI_failures denied_env keyed_state keyed_state "jina_test_key"
              (Single (JsString "hola")) ∅ ["hola"] eq_refl eq_refl)
    as (_ & Hdenied & _).
  eexists. split; [exact (Hdenied _ eq_refl eq_refl)|reflexivity].
Defined.

(** *** The key, once found *)

Lemma getApiKey_with_request (env : Env) (r : Request) (s : State) :
  getApiKey env (with_request r s)
  = let '(key, s') := getApiKey env s in (key, with_request r s').
Proof.
  unfold getApiKey, localStorage_getItem, bind, get, ret, throw. simpl.
  destruct (truthy_key (API_KEY s)) as [manual|]; [reflexivity|].
  destruct (detectEnvironment env); simpl; [reflexivity|].
  destruct (localStorage s) as [items|]; [|reflexivity]. simpl.
  destruct (truthy_key (items !! "jina_api_key")) as [stored|]; simpl; [reflexivity|].
  rewrite !tryLoadLocalConfig_run. simpl.
  destruct (configLoadAttempted s); simpl;
    match goal with
    | |- context [truthy_key ?k] => destruct (truthy_key k)
    end; reflexivity.
Qed.

Lemma getApiKey_again (env : Env) (s s1 : State) (key : string) :
  getApiKey env s = (Return (Some key), s1) ->
  getApiKey env s1 = (Return (Some key), s1).
Proof.
  unfold getApiKey, localStorage_getItem, bind, get, ret, throw. simpl.
  destruct (truthy_key (API_KEY s)) as [manual|] eqn:Hmanual.
  - intros [= <- <-]. by rewrite Hmanual.
  - destruct (detectEnvironment env); simpl.
    + intros [= Hkey <-]. by rewrite Hmanual, Hkey.
    + destruct (localStorage s) as [items|] eqn:Hstorage; [|discriminate]. simpl.
      destruct (truthy_key (items !! "jina_api_key")) as [stored|] eqn:Hstored; simpl.
      * intros [= <- <-]. rewrite Hmanual; simpl. rewrite Hstorage; simpl.
        by rewrite Hstored.
      * rewrite tryLoadLocalConfig_run.
        destruct (configLoadAttempted s) eqn:Hattempted; simpl.
        -- destruct (truthy_key (localApiConfig s ≫= config_API_KEY)) eqn:Hcached;
             intros [= <- <-].
           rewrite Hmanual; simpl. rewrite Hstorage; simpl. rewrite Hstored; simpl.
           rewrite tryLoadLocalConfig_run, Hattempted; simpl. by rewrite Hcached.
        -- destruct (api_config_js env) as [file|] eqn:Hfile; simpl; [|discriminate].
           destruct (truthy_key (config_API_KEY file)) eqn:Hcached; intros [= <- <-].
           simpl. rewrite Hmanual; simpl. rewrite Hstorage; simpl.
           rewrite Hstored; simpl. by rewrite Hcached.
Qed.

(** X11. Once [getApiKey] has answered a key, it answers the same key
    again and changes nothing more, however often it is called and whatever
    requests are sent in between: the search (storage, configuration
    file, injected variable) has reached a fixed point. *)
Theorem getApiKey_stable (env : Env) (s s1 : State) (key : string) :
  getApiKey env s = (Return (Some key), s1) ->
  (forall n : nat,
      getApiKey_each (replicate n env) s1 = (replicate n (Return (Some key)), s1))
  /\ (forall r, getApiKey env (with_request r s1)
                = (Return (Some key), with_request r s1)).
Proof.
  intros Hget. apply getApiKey_again in Hget. split.
  - induction n as [|n IH]; [reflexivity|]. simpl. by rewrite Hget, IH.
  - intros r. by rewrite getApiKey_with_request, Hget.
Qed.

Lemma getApiKey_stable_witness :
  exists s1,
    getApiKey file_env fresh_state = (Return (Some "jina_from_file"), s1)
    /\ getApiKey_each [file_env; file_env] s1
       = ([Return (Some "jina_from_file"); Return (Some "jina_from_file")], s1).
Proof.
  eexists. split; [reflexivity|].
  destruct (getApiKey_stable file_env fresh_state _ "jina_from_file" eq_refl)
    as [Heach _].
  exact (Heach 2%nat).
Defined.


Lemma getApiKeyStatus_with_key (env : Env) (s s1 : State) (key : string) :
  getApiKey env s = (Return (Some key), s1) ->
  (exists st, getApiKeyStatus env s = (Return st, s1)
              /\ hasKey st = true /\ source st <> "none"
              /\ environment st = detectEnvironment env)
  \/ (exists e, getApiKeyStatus env s = (Throw e, s1) /\ localStorage s = None).
Proof.
  intros Hget. destruct (localStorage s) as [items|] eqn:Hstorage.
  - left. eexists. split; [exact (getApiKeyStatus_run env s s1 items _ Hstorage Hget)|].
    cbn [hasKey source environment]. split; [by apply bool_decide_eq_true|].
    split; [|reflexivity].
    repeat match goal with
           | |- context [if ?b then _ else _] => destruct b
           end; discriminate.
  - pose proof (getApiKey_truthy _ _ _ _ Hget) as Htruthy.
    destruct (keeps_keys_getApiKey env s) as (Hkey & Hstorage1 & _).
    rewrite Hget in Hkey, Hstorage1. simpl in Hkey, Hstorage1.
    unfold getApiKeyStatus, bind. rewrite Hget. rewrite Htruthy.
    unfold localStorage_getItem, get, bind, ret, throw. cbn beta iota.
    destruct (match truthy_key (API_KEY s1) with
              | Some manual => String.eqb key manual
              | None => false
              end).
    + left. eexists. split; [reflexivity|]. by split; [apply bool_decide_eq_true|].
    + right. cbv beta iota. rewrite Hstorage1, Hstorage. by eexists.
Qed.

(** *** Creating the embedding of a text *)

(** X12. [createUserInputEmbedding] refuses a text before anything else
    happens: a value that is not a string, or the empty string, throws
    "Input text is required and must be a string"; a string that
    [cleanText] makes empty throws "Input text is empty after cleaning".
    In both cases the state is untouched: no key is looked up and no
    request is sent. *)
Theorem createUserInputEmbedding_rejects_blank (env : Env) (s : State) :
  (forall text, truthy text && is_string text = false ->
     createUserInputEmbedding env text s
     = (Throw {| error_stage := ["EMBEDDING_CREATE_ERROR"];
                 error_message := "Input text is required and must be a string" |}, s))
  /\ (forall text, text <> "" -> cleanText env text = "" ->
        createUserInputEmbedding env (JsString text) s
        = (Throw {| error_stage := ["EMBEDDING_CREATE_ERROR"];
                    error_message := "Input text is empty after cleaning" |}, s)).
Proof.
  split.
  - intros text Hbad. unfold createUserInputEmbedding, safeAsync, try_catch, throw.
    by destruct (truthy text), (is_string text).
  - intros text Hne Hclean.
    unfold createUserInputEmbedding, safeAsync, try_catch, throw. simpl.
    apply String.eqb_neq in Hne. rewrite Hne, Hclean. reflexivity.
Qed.

(** X13. Whenever [createUserInputEmbedding] returns, its argument was a
    non-empty string, kept as [originalText]; [preprocessedText] is that
    string cleaned, and is not empty; exactly one request has been sent,
    whose input is the cleaned text cut to the maximal length;
    [dimension] is the length of the vector; the model is
    "jina-embeddings-v3"; the key source is not "none"; and the note says
    "Dimensions match" exactly when the length of the vector is the
    dimension of the corpus. *)
Theorem createUserInputEmbedding_returns (env : Env) (text : JsValue) (s s' : State)
        (r : UserInputEmbedding) :
  createUserInputEmbedding env text s = (Return r, s') ->
  exists request,
    text = JsString (originalText r)
    /\ originalText r <> ""
    /\ preprocessedText r = cleanText env (originalText r)
    /\ preprocessedText r <> ""
    /\ fetched s' = fetched s ++ [request]
    /\ req_body request !! "input"
       = Some (JArr [JStr (truncate_input (preprocessedText r))])
    /\ dimension r = List.length (ue_embedding r)
    /\ model r = "jina-embeddings-v3"
    /\ apiKeySource r <> "none"
    /\ ue_environment r = detectEnvironment env
    /\ timestamp r = now env
    /\ (note (dimensionMismatch r) = "Dimensions match"
        <-> List.length (ue_embedding r) = EMBEDDING_dimension env).
Proof.
  unfold createUserInputEmbedding, safeAsync at 1, try_catch at 1, bind.
  destruct text as [text|b shown]; simpl; [|by rewrite orb_true_r].
  destruct (String.eqb_spec text "") as [->|Hne]; simpl; [discriminate|].
  destruct (String.eqb_spec (cleanText env text) "") as [Hclean|Hclean]; [discriminate|].
  destruct (callJinaAPI env _ _ s) as [[response|e] s1] eqn:Hcall; [|discriminate].
  cbv beta iota.
  destruct (default [] (data response) !! 0%nat) as [embeddingData|]; [|discriminate].
  destruct (embedding embeddingData) as [vector|]; [|discriminate].
  (* the call has found a key, and has sent one request *)
  destruct (getApiKey env s) as [[[key|]|e] s0] eqn:Hget.
  - pose proof (getApiKey_fetched _ _ _ _ Hget) as Hfetched.
    pose proof Hcall as Hrun.
    rewrite (callJinaAPI_with_key env s s0 key _ ∅ Hget) in Hrun.
    cbn [inputArray_of check_inputs] in Hrun. cbv zeta in Hrun.
    set (request := embedding_request key [truncate_input (cleanText env text)] ∅) in *.
    assert (s1 = with_request request s0) as ->.
    { destruct (fetch env _ request) as [response'|e]; [|by injection Hrun].
      destruct (resp_ok response'); [|by injection Hrun].
      destruct (resp_json response') as [answer|e]; [|by injection Hrun].
      destruct (data answer); by injection Hrun. }
    assert (getApiKey env (with_request request s0)
            = (Return (Some key), with_request request s0)) as Hagain.
    { rewrite getApiKey_with_request. by rewrite (getApiKey_again _ _ _ _ Hget). }
    destruct (getApiKeyStatus_with_key _ _ _ _ Hagain)
      as [(st & -> & _ & Hsource & Henv) | (e & -> & _)]; [|discriminate].
    unfold ret. intros [= <- <-]. cbn.
    exists request. repeat split; try done.
    + by rewrite Hfetched.
    + destruct (Nat.eqb_spec (List.length vector) (EMBEDDING_dimension env)); done.
    + destruct (Nat.eqb_spec (List.length vector) (EMBEDDING_dimension env)); done.
  - exfalso. revert Hcall.
    unfold callJinaAPI, safeAsync, try_catch, bind. rewrite Hget. cbv beta iota. simpl.
    destruct (getApiKeyStatus env s0) as [[st|e] s2]; discriminate.
  - exfalso. revert Hcall.
    unfold callJinaAPI, safeAsync, try_catch, bind. rewrite Hget. discriminate.
Qed.

Lemma createUserInputEmbedding_returns_witness :
  exists request,
    fetched (snd (createUserInputEmbedding local_env (JsString " hola ") keyed_state))
    = [request]
    /\ req_body request !! "input" = Some (JArr [JStr "hola"]).
Proof.
  destruct (createUserInputEmbedding local_env (JsString " hola ") keyed_state)
    as [created s'] eqn:Hcreated.
  destruct created as [r|e]; [|discriminate Hcreated].
  destruct (createUserInputEmbedding_returns local_env _ keyed_state s' r Hcreated)
    as (request & _ & _ & Hclean & _ & Hfetched & Hbody & _).
  exists request. split; [exact Hfetched|].
  rewrite Hbody, Hclean.
  injection Hcreated as <- _. reflexivity.
Defined.

(** X14. [createUserInputEmbedding] reads the first entry of the answer's
    [data] array without checking that there is one: when the provider
    answers with an empty array the creation throws; and when the first
    entry has no [embedding] it throws "No embedding returned from JINA
    API". In both cases the request has been sent. *)
Theorem createUserInputEmbedding_needs_embedding (env : Env) (text : string)
        (s s1 : State) (answer : ResponseData) :
  text <> "" ->
  cleanText env text <> "" ->
  callJinaAPI env (Single (JsString (cleanText env text))) ∅ s = (Return answer, s1) ->
  (data answer = Some [] ->
   exists e, createUserInputEmbedding env (JsString text) s = (Throw e, s1))
  /\ (forall first rest,
        data answer = Some (first :: rest) -> embedding first = None ->
        createUserInputEmbedding env (JsString text) s
        = (Throw {| error_stage := ["EMBEDDING_CREATE_ERROR"];
                    error_message := "No embedding returned from JINA API" |}, s1)).
Proof.
  intros Hne Hclean Hcall.
  apply String.eqb_neq in Hne, Hclean.
  split.
  - intros Hdata. unfold createUserInputEmbedding, safeAsync at 1, try_catch at 1, bind.
    simpl. rewrite Hne. simpl. rewrite Hclean, Hcall. cbv beta iota.
    rewrite Hdata. simpl.
    by eexists.
  - intros first rest Hdata Hnone.
    unfold createUserInputEmbedding, safeAsync at 1, try_catch at 1, bind.
    simpl. rewrite Hne. simpl. rewrite Hclean, Hcall. cbv beta iota.
    rewrite Hdata. simpl.
    by rewrite Hnone.
Qed.

Lemma createUserInputEmbedding_needs_embedding_witness :
  exists e s1, createUserInputEmbedding empty_env (JsString "hola") keyed_state
               = (Throw e, s1)
               /\ List.length (fetched s1) = 1%nat.
Proof.
  destruct (callJinaAPI empty_env (Single (JsString "hola")) ∅ keyed_state)
    as [called s1] eqn:Hcall.
  destruct called as [answer|e]; [|discriminate Hcall].
  destruct (createUserInputEmbedding_needs_embedding empty_env "hola" keyed_state s1
              answer) as [Hempty _]; [discriminate|discriminate|exact Hcall|].
  destruct Hempty as [e He].
  - by injection Hcall as <- _.
  - exists e, s1. split; [exact He|]. by injection Hcall as _ <-.
Defined.


(** *** Checking the model *)

(** [callJinaAPI] on strings, once [getApiKey] has answered a key: the
    request is sent, and the call returns exactly the answers that it
    accepts. *)
Lemma callJinaAPI_accepts (env : Env) (s s1 : State) (key : string)
      (input : JinaInput) (options : gmap string Json) (originals : list string) :
  getApiKey env s = (Return (Some key), s1) ->
  inputArray_of input = JsString <$> originals ->
  let request := embedding_request key (truncate_input <$> originals) options in
  exists result,
    callJinaAPI env input options s = (result, with_request request s1)
    /\ match accepted_answer env (List.length (fetched s1)) request with
       | Some answer => result = Return answer
       | None => exists e, result = Throw e
       end.
Proof.
  intros Hget Hinput request.
  rewrite (callJinaAPI_with_key env s s1 key input options Hget), Hinput,
    check_inputs_strings.
  cbv zeta. fold request. unfold accepted_answer.
  destruct (fetch env _ request) as [response|e]; [|by eexists; split; [|eexists]].
  destruct (resp_ok response); [|by eexists; split; [|eexists]].
  destruct (resp_json response) as [answer|e]; [|by eexists; split; [|eexists]].
  destruct (data answer); by eexists; split; [|try eexists].
Qed.

(** X15. With a storage at hand [isEmbeddingModelReady] never throws: it
    returns [false] without sending anything when no key is found, and
    otherwise sends one test request (input "test") and returns whether
    the provider's answer to it is accepted; every failure of that
    request is answered by [false]. *)
Theorem isEmbeddingModelReady_total (env : Env) (s : State) :
  is_Some (localStorage s) ->
  exists key s1 ready s',
    getApiKey env s = (Return key, s1)
    /\ isEmbeddingModelReady env s = (Return ready, s')
    /\ match key with
       | None => ready = false /\ s' = s1 /\ fetched s' = fetched s
       | Some key =>
           fetched s' = fetched s ++ [test_request key]
           /\ req_body (test_request key) !! "input" = Some (JArr [JStr "test"])
           /\ ready = bool_decide
                        (is_Some (accepted_answer env (List.length (fetched s))
                                                  (test_request key)))
       end.
Proof.
  intros Hsome. destruct (getApiKey_returns env s Hsome) as (key & s1 & Hget).
  pose proof (getApiKey_fetched _ _ _ _ Hget) as Hfetched.
  destruct Hsome as [items Hstorage].
  pose proof (getApiKeyStatus_run env s s1 items key Hstorage Hget) as Hstatus.
  exists key, s1.
  unfold isEmbeddingModelReady, safeAsync, try_catch at 1, bind at 1.
  rewrite Hstatus. cbn [hasKey]. cbv beta iota.
  destruct key as [key|].
  - rewrite bool_decide_eq_true_2 by (by eexists). cbn [negb]. cbv beta iota.
    destruct (callJinaAPI_accepts env s1 s1 key (Single (JsString "test")) ∅ ["test"]
                (getApiKey_again _ _ _ _ Hget) eq_refl) as (result & Hcall & Hresult).
    cbv zeta in Hcall, Hresult. change (truncate_input <$> ["test"]) with ["test"] in *.
    fold (test_request key) in *.
    unfold try_catch, bind. rewrite Hcall. rewrite Hfetched in Hresult.
    destruct (accepted_answer env _ (test_request key)) as [answer|].
    + subst result. eexists _, _. split; [done|]. split; [reflexivity|].
      simpl. rewrite Hfetched. split; [done|]. split; [reflexivity|].
      done.
    + destruct Hresult as [e ->]. eexists _, _. split; [done|]. split; [reflexivity|].
      simpl. rewrite Hfetched. split; [done|]. split; [reflexivity|].
      done.
  - rewrite bool_decide_eq_false_2 by (by intros [? ?]). cbn [negb].
    eexists _, _. split; [done|]. split; [reflexivity|]. done.
Qed.

Lemma isEmbeddingModelReady_total_witness :
  isEmbeddingModelReady local_env keyed_state
  = (Return true, with_request (test_request "jina_test_key") keyed_state)
  /\ isEmbeddingModelReady denied_env keyed_state
     = (Return false, with_request (test_request "jina_test_key") keyed_state)
  /\ isEmbeddingModelReady local_env fresh_state
     = (Return false, snd (getApiKey local_env fresh_state)).
Proof.
  split; [|split].
  - destruct (isEmbeddingModelReady_total local_env keyed_state)
      as (key & s1 & ready & s' & Hget & Hready & Hkey); [by eexists|].
    injection Hget as <- <-. by rewrite Hready.
  - destruct (isEmbeddingModelReady_total denied_env keyed_state)
      as (key & s1 & ready & s' & Hget & Hready & Hkey); [by eexists|].
    injection Hget as <- <-. by rewrite Hready.
  - destruct (isEmbeddingModelReady_total local_env fresh_state)
      as (key & s1 & ready & s' & Hget & Hready & Hkey); [by eexists|].
    injection Hget as <- <-. by rewrite Hready.
Defined.


Lemma getApiKeyStatus_without_key (env : Env) (s s1 : State) :
  getApiKey env s = (Return None, s1) ->
  exists st, getApiKeyStatus env s = (Return st, s1)
             /\ hasKey st = false /\ source st = "none"
             /\ environment st = detectEnvironment env.
Proof.
  intros Hget. unfold getApiKeyStatus, bind. rewrite Hget. simpl.
  eexists. by split.
Qed.

Lemma getApiKeyStatus_throws (env : Env) (s s1 : State) (e : JsError) :
  getApiKey env s = (Throw e, s1) -> getApiKeyStatus env s = (Throw e, s1).
Proof. intros Hget. unfold getApiKeyStatus, bind. by rewrite Hget. Qed.

(** X16. Whenever [loadEmbeddingModel] returns, a key has been found
    (the status it returns has [hasKey] and a source other than "none"),
    exactly one test request has been sent with that key, and the
    provider's answer to it has been accepted. *)
Theorem loadEmbeddingModel_returns (env : Env) (s s' : State) (st : KeyStatus) :
  loadEmbeddingModel env s = (Return st, s') ->
  exists key,
    fst (getApiKey env s) = Return (Some key)
    /\ hasKey st = true
    /\ source st <> "none"
    /\ fetched s' = fetched s ++ [test_request key]
    /\ is_Some (accepted_answer env (List.length (fetched s)) (test_request key)).
Proof.
  unfold loadEmbeddingModel, safeAsync, try_catch, bind at 1.
  destruct (getApiKey env s) as [[[key|]|e] s1] eqn:Hget.
  - pose proof (getApiKey_fetched _ _ _ _ Hget) as Hfetched.
    destruct (getApiKeyStatus_with_key _ _ _ _ Hget)
      as [(st' & -> & HhasKey & Hsource & _) | (e & -> & _)]; [|discriminate].
    rewrite HhasKey. cbn [negb]. cbv beta iota.
    destruct (callJinaAPI_accepts env s1 s1 key (Single (JsString "test")) ∅ ["test"]
                (getApiKey_again _ _ _ _ Hget) eq_refl) as (result & Hcall & Hresult).
    cbv zeta in Hcall, Hresult. change (truncate_input <$> ["test"]) with ["test"] in *.
    fold (test_request key) in *. unfold bind. rewrite Hcall.
    rewrite Hfetched in Hresult.
    destruct (accepted_answer env _ (test_request key)) as [answer|] eqn:Haccepted.
    + subst result. unfold ret. intros [= <- <-]. exists key.
      split; [reflexivity|]. split; [done|]. split; [done|].
      split; [by simpl; rewrite Hfetched|by rewrite Haccepted].
    + destruct Hresult as [e ->]. discriminate.
  - destruct (getApiKeyStatus_without_key _ _ _ Hget) as (st' & -> & -> & _).
    discriminate.
  - rewrite (getApiKeyStatus_throws _ _ _ _ Hget). discriminate.
Qed.

Lemma loadEmbeddingModel_returns_witness :
  fetched (snd (loadEmbeddingModel local_env keyed_state))
  = [test_request "jina_test_key"].
Proof.
  destruct (loadEmbeddingModel local_env keyed_state) as [loaded s'] eqn:Hload.
  destruct loaded as [st|e]; [|discriminate Hload].
  destruct (loadEmbeddingModel_returns local_env keyed_state s' st Hload)
    as (key & Hkey & _ & _ & Hfetched & _).
  injection Hkey as <-. exact Hfetched.
Defined.

(** X17. With a storage at hand [getEmbeddingModelStatus] never throws.
    Without a key it sends nothing and answers the status
    "api_key_missing" with the message "JINA API key required for
    <environment>"; with a key it sends one test request and answers
    "ready" (with [testPassed]) when the provider's answer is accepted,
    and "error" with the error's message otherwise. [ready] holds exactly
    for the status "ready". *)
Theorem getEmbeddingModelStatus_total (env : Env) (s : State) :
  is_Some (localStorage s) ->
  exists key s1 st s',
    getApiKey env s = (Return key, s1)
    /\ getEmbeddingModelStatus env s = (Return st, s')
    /\ modelName st = "jina-embeddings-v3"
    /\ status_dimensions st = 1024%nat
    /\ hasKey (status_key st) = bool_decide (is_Some key)
    /\ (ready st = true <-> status st = "ready")
    /\ match key with
       | None =>
           status st = "api_key_missing"
           /\ status_message st
              = Some ("JINA API key required for "
                      +:+ environment_name (detectEnvironment env))
           /\ fetched s' = fetched s
       | Some key =>
           fetched s' = fetched s ++ [test_request key]
           /\ match accepted_answer env (List.length (fetched s)) (test_request key) with
              | Some _ => status st = "ready" /\ testPassed st = Some true
              | None => status st = "error" /\ is_Some (status_error st)
              end
       end.
Proof.
  intros Hsome. destruct (getApiKey_returns env s Hsome) as (key & s1 & Hget).
  pose proof (getApiKey_fetched _ _ _ _ Hget) as Hfetched.
  destruct Hsome as [items Hstorage].
  pose proof (getApiKeyStatus_run env s s1 items key Hstorage Hget) as Hstatus.
  exists key, s1.
  unfold getEmbeddingModelStatus, safeAsync, try_catch at 1, bind at 1.
  rewrite Hstatus. cbn [hasKey]. cbv beta iota zeta.
  destruct key as [key|].
  - rewrite bool_decide_eq_true_2 by (by eexists). cbn [negb]. cbv beta iota.
    destruct (callJinaAPI_accepts env s1 s1 key (Single (JsString "test")) ∅ ["test"]
                (getApiKey_again _ _ _ _ Hget) eq_refl) as (result & Hcall & Hresult).
    cbv zeta in Hcall, Hresult. change (truncate_input <$> ["test"]) with ["test"] in *.
    fold (test_request key) in *.
    unfold try_catch, bind. rewrite Hcall. rewrite Hfetched in Hresult.
    destruct (accepted_answer env _ (test_request key)) as [answer|].
    + subst result. eexists _, _. split; [done|]. split; [reflexivity|].
      cbn. rewrite Hfetched. repeat split; done.
    + destruct Hresult as [e ->]. eexists _, _. split; [done|]. split; [reflexivity|].
      cbn. rewrite Hfetched. repeat split; done.
  - rewrite bool_decide_eq_false_2 by (by intros [? ?]). cbn [negb].
    eexists _, _. split; [done|]. split; [reflexivity|].
    cbn. repeat split; done.
Qed.

Lemma getEmbeddingModelStatus_total_witness :
  exists st s',
    getEmbeddingModelStatus local_env fresh_state = (Return st, s')
    /\ status st = "api_key_missing"
    /\ status_message st = Some "JINA API key required for local_development".
Proof.
  destruct (getEmbeddingModelStatus_total local_env fresh_state)
    as (key & s1 & st & s' & Hget & Hstatus & _ & _ & _ & _ & Hkey); [by eexists|].
  exists st, s'. split; [exact Hstatus|].
  assert (key = None) as -> by (by injection Hget as <- _).
  destruct Hkey as (Hmissing & Hmessage & _). split; [exact Hmissing|exact Hmessage].
Defined.

(** X18. The three checks of the model agree. From the same state,
    [isEmbeddingModelReady], [getEmbeddingModelStatus] and
    [loadEmbeddingModel] leave the same state behind; when the first two
    return, the status's [ready] is the answer of
    [isEmbeddingModelReady], and [loadEmbeddingModel] returns exactly when
    that answer is [true]; and when one of the first two throws, all
    three throw the same message. *)
Theorem model_checks_agree (env : Env) (s : State) :
  match isEmbeddingModelReady env s, getEmbeddingModelStatus env s,
        loadEmbeddingModel env s with
  | (Return isReady, s1), (Return st, s2), (loaded, s3) =>
      s1 = s2 /\ s2 = s3 /\ ready st = isReady
      /\ (isReady = true <-> exists keyStatus, loaded = Return keyStatus)
  | (Throw e1, s1), (Throw e2, s2), (Throw e3, s3) =>
      s1 = s2 /\ s2 = s3
      /\ error_message e1 = error_message e2 /\ error_message e2 = error_message e3
  | _, _, _ => False
  end.
Proof.
  unfold isEmbeddingModelReady, getEmbeddingModelStatus, loadEmbeddingModel,
    safeAsync, try_catch, bind.
  destruct (getApiKeyStatus env s) as [[keyStatus|e] s1]; [|done].
  cbv zeta. destruct (hasKey keyStatus); cbn [negb]; cbv beta iota.
  - destruct (callJinaAPI env _ _ s1) as [[answer|e] s2]; cbn.
    + repeat split; try done. by eexists.
    + repeat split; try done. by intros [? ?].
  - cbn. repeat split; try done. by intros [? ?].
Qed.


(** *** The client as the page script uses it *)

Lemma isEmbeddingModelReady_none (env : Env) (s : State) :
  NoCredential env s ->
  storage_readable env s = true ->
  exists s1, isEmbeddingModelReady env s = (Return false, s1)
             /\ fetched s1 = fetched s
             /\ NoCredential env s1
             /\ storage_readable env s1 = true.
Proof.
  intros Hnc Hr.
  destruct (getApiKeyStatus_none env s Hnc Hr) as (s1 & Hstatus & Hfetched & Hnc1 & Hr1).
  exists s1. split; [|done].
  unfold isEmbeddingModelReady, safeAsync, try_catch, bind. by rewrite Hstatus.
Qed.

Lemma loadEmbeddingModel_none (env : Env) (s : State) :
  NoCredential env s ->
  storage_readable env s = true ->
  exists s1, loadEmbeddingModel env s
             = (Throw {| error_stage := ["MODEL_LOAD_ERROR"];
                         error_message := key_required_message env |}, s1)
             /\ fetched s1 = fetched s.
Proof.
  intros Hnc Hr.
  destruct (getApiKeyStatus_none env s Hnc Hr) as (s1 & Hstatus & Hfetched & _ & _).
  exists s1. split; [|done].
  unfold loadEmbeddingModel, safeAsync, try_catch, bind. by rewrite Hstatus.
Qed.

Lemma isEmbeddingModelReady_accepted (env : Env) (s s1 : State) (key : string)
      (answer : ResponseData) :
  is_Some (localStorage s) ->
  getApiKey env s = (Return (Some key), s1) ->
  accepted_answer env (List.length (fetched s)) (test_request key) = Some answer ->
  isEmbeddingModelReady env s = (Return true, with_request (test_request key) s1).
Proof.
  intros [items Hstorage] Hget Haccepted.
  pose proof (getApiKey_fetched _ _ _ _ Hget) as Hfetched.
  pose proof (getApiKeyStatus_run env s s1 items _ Hstorage Hget) as Hstatus.
  unfold isEmbeddingModelReady, safeAsync, try_catch at 1, bind at 1.
  rewrite Hstatus. cbn [hasKey]. cbv beta iota.
  rewrite bool_decide_eq_true_2 by (by eexists). cbn [negb]. cbv beta iota.
  destruct (callJinaAPI_accepts env s1 s1 key (Single (JsString "test")) ∅ ["test"]
              (getApiKey_again _ _ _ _ Hget) eq_refl) as (result & Hcall & Hresult).
  cbv zeta in Hcall, Hresult. change (truncate_input <$> ["test"]) with ["test"] in *.
  fold (test_request key) in *.
  rewrite Hfetched, Haccepted in Hresult. subst result.
  unfold try_catch, bind. by rewrite Hcall.
Qed.

Lemma createUserInputEmbedding_sends (env : Env) (s : State) (key text : string) :
  getApiKey env s = (Return (Some key), s) ->
  text <> "" ->
  cleanText env text <> "" ->
  exists r s',
    createUserInputEmbedding env (JsString text) s = (r, s')
    /\ fetched s' = fetched s
                    ++ [embedding_request key [truncate_input (cleanText env text)] ∅]
    /\ API_KEY s' = API_KEY s
    /\ localStorage s' = localStorage s.
Proof.
  intros Hget Hne Hclean. apply String.eqb_neq in Hne, Hclean.
  destruct (callJinaAPI_accepts env s s key (Single (JsString (cleanText env text))) ∅
              [cleanText env text] Hget eq_refl) as (result & Hcall & _).
  cbv zeta in Hcall. cbn [fmap list_fmap] in Hcall.
  set (request := embedding_request key [truncate_input (cleanText env text)] ∅) in *.
  unfold createUserInputEmbedding, safeAsync at 1, try_catch at 1, bind at 1.
  simpl. rewrite Hne. simpl. rewrite Hclean, Hcall.
  destruct result as [response|e]; cbv beta iota; [|by eexists _, _].
  destruct (default [] (data response) !! 0%nat) as [embeddingData|];
    [|by eexists _, _].
  destruct (embedding embeddingData) as [vector|]; [|by eexists _, _].
  unfold bind.
  destruct (keeps_keys_getApiKeyStatus env (with_request request s))
    as (Hkey & Hstorage & more & Hmore & Hlen).
  destruct (getApiKeyStatus env (with_request request s)) as [[keyStatus|e] s2];
    simpl in *; eexists _, _; (split; [reflexivity|]);
    (destruct more; [|simpl in Hlen; lia]); rewrite app_nil_r in Hmore; done.
Qed.

Lemma getEmbeddingModelStatus_returns (env : Env) (s : State) :
  is_Some (localStorage s) ->
  exists st s', getEmbeddingModelStatus env s = (Return st, s').
Proof.
  intros Hsome. destruct (getApiKey_returns env s Hsome) as (key & s1 & Hget).
  destruct Hsome as [items Hstorage].
  pose proof (getApiKeyStatus_run env s s1 items key Hstorage Hget) as Hstatus.
  unfold getEmbeddingModelStatus, safeAsync, try_catch, bind.
  rewrite Hstatus. cbv zeta.
  destruct (negb _); [by eexists _, _|].
  destruct (callJinaAPI env _ _ s1) as [[answer|e] s2]; by eexists _, _.
Qed.

End EmbeddingJinaFacts.

(** ** The page script: further properties *)

Module MainFacts.
Import EmbeddingJina Similarity Main Examples MainProofs.

(** X19. The direction of the translation never has the same language on
    both sides: the target is "es" when the source is "en", and "en" for
    every other source. *)
Theorem getCurrentLanguageDirection_distinct (p : Page) :
  let direction := getCurrentLanguageDirection p in
  direction_source direction = currentSourceLang p
  /\ direction_source direction <> direction_target direction
  /\ (direction_target direction = "es" <-> currentSourceLang p = "en")
  /\ (direction_target direction = "en" <-> currentSourceLang p <> "en").
Proof.
  unfold getCurrentLanguageDirection. cbn.
  destruct (String.eqb_spec (currentSourceLang p) "en") as [Hen|Hother].
  - rewrite Hen. repeat split; done.
  - repeat split; done.
Qed.

(** *** Status messages *)

Lemma statusIndicator_showStatus_on (message type : string) (p : Page) :
  statusIndicator (showStatus_on message type p)
  = (fun _ => {| textContent := message;
                 className := "status-indicator status-" +:+ type;
                 hidden := false |}) <$> statusIndicator p.
Proof.
  unfold showStatus_on. destruct (statusIndicator p) eqn:Hindicator; [done|].
  by rewrite Hindicator.
Qed.

Lemma status_only_trans (p q r : Page) :
  status_only p q -> status_only q r -> status_only p r.
Proof.
  intros Hpq Hqr. induction Hqr; [done|constructor; auto..].
Qed.

Lemma status_only_same_content (p q : Page) : status_only p q -> same_content p q.
Proof.
  induction 1 as [p|p q message type _ IH].
  - apply same_content_refl.
  - eapply same_content_trans; [exact IH|apply same_content_showStatus_on].
Qed.

Lemma status_only_indicator (p q : Page) :
  status_only p q -> is_Some (statusIndicator q) <-> is_Some (statusIndicator p).
Proof.
  induction 1 as [p|p q message type _ IH]; [done|].
  rewrite statusIndicator_showStatus_on, <- IH.
  destruct (statusIndicator q); split; intros [? ?]; done.
Qed.

Lemma status_only_button (p q : Page) :
  status_only p q -> translateButton q = translateButton p.
Proof.
  induction 1 as [p|p q message type _ IH]; [done|].
  rewrite <- IH. unfold showStatus_on. by destruct (statusIndicator q).
Qed.

#[local] Hint Constructors status_only : page.
#[local] Hint Resolve status_only_trans status_only_same_content : page.

(** The status line after a message, when the page has one. *)
Lemma shown_status (p q : Page) (message type : string) :
  status_only p q ->
  is_Some (statusIndicator p) ->
  statusIndicator (showStatus_on message type q)
  = Some {| textContent := message;
            className := "status-indicator status-" +:+ type;
            hidden := false |}.
Proof.
  intros Honly Hsome. apply status_only_indicator in Honly.
  apply Honly in Hsome as [indicator Hq].
  by rewrite statusIndicator_showStatus_on, Hq.
Qed.

Section Steps.
Variable truncateText : string -> nat -> string.
Variable toFixed : float -> nat -> string.
Variable toUpperCase : string -> string.
Variable frames : nat.
Variable a : Answers.

(** *** The steps of [handleTranslation], whatever the calls answer *)

Lemma ensure_embedding_ready_runs (p : Page) :
  exists r q calls c,
    run a ensure_embedding_ready p = (r, q, calls) /\ status_only p q
    /\ last calls = Some c /\ thrown_by a c = error_of r.
Proof.
  unfold ensure_embedding_ready. simpl.
  destruct (a _ IsEmbeddingModelReady) as [[|]|e] eqn:Hready; simpl.
  - eexists _, _, _, _. split; [reflexivity|]. split; [auto with page|].
    split; [reflexivity|]. simpl. by rewrite Hready.
  - destruct (a _ LoadEmbeddingModel) as [status|e] eqn:Hload; simpl;
      (eexists _, _, _, _; split; [reflexivity|]); (split; [auto with page|]);
      (split; [reflexivity|]); simpl; by rewrite Hload.
  - eexists _, _, _, _. split; [reflexivity|]. split; [auto with page|].
    split; [reflexivity|]. simpl. by rewrite Hready.
Qed.

Lemma create_embedding_runs (p : Page) (text : string) :
  exists q,
    run a (create_embedding text) p
    = (a _ (CreateUserInputEmbedding text), q, [issued (CreateUserInputEmbedding text)])
    /\ status_only p q.
Proof.
  unfold create_embedding. simpl.
  destruct (a _ (CreateUserInputEmbedding text)) as [created|e]; simpl;
    (eexists; split; [reflexivity|]); auto with page.
Qed.

Lemma search_context_runs (p : Page) (created : UserInputEmbedding) :
  let call := FindSimilarContext (ue_embedding created) (vectorData p)
                                 (page_search_options p) in
  exists q, run a (search_context created) p = (a _ call, q, [issued call])
            /\ status_only p q.
Proof.
  unfold search_context. simpl.
  pose proof (same_content_showStatus_on "Searching corpus for relevant context..."
                "loading" p) as Hsame.
  rewrite (sc_vectorData _ _ Hsame).
  destruct (a _ (FindSimilarContext _ _ _)) as [found|e]; simpl.
  - destruct (0 <? meta_totalResults (metadata found))%nat; simpl;
      (eexists; split; [reflexivity|]); auto with page.
  - eexists. split; [reflexivity|]. auto with page.
Qed.

(** The call of [window.setDeepSeekApiKey] never returns: whatever is
    left of the call stack, it ends in the error of the exhausted stack,
    before anything is stored or shown. *)
Lemma window_setDeepSeekApiKey_overflows (depth : nat) (apiKey : string) :
  window_setDeepSeekApiKey depth apiKey = Raise RangeError.
Proof.
  induction depth as [|depth IH]; [reflexivity|]. simpl. by rewrite IH.
Qed.

Lemma ensure_translation_ready_runs (p : Page) :
  exists r q,
    run a (ensure_translation_ready frames) p = (r, q, [issued IsDeepSeekApiReady])
    /\ status_only p q
    /\ match a _ IsDeepSeekApiReady with
       | Throw e => r = Throw e
       | Return true => r = Return true
       | Return false =>
           match truthy_key (promptReply p) with
           | Some _ => r = Throw RangeError
           | None => r = Return false
           end
       end.
Proof.
  unfold ensure_translation_ready. simpl.
  destruct (a _ IsDeepSeekApiReady) as [[|]|e]; simpl.
  - eexists _, _. split; [reflexivity|]. auto with page.
  - set (q := showStatus_on _ "error" (showStatus_on _ _ p)).
    assert (Honly : status_only p q) by (subst q; auto with page).
    rewrite (sc_promptReply _ _ (status_only_same_content _ _ Honly)).
    destruct (truthy_key (promptReply p)) as [key|]; simpl.
    + rewrite window_setDeepSeekApiKey_overflows. simpl.
      eexists _, _. split; [reflexivity|]. auto.
    + eexists _, _. split; [reflexivity|]. auto with page.
  - eexists _, _. split; [reflexivity|]. auto with page.
Qed.

Lemma translation_failed_shows (e : JsError) :
  translation_failed e = showStatus (failure_status (error_message e)) "error".
Proof.
  unfold translation_failed, failure_status.
  repeat match goal with |- context [if ?b then _ else _] => destruct b end;
    reflexivity.
Qed.

Lemma translation_failed_run (e : JsError) (p : Page) :
  run a (translation_failed e) p
  = (Return tt, showStatus_on (failure_status (error_message e)) "error" p, []).
Proof. by rewrite translation_failed_shows. Qed.


Lemma translate_and_display_settles (p : Page) (text : string)
      (context : ContextResults) :
  let call := TranslateWithContext text context (getCurrentLanguageDirection p)
                                   (documentDatabase p) in
  let waiting := showStatus_on "Translating with context..." "loading" p in
  run a (translate_and_display truncateText toFixed toUpperCase text context) p
  = match a _ call with
    | Return result =>
        (Return tt,
         updateTranslationOutput_on truncateText toFixed toUpperCase
           (translatedText result) (contextUsed result)
           (showStatus_on "Translation completed successfully!" "success" waiting),
         [issued call])
    | Throw e => (Throw e, waiting, [issued call])
    end.
Proof.
  intros call waiting. unfold translate_and_display. simpl.
  pose proof (same_content_showStatus_on "Translating with context..." "loading" p)
    as Hsame.
  rewrite (same_content_direction _ _ Hsame), (sc_documentDatabase _ _ Hsame).
  fold call. by destruct (a _ call).
Qed.

(** What [handleTranslation] does once the text is known to be usable:
    the [try] block and its [catch]. Either the translation is displayed,
    or the page differs by status messages only; and when the last call
    has thrown, the last of these messages is the one for its error. *)
Lemma translation_pipeline_settles (p : Page) (text : string) :
  exists q calls c,
    run a (task_catch
             (run! ensure_embedding_ready then
              let! userEmbedding := create_embedding text in
              let! contextResults := search_context userEmbedding in
              let! proceed := ensure_translation_ready frames in
              if proceed
              then translate_and_display truncateText toFixed toUpperCase text contextResults
              else Done tt)
             translation_failed) p
    = (Return tt, q, calls)
    /\ last calls = Some c
    /\ match thrown_by a c with
       | Some e =>
           exists q', status_only p q'
                      /\ q = showStatus_on (failure_status (error_message e)) "error" q'
       | None =>
           status_only p q
           \/ exists context result q',
                status_only p q'
                /\ c = issued (TranslateWithContext text context
                                 (getCurrentLanguageDirection p) (documentDatabase p))
                /\ a _ (TranslateWithContext text context
                          (getCurrentLanguageDirection p) (documentDatabase p))
                   = Return result
                /\ q = updateTranslationOutput_on truncateText toFixed toUpperCase
                         (translatedText result) (contextUsed result) q'
       end.
Proof.
  rewrite run_catch.
  destruct (ensure_embedding_ready_runs p)
    as (r1 & q1 & calls1 & c1 & Hrun1 & H1 & Hlast1 & Hthrown1).
  rewrite run_bind, Hrun1.
  destruct r1 as [[]|e]; cbv beta iota.
  2:{ rewrite translation_failed_run. eexists _, _, c1.
      split; [reflexivity|]. split; [by rewrite app_nil_r|].
      rewrite Hthrown1. simpl. eauto. }
  destruct (create_embedding_runs q1 text) as (q2 & Hrun2 & H2).
  rewrite run_bind, Hrun2.
  assert (status_only p q2) as Hp2 by eauto with page.
  destruct (a _ (CreateUserInputEmbedding text)) as [created|e] eqn:Hcreated;
    cbv beta iota.
  2:{ rewrite translation_failed_run. eexists _, _, _.
      split; [reflexivity|]. split; [by rewrite app_nil_r, last_snoc|].
      simpl. rewrite Hcreated. simpl. eauto. }
  destruct (search_context_runs q2 created) as (q3 & Hrun3 & H3).
  rewrite run_bind, Hrun3.
  assert (status_only p q3) as Hp3 by eauto with page.
  destruct (a _ (FindSimilarContext _ _ _)) as [context|e] eqn:Hfound; cbv beta iota.
  2:{ rewrite translation_failed_run. eexists _, _, _.
      split; [reflexivity|].
      split; [by rewrite app_nil_r, !app_assoc, last_snoc|].
      simpl. rewrite Hfound. simpl. eauto. }
  destruct (ensure_translation_ready_runs q3) as (r4 & q4 & Hrun4 & H4 & Hcase4).
  rewrite run_bind, Hrun4.
  assert (status_only p q4) as Hp4 by eauto with page.
  destruct r4 as [[|]|e]; cbv beta iota.
  - rewrite translate_and_display_settles.
    pose proof (status_only_same_content _ _ Hp4) as Hsame.
    rewrite (same_content_direction _ _ Hsame), (sc_documentDatabase _ _ Hsame).
    destruct (a _ (TranslateWithContext text context _ _)) as [result|e] eqn:Hanswer;
      cbv beta iota.
    + eexists _, _, _. split; [reflexivity|].
      split; [by rewrite !app_assoc, last_snoc|].
      simpl. rewrite Hanswer. simpl. right.
      eexists context, result, _.
      split; [|split; [reflexivity|split; [exact Hanswer|reflexivity]]].
      auto with page.
    + rewrite translation_failed_run. eexists _, _, _. split; [reflexivity|].
      split; [by rewrite app_nil_r, !app_assoc, last_snoc|].
      simpl. rewrite Hanswer. simpl. eexists. split; [|reflexivity]. auto with page.
  - eexists _, _, _. split; [reflexivity|].
    split; [by rewrite app_nil_r, !app_assoc, last_snoc|].
    simpl. destruct (a _ IsDeepSeekApiReady) as [[|]|e']; [done| |done]. by left.
  - rewrite translation_failed_run. eexists _, _, _. split; [reflexivity|].
    split; [by rewrite app_nil_r, !app_assoc, last_snoc|].
    simpl. destruct (a _ IsDeepSeekApiReady) as [[|]|e']; simpl.
    + done.
    + left. auto with page.
    + injection Hcase4 as ->. eauto.
Qed.

(** X20. [handleTranslation] never throws, whatever the calls it awaits
    return, and whatever [Error] they throw (the [catch] reads the
    message of what it has caught, which every [Error] has): every such
    error is caught and shown in the status line. And the translation and
    context areas change only when the translation call has returned a
    result, which is then what they show: in every other run (no text, an
    error at any step, a key prompt cancelled or answered) the page
    differs from what it was by status messages only. *)
Theorem handleTranslation_settles (p : Page) :
  exists q calls,
    run a (handleTranslation truncateText toFixed toUpperCase frames) p = (Return tt, q, calls)
    /\ ((status_only p q
         /\ translationOutput q = translationOutput p
         /\ contextInfo q = contextInfo p)
        \/ exists value context result,
             let call := TranslateWithContext (trim value) context
                           (getCurrentLanguageDirection p) (documentDatabase p) in
             sourceTextArea p = Some value
             /\ trim value <> ""
             /\ last calls = Some (issued call)
             /\ a _ call = Return result
             /\ translationOutput q
                = (fun _ => translation_html (translatedText result))
                    <$> translationOutput p
             /\ contextInfo q
                = (fun _ => if (0 <? List.length (contextUsed result))%nat
                            then context_html truncateText toFixed toUpperCase (contextUsed result)
                            else no_context_html) <$> contextInfo p).
Proof.
  unfold handleTranslation, read. cbn [run task_bind].
  destruct (sourceTextArea p) as [value|] eqn:Hvalue; cbn [fmap option_fmap option_map].
  - unfold truthy_key at 1.
    destruct (String.eqb_spec (trim value) "") as [Hblank|Htext].
    + eexists _, _. split; [reflexivity|]. left.
      pose proof (same_content_showStatus_on "Please enter some text to translate"
                    "error" p) as Hsame.
      split; [auto with page|]. by destruct Hsame.
    + destruct (translation_pipeline_settles p (trim value))
        as (q & calls & c & Hrun & Hlast & Hcase).
      exists q, calls. split; [exact Hrun|].
      destruct (thrown_by a c) as [e|].
      * destruct Hcase as (q' & Honly & ->). left.
        assert (status_only p (showStatus_on (failure_status (error_message e))
                                 "error" q')) as Hshown by auto with page.
        pose proof (status_only_same_content _ _ Hshown) as Hsame.
        split; [exact Hshown|]. by destruct Hsame.
      * destruct Hcase as [Honly | (context & result & q' & Honly & -> & Hanswer & ->)].
        -- left. pose proof (status_only_same_content _ _ Honly) as Hsame.
           split; [exact Honly|]. by destruct Hsame.
        -- right. exists value, context, result. cbv zeta.
           pose proof (status_only_same_content _ _ Honly) as Hsame.
           rewrite updateTranslationOutput_on_translationOutput,
             updateTranslationOutput_on_contextInfo,
             (sc_translationOutput _ _ Hsame), (sc_contextInfo _ _ Hsame).
           done.
  - eexists _, _. split; [reflexivity|]. left.
    pose proof (same_content_showStatus_on "Please enter some text to translate"
                  "error" p) as Hsame.
    split; [auto with page|]. by destruct Hsame.
Qed.

(** X21. Every error of a call that [handleTranslation] awaits ends the
    run and is reported: when the last call made has thrown, nothing is
    called after it, and the status line, if the page has one, shows the
    message for that error with the class of errors: "Translation service
    error - please check your API key" when the error's message contains
    "DeepSeek API", "Embedding server issue - check if server is running"
    for "embedding server", "No relevant context found in corpus" for "No
    relevant context", and "Translation failed: " followed by the
    message otherwise. *)
Theorem handleTranslation_shows_error (p : Page) :
  exists q calls,
    run a (handleTranslation truncateText toFixed toUpperCase frames) p = (Return tt, q, calls)
    /\ forall e, last calls ≫= thrown_by a = Some e ->
         statusIndicator q
         = (fun _ => {| textContent := failure_status (error_message e);
                        className := "status-indicator status-error";
                        hidden := false |}) <$> statusIndicator p.
Proof.
  unfold handleTranslation, read. cbn [run task_bind].
  destruct (sourceTextArea p) as [value|] eqn:Hvalue; cbn [fmap option_fmap option_map].
  - unfold truthy_key at 1.
    destruct (String.eqb_spec (trim value) "") as [Hblank|Htext].
    + eexists _, _. split; [reflexivity|]. intros e [=].
    + destruct (translation_pipeline_settles p (trim value))
        as (q & calls & c & Hrun & Hlast & Hcase).
      exists q, calls. split; [exact Hrun|].
      intros e. rewrite Hlast. simpl. intros Hthrown. rewrite Hthrown in Hcase.
      destruct Hcase as (q' & Honly & ->).
      rewrite statusIndicator_showStatus_on.
      apply status_only_indicator in Honly.
      destruct (statusIndicator p) as [indicator|], (statusIndicator q') as [indicator'|];
        try done.
      * destruct Honly as [_ Hsome]. by destruct Hsome.
      * destruct Honly as [Hsome _]. by destruct Hsome.
  - eexists _, _. split; [reflexivity|]. intros e [=].
Qed.


(** *** Runs of [handleTranslation] *)

Lemma trim_start_blank (value : string) :
  Forall (fun c => is_space c = true) (list_ascii_of_string value) ->
  trim_start value = "".
Proof.
  induction value as [|c value IH]; simpl; [done|].
  intros Hblank. apply Forall_cons in Hblank as [-> Hrest]. by apply IH.
Qed.

(** X22. Without a text area, or with a text that consists of white
    space only, [handleTranslation] shows "Please enter some text to
    translate" as an error and stops: no call is made (no embedding, no
    search, no translation), and nothing else on the page changes. *)
Theorem handleTranslation_blank (p : Page) :
  sourceTextArea p = None
  \/ (exists value, sourceTextArea p = Some value
                    /\ Forall (fun c => is_space c = true) (list_ascii_of_string value)) ->
  run a (handleTranslation truncateText toFixed toUpperCase frames) p
  = (Return tt, showStatus_on "Please enter some text to translate" "error" p, [])
  /\ same_content p (showStatus_on "Please enter some text to translate" "error" p).
Proof.
  intros Hblank. split; [|apply same_content_showStatus_on].
  unfold handleTranslation, read. cbn [run task_bind].
  destruct Hblank as [-> | (value & -> & Hblank)]; [reflexivity|].
  cbn [fmap option_fmap option_map]. unfold trim.
  rewrite (trim_start_blank value Hblank). reflexivity.
Qed.

Lemma ensure_embedding_ready_ok (p : Page) :
  a _ IsEmbeddingModelReady = Return true
  \/ (a _ IsEmbeddingModelReady = Return false
      /\ exists status, a _ LoadEmbeddingModel = Return status) ->
  exists q loads,
    run a ensure_embedding_ready p = (Return tt, q, issued IsEmbeddingModelReady :: loads)
    /\ status_only p q
    /\ (loads = [] \/ loads = [issued LoadEmbeddingModel]).
Proof.
  unfold ensure_embedding_ready.
  intros [Hready | [Hready [status Hloaded]]]; simpl; rewrite Hready; simpl.
  - eexists _, _. split; [reflexivity|]. split; [auto with page|by left].
  - rewrite Hloaded. simpl. eexists _, _. split; [reflexivity|].
    split; [auto with page|by right].
Qed.

Lemma ensure_translation_ready_ok (p : Page) :
  a _ IsDeepSeekApiReady = Return true ->
  exists q,
    run a (ensure_translation_ready frames) p
    = (Return true, q, [issued IsDeepSeekApiReady])
    /\ status_only p q.
Proof.
  unfold ensure_translation_ready. intros Hready. simpl. rewrite Hready. simpl.
  eexists. split; [reflexivity|]. auto with page.
Qed.

Lemma ensure_translation_ready_cancelled (p : Page) :
  a _ IsDeepSeekApiReady = Return false ->
  truthy_key (promptReply p) = None ->
  exists q,
    run a (ensure_translation_ready frames) p
    = (Return false,
       showStatus_on "Translation cancelled - API key required" "error" q,
       [issued IsDeepSeekApiReady])
    /\ status_only p q.
Proof.
  intros Hready Hreply. unfold ensure_translation_ready. simpl. rewrite Hready. simpl.
  set (q := showStatus_on _ "error" (showStatus_on _ _ p)).
  assert (Hsame : same_content p q) by (subst q; auto with page).
  rewrite (sc_promptReply _ _ Hsame), Hreply. simpl.
  eexists. split; [reflexivity|]. subst q. auto with page.
Qed.

Lemma ensure_translation_ready_key_entered (p : Page) (key : string) :
  a _ IsDeepSeekApiReady = Return false ->
  truthy_key (promptReply p) = Some key ->
  exists q,
    run a (ensure_translation_ready frames) p
    = (Throw RangeError, q, [issued IsDeepSeekApiReady])
    /\ status_only p q.
Proof.
  intros Hready Hreply.
  destruct (ensure_translation_ready_runs p) as (r & q & Hrun & Honly & Hcase).
  rewrite Hready, Hreply in Hcase. subst r. by exists q.
Qed.

(** When the translation service has no key and the user enters one at the
    prompt, [handleTranslation] calls [setDeepSeekApiKey] with it, which
    is [window.setDeepSeekApiKey] and never returns: the key is neither
    set nor stored, no translation is asked for, and the status line ends
    with the failure of the exhausted call stack. *)
Lemma handleTranslation_key_entered (p : Page) (value key : string)
      (created : UserInputEmbedding) (found : ContextResults) :
  sourceTextArea p = Some value ->
  trim value <> "" ->
  a _ IsEmbeddingModelReady = Return true ->
  a _ (CreateUserInputEmbedding (trim value)) = Return created ->
  a _ (FindSimilarContext (ue_embedding created) (vectorData p) (page_search_options p))
  = Return found ->
  a _ IsDeepSeekApiReady = Return false ->
  truthy_key (promptReply p) = Some key ->
  exists q,
    run a (handleTranslation truncateText toFixed toUpperCase frames) p
    = (Return tt, q,
       [issued IsEmbeddingModelReady;
        issued (CreateUserInputEmbedding (trim value));
        issued (FindSimilarContext (ue_embedding created) (vectorData p)
                  (page_search_options p));
        issued IsDeepSeekApiReady])
    /\ statusIndicator q
       = (fun _ => {| textContent :=
                        "Translation failed: Maximum call stack size exceeded";
                      className := "status-indicator status-error";
                      hidden := false |}) <$> statusIndicator p
    /\ translationOutput q = translationOutput p
    /\ contextInfo q = contextInfo p.
Proof.
  intros Hvalue Htext Hready Hcreated Hfound Hservice Hreply.
  apply String.eqb_neq in Htext.
  unfold handleTranslation, read. cbn [run task_bind].
  rewrite Hvalue. cbn [fmap option_fmap option_map].
  unfold truthy_key at 1. rewrite Htext. rewrite run_catch.
  destruct (ensure_embedding_ready_ok p (or_introl Hready))
    as (q1 & loads & Hrun1 & H1 & _).
  assert (loads = []) as ->.
  { revert Hrun1. unfold ensure_embedding_ready. simpl. rewrite Hready. simpl.
    by intros [= _ <-]. }
  rewrite run_bind, Hrun1. cbv beta iota.
  destruct (create_embedding_runs q1 (trim value)) as (q2 & Hrun2 & H2).
  rewrite run_bind, Hrun2, Hcreated. cbv beta iota.
  assert (status_only p q2) as Hp2 by eauto with page.
  destruct (search_context_runs q2 created) as (q3 & Hrun3 & H3).
  pose proof (status_only_same_content _ _ Hp2) as Hsame2.
  rewrite (sc_vectorData _ _ Hsame2), (same_content_options _ _ Hsame2), Hfound in Hrun3.
  rewrite run_bind, Hrun3. cbv beta iota.
  assert (status_only p q3) as Hp3 by eauto with page.
  pose proof (status_only_same_content _ _ Hp3) as Hsame3.
  rewrite <- (sc_promptReply _ _ Hsame3) in Hreply.
  destruct (ensure_translation_ready_key_entered q3 key Hservice Hreply)
    as (q4 & Hrun4 & H4).
  rewrite run_bind, Hrun4. cbv beta iota.
  rewrite translation_failed_run. cbv beta iota.
  assert (status_only p q4) as Hp4 by eauto with page.
  eexists. split; [reflexivity|].
  pose proof (status_only_same_content _ _ Hp4) as Hsame4.
  pose proof (same_content_showStatus_on
                (failure_status (error_message RangeError)) "error" q4) as Hsame.
  rewrite statusIndicator_showStatus_on.
  rewrite (sc_translationOutput _ _ Hsame), (sc_contextInfo _ _ Hsame),
    (sc_translationOutput _ _ Hsame4), (sc_contextInfo _ _ Hsame4).
  split; [|done].
  apply status_only_indicator in Hp4.
  destruct (statusIndicator p) as [indicator|], (statusIndicator q4) as [indicator'|];
    try done.
  - destruct Hp4 as [_ Hsome]. by destruct Hsome.
  - destruct Hp4 as [Hsome _]. by destruct Hsome.
Qed.

(** X23. When the translation service has no key and the user cancels
    the prompt (or enters nothing), [handleTranslation] stops after the
    search: the calls made are the readiness check, the embedding, the
    search and the check of the translation service, in this order, and
    no translation is asked for; the status line ends with "Translation
    cancelled - API key required", and the translation and context areas
    stay as they were. *)
Theorem handleTranslation_cancelled (p : Page) (value : string)
        (created : UserInputEmbedding) (found : ContextResults) :
  sourceTextArea p = Some value ->
  trim value <> "" ->
  a _ IsEmbeddingModelReady = Return true ->
  a _ (CreateUserInputEmbedding (trim value)) = Return created ->
  a _ (FindSimilarContext (ue_embedding created) (vectorData p) (page_search_options p))
  = Return found ->
  a _ IsDeepSeekApiReady = Return false ->
  truthy_key (promptReply p) = None ->
  exists q,
    run a (handleTranslation truncateText toFixed toUpperCase frames) p
    = (Return tt, q,
       [issued IsEmbeddingModelReady;
        issued (CreateUserInputEmbedding (trim value));
        issued (FindSimilarContext (ue_embedding created) (vectorData p)
                  (page_search_options p));
        issued IsDeepSeekApiReady])
    /\ statusIndicator q
       = (fun _ => {| textContent := "Translation cancelled - API key required";
                      className := "status-indicator status-error";
                      hidden := false |}) <$> statusIndicator p
    /\ translationOutput q = translationOutput p
    /\ contextInfo q = contextInfo p.
Proof.
  intros Hvalue Htext Hready Hcreated Hfound Hservice Hreply.
  apply String.eqb_neq in Htext.
  unfold handleTranslation, read. cbn [run task_bind].
  rewrite Hvalue. cbn [fmap option_fmap option_map].
  unfold truthy_key at 1. rewrite Htext. rewrite run_catch.
  destruct (ensure_embedding_ready_ok p (or_introl Hready))
    as (q1 & loads & Hrun1 & H1 & _).
  assert (loads = []) as ->.
  { revert Hrun1. unfold ensure_embedding_ready. simpl. rewrite Hready. simpl.
    by intros [= _ <-]. }
  rewrite run_bind, Hrun1. cbv beta iota.
  destruct (create_embedding_runs q1 (trim value)) as (q2 & Hrun2 & H2).
  rewrite run_bind, Hrun2, Hcreated. cbv beta iota.
  assert (status_only p q2) as Hp2 by eauto with page.
  destruct (search_context_runs q2 created) as (q3 & Hrun3 & H3).
  pose proof (status_only_same_content _ _ Hp2) as Hsame2.
  rewrite (sc_vectorData _ _ Hsame2), (same_content_options _ _ Hsame2), Hfound in Hrun3.
  rewrite run_bind, Hrun3. cbv beta iota.
  assert (status_only p q3) as Hp3 by eauto with page.
  pose proof (status_only_same_content _ _ Hp3) as Hsame3.
  rewrite <- (sc_promptReply _ _ Hsame3) in Hreply.
  destruct (ensure_translation_ready_cancelled q3 Hservice Hreply) as (q4 & Hrun4 & H4).
  rewrite run_bind, Hrun4. cbv beta iota.
  assert (status_only p q4) as Hp4 by eauto with page.
  eexists. split; [reflexivity|].
  pose proof (status_only_same_content _ _ Hp4) as Hsame4.
  pose proof (same_content_showStatus_on "Translation cancelled - API key required"
                "error" q4) as Hsame.
  rewrite statusIndicator_showStatus_on.
  rewrite (sc_translationOutput _ _ Hsame), (sc_contextInfo _ _ Hsame),
    (sc_translationOutput _ _ Hsame4), (sc_contextInfo _ _ Hsame4).
  split; [|done].
  apply status_only_indicator in Hp4.
  destruct (statusIndicator p) as [indicator|], (statusIndicator q4) as [indicator'|];
    try done.
  - destruct Hp4 as [_ Hsome]. by destruct Hsome.
  - destruct Hp4 as [Hsome _]. by destruct Hsome.
Qed.


(** X24. When every step succeeds and the translation service says that
    it is ready, [handleTranslation] makes its calls in
    the order readiness check, (model load, only when the check answered
    [false]), embedding, search, check of the translation service,
    translation, each with the result of the one before: the search is
    given the vector of the embedding and the options read from the page,
    the translation the trimmed text and what the search found. At the
    end the translation area shows the translated text, the context area
    lists the contexts used (or says that none was found), the status
    line says "Translation completed successfully!", and the text area
    still holds the text. *)
Theorem handleTranslation_translates (p : Page) (value : string)
        (created : UserInputEmbedding) (found : ContextResults)
        (result : TranslationResult) :
  sourceTextArea p = Some value ->
  trim value <> "" ->
  (a _ IsEmbeddingModelReady = Return true
   \/ (a _ IsEmbeddingModelReady = Return false
       /\ exists status, a _ LoadEmbeddingModel = Return status)) ->
  a _ (CreateUserInputEmbedding (trim value)) = Return created ->
  a _ (FindSimilarContext (ue_embedding created) (vectorData p) (page_search_options p))
  = Return found ->
  a _ IsDeepSeekApiReady = Return true ->
  a _ (TranslateWithContext (trim value) found (getCurrentLanguageDirection p)
         (documentDatabase p)) = Return result ->
  exists q loads,
    run a (handleTranslation truncateText toFixed toUpperCase frames) p
    = (Return tt, q,
       issued IsEmbeddingModelReady :: loads
       ++ [issued (CreateUserInputEmbedding (trim value));
           issued (FindSimilarContext (ue_embedding created) (vectorData p)
                     (page_search_options p));
           issued IsDeepSeekApiReady;
           issued (TranslateWithContext (trim value) found
                     (getCurrentLanguageDirection p) (documentDatabase p))])
    /\ (loads = [] \/ loads = [issued LoadEmbeddingModel])
    /\ translationOutput q
       = (fun _ => translation_html (translatedText result)) <$> translationOutput p
    /\ contextInfo q
       = (fun _ => if (0 <? List.length (contextUsed result))%nat
                   then context_html truncateText toFixed toUpperCase (contextUsed result)
                   else no_context_html) <$> contextInfo p
    /\ statusIndicator q
       = (fun _ => {| textContent := "Translation completed successfully!";
                      className := "status-indicator status-success";
                      hidden := false |}) <$> statusIndicator p
    /\ sourceTextArea q = Some value.
Proof.
  intros Hvalue Htext Hready Hcreated Hfound Hservice Htranslated.
  apply String.eqb_neq in Htext.
  unfold handleTranslation, read. cbn [run task_bind].
  rewrite Hvalue. cbn [fmap option_fmap option_map].
  unfold truthy_key at 1. rewrite Htext. rewrite run_catch.
  destruct (ensure_embedding_ready_ok p Hready) as (q1 & loads & Hrun1 & H1 & Hloads).
  rewrite run_bind, Hrun1. cbv beta iota.
  destruct (create_embedding_runs q1 (trim value)) as (q2 & Hrun2 & H2).
  rewrite run_bind, Hrun2, Hcreated. cbv beta iota.
  assert (status_only p q2) as Hp2 by eauto with page.
  destruct (search_context_runs q2 created) as (q3 & Hrun3 & H3).
  pose proof (status_only_same_content _ _ Hp2) as Hsame2.
  rewrite (sc_vectorData _ _ Hsame2), (same_content_options _ _ Hsame2), Hfound in Hrun3.
  rewrite run_bind, Hrun3. cbv beta iota.
  assert (status_only p q3) as Hp3 by eauto with page.
  destruct (ensure_translation_ready_ok q3 Hservice) as (q4 & Hrun4 & H4).
  rewrite run_bind, Hrun4. cbv beta iota.
  assert (status_only p q4) as Hp4 by eauto with page.
  pose proof (status_only_same_content _ _ Hp4) as Hsame4.
  rewrite translate_and_display_settles.
  rewrite (same_content_direction _ _ Hsame4), (sc_documentDatabase _ _ Hsame4),
    Htranslated.
  eexists _, loads. split; [reflexivity|]. split; [exact Hloads|].
  set (waiting := showStatus_on "Translating with context..." "loading" q4).
  assert (status_only p waiting) as Hwaiting by (subst waiting; auto with page).
  set (done := showStatus_on "Translation completed successfully!" "success" waiting).
  assert (status_only p done) as Hdone by (subst done; auto with page).
  pose proof (status_only_same_content _ _ Hdone) as Hsame.
  rewrite updateTranslationOutput_on_translationOutput,
    updateTranslationOutput_on_contextInfo,
    (sc_translationOutput _ _ Hsame), (sc_contextInfo _ _ Hsame).
  split; [done|]. split; [done|]. split.
  - assert (statusIndicator
              (updateTranslationOutput_on truncateText toFixed toUpperCase (translatedText result)
                 (contextUsed result) done) = statusIndicator done) as ->.
    { unfold updateTranslationOutput_on.
      destruct (translationOutput done); simpl;
        destruct (contextInfo done); simpl; try done;
        by destruct (0 <? List.length (contextUsed result))%nat. }
    subst done. rewrite statusIndicator_showStatus_on.
    apply status_only_indicator in Hwaiting.
    destruct (statusIndicator p) as [indicator|],
          (statusIndicator waiting) as [indicator'|]; try done.
    + destruct Hwaiting as [_ Hsome]. by destruct Hsome.
    + destruct Hwaiting as [Hsome _]. by destruct Hsome.
  - assert (sourceTextArea
              (updateTranslationOutput_on truncateText toFixed toUpperCase (translatedText result)
                 (contextUsed result) done) = sourceTextArea done) as ->.
    { unfold updateTranslationOutput_on.
      destruct (translationOutput done); simpl;
        destruct (contextInfo done); simpl; try done;
        by destruct (0 <? List.length (contextUsed result))%nat. }
    by rewrite (sc_sourceTextArea _ _ Hsame).
Qed.

(** *** The status line and its timer *)

(** X25. The timer that a success message starts hides the status line
    when it fires, whatever the line shows by then: a message shown
    after the success message, an error included, disappears with it.
    Messages of other types start no timer. *)
Theorem success_timer_hides_later_message (p : Page) (waiting : list Suspended)
        (message later type : string) :
  is_Some (statusIndicator p) ->
  type <> "success" ->
  let shown := showStatus_on later type (showStatus_on message "success" p) in
  hideTimers shown = S (hideTimers p)
  /\ exists l,
       fire truncateText toFixed toUpperCase frames Timer {| page := shown; pending := waiting |} = Some l
       /\ statusIndicator (page l)
          = Some {| textContent := later;
                    className := "status-indicator status-" +:+ type;
                    hidden := true |}
       /\ hideTimers (page l) = hideTimers p
       /\ pending l = waiting.
Proof.
  intros [indicator Hindicator] Htype. apply String.eqb_neq in Htype.
  unfold showStatus_on, fire. rewrite Hindicator. simpl. rewrite Htype.
  split; [reflexivity|]. eexists. split; [reflexivity|]. done.
Qed.

(** *** Displaying a translation *)

(** [updateTranslationOutput] replaces what the two areas show; it does
    not add to it. After two calls the page is as after the second alone,
    so of two translations displayed one after the other only the later
    one is visible; and the call touches nothing but the two areas. *)
Lemma updateTranslationOutput_overwrites (p : Page) (first second : string)
        (used used' : list ContextUsed) :
  updateTranslationOutput_on truncateText toFixed toUpperCase second used'
    (updateTranslationOutput_on truncateText toFixed toUpperCase first used p)
  = updateTranslationOutput_on truncateText toFixed toUpperCase second used' p
  /\ status_only_fields p (updateTranslationOutput_on truncateText toFixed toUpperCase first used p).
Proof.
  unfold updateTranslationOutput_on, status_only_fields.
  destruct (translationOutput p) eqn:Hout, (contextInfo p) eqn:Hctx; simpl;
    rewrite ?Hout, ?Hctx; simpl;
    destruct (0 <? List.length used)%nat, (0 <? List.length used')%nat; simpl;
    rewrite ?Hout, ?Hctx; simpl; try done; by destruct p; simpl in *; subst.
Qed.

End Steps.

(** *** The page as main.js stands *)

(** C3, on main.js as it stands. [handleTranslation] calls
    [findSimilarContext], and after it [isDeepSeekApiReady] and
    [translateWithContext], as free identifiers: main.js imports and
    defines none of them. So when the text is not blank and the embedding
    stage has succeeded, whatever the corpus holds (an empty corpus
    included), the run ends at the search: evaluating the call throws
    "findSimilarContext is not defined", the [catch] shows it as
    "Translation failed: ...", and nothing is called after it: no
    selection is computed, no translation is requested, and the
    translation and context areas stay as they were. *)
Theorem handleTranslation_stops_at_search
        (truncateText : string -> nat -> string) (toFixed : float -> nat -> string)
        (toUpperCase : string -> string) (frames : nat)
        (a : Answers) (p : Page) (value : string) (created : UserInputEmbedding) :
  sourceTextArea p = Some value ->
  trim value <> "" ->
  (a _ IsEmbeddingModelReady = Return true
   \/ (a _ IsEmbeddingModelReady = Return false
       /\ exists status, a _ LoadEmbeddingModel = Return status)) ->
  a _ (CreateUserInputEmbedding (trim value)) = Return created ->
  let search := FindSimilarContext (ue_embedding created) (vectorData p)
                                   (page_search_options p) in
  exists q loads,
    run (shipped a) (handleTranslation truncateText toFixed toUpperCase frames) p
    = (Return tt, q,
       issued IsEmbeddingModelReady :: loads
       ++ [issued (CreateUserInputEmbedding (trim value)); issued search])
    /\ (loads = [] \/ loads = [issued LoadEmbeddingModel])
    /\ shipped a _ search = Throw (ReferenceError "findSimilarContext")
    /\ statusIndicator q
       = (fun _ => {| textContent :=
                        "Translation failed: findSimilarContext is not defined";
                      className := "status-indicator status-error";
                      hidden := false |}) <$> statusIndicator p
    /\ translationOutput q = translationOutput p
    /\ contextInfo q = contextInfo p.
Proof.
  intros Hvalue Htext Hready Hcreated search.
  apply String.eqb_neq in Htext.
  unfold handleTranslation, read. cbn [run task_bind].
  rewrite Hvalue. cbn [fmap option_fmap option_map].
  unfold truthy_key at 1. rewrite Htext. rewrite run_catch.
  destruct (ensure_embedding_ready_ok (shipped a) p Hready)
    as (q1 & loads & Hrun1 & H1 & Hloads).
  rewrite run_bind, Hrun1. cbv beta iota.
  destruct (create_embedding_runs (shipped a) q1 (trim value)) as (q2 & Hrun2 & H2).
  change (shipped a _ (CreateUserInputEmbedding (trim value)))
    with (a _ (CreateUserInputEmbedding (trim value))) in Hrun2.
  rewrite run_bind, Hrun2, Hcreated. cbv beta iota.
  assert (status_only p q2) as Hp2 by eauto with page.
  destruct (search_context_runs (shipped a) q2 created) as (q3 & Hrun3 & H3).
  pose proof (status_only_same_content _ _ Hp2) as Hsame2.
  rewrite (sc_vectorData _ _ Hsame2), (same_content_options _ _ Hsame2) in Hrun3.
  rewrite run_bind, Hrun3. cbn [shipped]. cbv beta iota.
  rewrite translation_failed_run. cbv beta iota. subst search.
  assert (status_only p q3) as Hp3 by eauto with page.
  exists (showStatus_on (failure_status (error_message (ReferenceError "findSimilarContext")))
            "error" q3), loads.
  split; [by rewrite app_nil_r|].
  split; [exact Hloads|]. split; [reflexivity|].
  pose proof (status_only_same_content _ _ Hp3) as Hsame3.
  pose proof (same_content_showStatus_on
                (failure_status (error_message (ReferenceError "findSimilarContext")))
                "error" q3) as Hsame.
  rewrite (sc_translationOutput _ _ Hsame), (sc_contextInfo _ _ Hsame),
    (sc_translationOutput _ _ Hsame3), (sc_contextInfo _ _ Hsame3).
  split; [|done].
  rewrite statusIndicator_showStatus_on.
  apply status_only_indicator in Hp3.
  destruct (statusIndicator p) as [indicator|], (statusIndicator q3) as [indicator'|];
    try done.
  - destruct Hp3 as [_ Hsome]. by destruct Hsome.
  - destruct Hp3 as [Hsome _]. by destruct Hsome.
Qed.

Lemma handleTranslation_stops_at_search_witness :
  exists q,
    run (shipped uno)
        (handleTranslation demo_truncateText demo_toFixed demo_toUpperCase demo_frames)
        empty_corpus_page
    = (Return tt, q,
       [issued IsEmbeddingModelReady;
        issued (CreateUserInputEmbedding "good morning");
        issued (FindSimilarContext [1; 0]%float (vectorData empty_corpus_page)
                  (page_search_options empty_corpus_page))])
    /\ statusIndicator q
       = Some {| textContent := "Translation failed: findSimilarContext is not defined";
                 className := "status-indicator status-error";
                 hidden := false |}
    /\ translationOutput q = Some [].
Proof.
  destruct (handleTranslation_stops_at_search demo_truncateText demo_toFixed
              demo_toUpperCase demo_frames uno empty_corpus_page "  good morning "
              (demo_embedding "good morning"))
    as (q & loads & Hrun & Hloads & _ & Hstatus & Hout & _).
  - reflexivity.
  - discriminate.
  - left. reflexivity.
  - reflexivity.
  - exists q. split; [|split; [exact Hstatus|exact Hout]].
    rewrite Hrun. f_equal. f_equal.
    destruct Hloads as [->| ->]; [reflexivity|].
    vm_compute in Hrun. discriminate Hrun.
Defined.

Lemma handleTranslation_blank_witness :
  run uno (handleTranslation demo_truncateText demo_toFixed demo_toUpperCase demo_frames) demo_page
  = (Return tt, showStatus_on "Please enter some text to translate" "error" demo_page, []).
Proof.
  apply (handleTranslation_blank demo_truncateText demo_toFixed demo_toUpperCase demo_frames uno demo_page).
  right. exists "". split; [reflexivity|constructor].
Defined.

Lemma handleTranslation_cancelled_witness :
  exists q,
    run (provided false "")
        (handleTranslation demo_truncateText demo_toFixed demo_toUpperCase demo_frames) empty_corpus_page
    = (Return tt, q,
       [issued IsEmbeddingModelReady;
        issued (CreateUserInputEmbedding "good morning");
        issued (FindSimilarContext [1; 0]%float (vectorData empty_corpus_page)
                  (page_search_options empty_corpus_page));
        issued IsDeepSeekApiReady])
    /\ translationOutput q = Some [].
Proof.
  destruct (handleTranslation_cancelled demo_truncateText demo_toFixed demo_toUpperCase demo_frames
              (provided false "") empty_corpus_page "  good morning "
              (demo_embedding "good morning") no_context)
    as (q & Hrun & _ & Hout & _).
  - reflexivity.
  - discriminate.
  - reflexivity.
  - reflexivity.
  - reflexivity.
  - reflexivity.
  - reflexivity.
  - exists q. split; [exact Hrun|exact Hout].
Defined.

Lemma handleTranslation_translates_witness :
  exists q,
    fst (run (provided true "buenos dias")
             (handleTranslation demo_truncateText demo_toFixed demo_toUpperCase demo_frames) empty_corpus_page)
    = (Return tt, q)
    /\ translationOutput q = Some (translation_html "buenos dias")
    /\ statusIndicator q
       = Some {| textContent := "Translation completed successfully!";
                 className := "status-indicator status-success";
                 hidden := false |}.
Proof.
  destruct (handleTranslation_translates demo_truncateText demo_toFixed demo_toUpperCase demo_frames
              (provided true "buenos dias") empty_corpus_page
              "  good morning " (demo_embedding "good morning") no_context buenos_dias)
    as (q & loads & Hrun & _ & Hout & _ & Hstatus & _).
  - reflexivity.
  - discriminate.
  - left. reflexivity.
  - reflexivity.
  - reflexivity.
  - reflexivity.
  - reflexivity.
  - exists q. split; [by rewrite Hrun|]. split; [exact Hout|exact Hstatus].
Defined.

Lemma success_timer_hides_later_message_witness :
  exists l,
    fire demo_truncateText demo_toFixed demo_toUpperCase demo_frames Timer
         {| page := showStatus_on "Translation failed: timeout" "error"
                      (showStatus_on "Text vectorized successfully" "success" demo_page);
            pending := [] |}
    = Some l
    /\ statusIndicator (page l)
       = Some {| textContent := "Translation failed: timeout";
                 className := "status-indicator status-error";
                 hidden := true |}.
Proof.
  destruct (success_timer_hides_later_message demo_truncateText demo_toFixed demo_toUpperCase demo_frames demo_page []
              "Text vectorized successfully" "Translation failed: timeout" "error")
    as (_ & l & Hfire & Hstatus & _).
  - by eexists.
  - discriminate.
  - exists l. split; [exact Hfire|exact Hstatus].
Defined.

(** *** Loading the corpus *)

(** X26. [loadCorpusData] never throws and answers whether the corpus
    was loaded. When the loader resolves, the page's vector data and
    document database are the loaded ones and the status line reports
    the three counts and their sum; when the loader fails, both are left
    as they were (empty, on a fresh page), the answer is [false] and the
    status line shows "Failed to load corpus data. Translation may not
    work optimally." as an error. Nothing else on the page changes. *)
Theorem loadCorpusData_outcome (p : Page) :
  (forall corpusData,
      let '(loaded, q) := loadCorpusData (Return corpusData) p in
      loaded = true
      /\ vectorData q = corpus_vectorData corpusData
      /\ documentDatabase q = corpus_documentDatabase corpusData
      /\ statusIndicator q
         = (fun _ => {| textContent := loaded_message (corpus_vectorData corpusData);
                        className := "status-indicator status-success";
                        hidden := false |}) <$> statusIndicator p
      /\ translationOutput q = translationOutput p
      /\ contextInfo q = contextInfo p
      /\ sourceTextArea q = sourceTextArea p
      /\ currentSourceLang q = currentSourceLang p)
  /\ (forall error,
        let '(loaded, q) := loadCorpusData (Throw error) p in
        loaded = false
        /\ status_only p q
        /\ vectorData q = vectorData p
        /\ documentDatabase q = documentDatabase p
        /\ statusIndicator q
           = (fun _ => {| textContent :=
                            "Failed to load corpus data. Translation may not work optimally.";
                          className := "status-indicator status-error";
                          hidden := false |}) <$> statusIndicator p).
Proof.
  split.
  - intros corpusData. unfold loadCorpusData. cbv zeta.
    unfold showStatus_on. destruct (statusIndicator p) eqn:Hindicator; simpl;
      rewrite ?Hindicator; simpl; done.
  - intros error. unfold loadCorpusData. cbv zeta.
    split; [reflexivity|]. split; [auto with page|].
    unfold showStatus_on. destruct (statusIndicator p) eqn:Hindicator; simpl;
      rewrite ?Hindicator; simpl; done.
Qed.

(** *** The language toggle *)

Lemma lookup_alter_fmap_deactivate (options : list LanguageOption) (i j : nat)
      (o : LanguageOption) :
  alter activate i (deactivate <$> options) !! j = Some o ->
  exists original, options !! j = Some original
                   /\ dataset_lang o = dataset_lang original
                   /\ active o = bool_decide (j = i).
Proof.
  destruct (decide (j = i)) as [->|Hne].
  - rewrite list_lookup_alter_eq, list_lookup_fmap.
    destruct (options !! i) as [original|]; [|done]. simpl.
    intros [= <-]. exists original. by rewrite bool_decide_eq_true_2.
  - rewrite list_lookup_alter_ne by done. rewrite list_lookup_fmap.
    destruct (options !! j) as [original|]; [|done]. simpl.
    intros [= <-]. exists original. by rewrite bool_decide_eq_false_2.
Qed.

(** X27. A click on a language option leaves exactly that option
    active, makes its [data-lang] the source language, and keeps the
    label of the target language in line with the direction: the label
    is "Spanish" exactly when the target of the direction is "es", and
    "English" otherwise (also for a source other than "en" and "es").
    The options themselves, their number and their languages, are not
    changed. *)
Theorem language_option_click_activates (i : nat) (t t' : Toggle) (p p' : Page) :
  language_option_click i t p = Some (t', p') ->
  exists clicked,
    languageOptions t !! i = Some clicked
    /\ currentSourceLang p' = dataset_lang clicked
    /\ (forall j o, languageOptions t' !! j = Some o -> active o = bool_decide (j = i))
    /\ dataset_lang <$> languageOptions t' = dataset_lang <$> languageOptions t
    /\ (forall label, targetLanguageSpan t' = Some label ->
          is_Some (targetLanguageSpan t)
          /\ (label = "Spanish"
              <-> direction_target (getCurrentLanguageDirection p') = "es")
          /\ (label = "English"
              <-> direction_target (getCurrentLanguageDirection p') = "en"))
    /\ same_content_but_language p p'.
Proof.
  unfold language_option_click.
  destruct (languageOptions t !! i) as [clicked|] eqn:Hclicked; [|discriminate].
  intros [= <- <-]. exists clicked. cbn.
  split; [reflexivity|]. split; [reflexivity|]. split; [|split; [|split]].
  - intros j o Hlookup.
    by destruct (lookup_alter_fmap_deactivate _ _ _ _ Hlookup) as (? & _ & _ & ?).
  - apply list_eq. intros j. rewrite !list_lookup_fmap.
    destruct (alter activate i (deactivate <$> languageOptions t) !! j) as [o|] eqn:Hj.
    + destruct (lookup_alter_fmap_deactivate _ _ _ _ Hj) as (original & -> & Hlang & _).
      simpl. by rewrite Hlang.
    + destruct (decide (j = i)) as [->|Hne].
      * rewrite list_lookup_alter_eq, list_lookup_fmap, Hclicked in Hj. done.
      * rewrite list_lookup_alter_ne, list_lookup_fmap in Hj by done.
        by destruct (languageOptions t !! j).
  - intros label. destruct (targetLanguageSpan t) as [old|]; [|done]. simpl.
    intros [= <-]. split; [by eexists|].
    destruct (String.eqb (dataset_lang clicked) "en"); by split.
  - by repeat split.
Qed.

Lemma language_option_click_activates_witness :
  exists t' p',
    language_option_click 1 demo_toggle demo_page = Some (t', p')
    /\ currentSourceLang p' = "es"
    /\ active <$> languageOptions t' = [false; true]
    /\ targetLanguageSpan t' = Some "English".
Proof.
  destruct (language_option_click 1 demo_toggle demo_page) as [[t' p']|] eqn:Hclick;
    [|discriminate Hclick].
  destruct (language_option_click_activates 1 demo_toggle t' demo_page p' Hclick)
    as (clicked & Hclicked & Hlang & _).
  exists t', p'. split; [reflexivity|].
  injection Hclicked as <-. split; [exact Hlang|].
  by injection Hclick as <- <-.
Defined.


End MainFacts.

(** ** The page script on top of the client: properties *)

Module AppFacts.
Import EmbeddingJina Similarity Main App Examples.
Import EmbeddingJinaProofs EmbeddingJinaFacts MainProofs MainFacts.

Section LinkedFacts.
Variable env : Env.
Variable truncateText : string -> nat -> string.
Variable toFixed : float -> nat -> string.
Variable toUpperCase : string -> string.
Variable frames : nat.
Variable other : Answers.

Local Abbreviation run_linked := (App.run_linked env other).

Lemma run_linked_bind {A B} (t : Task A) (k : A -> Task B) (w : World) :
  run_linked (task_bind t k) w
  = match run_linked t w with
    | (Return x, w1, calls) =>
        let '(r, w', calls') := run_linked (k x) w1 in (r, w', calls ++ calls')
    | (Throw e, w1, calls) => (Throw e, w1, calls)
    end.
Proof.
  revert w. induction t as [x|e|X act k' IH|X c k' IH]; intros w; simpl.
  - by destruct (App.run_linked env other (k x) w) as [[r w'] calls].
  - reflexivity.
  - destruct (act (view w)) as [x p']. apply IH.
  - destruct (settle env other c (client w)) as [o s']. rewrite IH.
    destruct (App.run_linked env other (k' o) _) as [[[x|e] w1] calls]; [|reflexivity].
    by destruct (App.run_linked env other (k x) w1) as [[r w'] calls'].
Qed.

Lemma run_linked_catch {A} (t : Task A) (h : JsError -> Task A) (w : World) :
  run_linked (task_catch t h) w
  = match run_linked t w with
    | (Return x, w1, calls) => (Return x, w1, calls)
    | (Throw e, w1, calls) =>
        let '(r, w', calls') := run_linked (h e) w1 in (r, w', calls ++ calls')
    end.
Proof.
  revert w. induction t as [x|e|X act k' IH|X c k' IH]; intros w; simpl.
  - reflexivity.
  - by destruct (App.run_linked env other (h e) w) as [[r w'] calls].
  - destruct (act (view w)) as [x p']. apply IH.
  - destruct (settle env other c (client w)) as [o s']. rewrite IH.
    destruct (App.run_linked env other (k' o) _) as [[[x|e] w1] calls]; [reflexivity|].
    by destruct (App.run_linked env other (h e) w1) as [[r w'] calls'].
Qed.

(** A task without a call to the client leaves the client as it is. *)
Lemma run_linked_no_client_call {A} (t : Task A) (w : World) :
  no_client_call t ->
  client (snd (fst (run_linked t w))) = client w.
Proof.
  intros Hno. revert w.
  induction Hno as [x|e|X act k _ IH|X c k Hc _ IH]; intros w; simpl; try done.
  - destruct (act (view w)) as [x p']. by rewrite IH.
  - assert (snd (settle env other c (client w)) = client w) as Hclient
        by (by destruct c).
    destruct (settle env other c (client w)) as [o s']. simpl in Hclient. subst s'.
    specialize (IH o {| client := client w; view := view w |}).
    by destruct (App.run_linked env other (k o) _) as [[r w'] calls].
Qed.

Lemma no_client_call_bind {A B} (t : Task A) (k : A -> Task B) :
  no_client_call t -> (forall x, no_client_call (k x)) -> no_client_call (task_bind t k).
Proof.
  intros Ht Hk. induction Ht; simpl; [done|by constructor..].
Qed.

Lemma no_client_call_catch {A} (t : Task A) (h : JsError -> Task A) :
  no_client_call t -> (forall e, no_client_call (h e)) -> no_client_call (task_catch t h).
Proof.
  intros Ht Hh. induction Ht; simpl; [by constructor|done|by constructor..].
Qed.

Lemma no_client_call_showStatus (message type : string) :
  no_client_call (showStatus message type).
Proof. repeat constructor. Qed.

Lemma no_client_call_translation_failed (e : JsError) :
  no_client_call (translation_failed e).
Proof. rewrite translation_failed_shows. apply no_client_call_showStatus. Qed.

Lemma no_client_call_search_context (created : UserInputEmbedding) :
  no_client_call (search_context created).
Proof.
  unfold search_context, read, await. simpl.
  constructor. intros options. constructor. intros []. constructor. intros store.
  constructor; [reflexivity|]. intros [found|e]; simpl; [|constructor].
  destruct (0 <? _)%nat; repeat constructor.
Qed.

Lemma no_client_call_ensure_translation_ready : no_client_call (ensure_translation_ready frames).
Proof.
  unfold ensure_translation_ready, read, await. simpl.
  constructor. intros []. constructor; [reflexivity|].
  intros [[|]|e]; simpl; [repeat constructor| |constructor].
  constructor. intros []. constructor. intros apiKey.
  destruct (truthy_key apiKey) as [key|]; [|repeat constructor].
  rewrite window_setDeepSeekApiKey_overflows. constructor.
Qed.

Lemma no_client_call_translate_and_display (text : string) (context : ContextResults) :
  no_client_call (translate_and_display truncateText toFixed toUpperCase text context).
Proof.
  unfold translate_and_display, read, await. simpl.
  constructor. intros []. constructor. intros direction. constructor. intros database.
  constructor; [reflexivity|]. intros [result|e]; simpl; repeat constructor.
Qed.

(** What follows the creation of the embedding in [handleTranslation]. *)
Lemma no_client_call_after_embedding (text : string) (created : UserInputEmbedding) :
  no_client_call
    (let! contextResults := search_context created in
     let! proceed := ensure_translation_ready frames in
     if proceed
     then translate_and_display truncateText toFixed toUpperCase text contextResults
     else Done tt).
Proof.
  apply no_client_call_bind; [apply no_client_call_search_context|].
  intros context.
  apply no_client_call_bind; [apply no_client_call_ensure_translation_ready|].
  intros [|]; [apply no_client_call_translate_and_display|constructor].
Qed.


Lemma failure_status_key_required :
  failure_status (key_required_message env)
  = "Translation failed: " +:+ key_required_message env.
Proof.
  unfold failure_status, key_required_message.
  by destruct (detectEnvironment env).
Qed.

Lemma ensure_embedding_ready_without_key (w : World) :
  NoCredential env (client w) ->
  storage_readable env (client w) = true ->
  exists s2,
    run_linked ensure_embedding_ready w
    = (Throw {| error_stage := ["MODEL_LOAD_ERROR"];
                error_message := key_required_message env |},
       {| client := s2;
          view := showStatus_on "Checking embedding API..." "loading" (view w) |},
       [issued IsEmbeddingModelReady; issued LoadEmbeddingModel])
    /\ fetched s2 = fetched (client w).
Proof.
  destruct w as [s p]. cbn [client view]. intros Hnc Hr.
  destruct (isEmbeddingModelReady_none env _ Hnc Hr) as (s1 & Hready & Hf1 & Hnc1 & Hr1).
  destruct (loadEmbeddingModel_none env s1 Hnc1 Hr1) as (s2 & Hload & Hf2).
  exists s2. split; [|congruence].
  unfold ensure_embedding_ready, await, showStatus, update.
  cbn [task_bind App.run_linked settle of_outcome client view]. rewrite Hready.
  cbn [task_bind App.run_linked settle of_outcome negb client view].
  rewrite Hload. reflexivity.
Qed.

(** X28. A click on a page whose client has no key of any kind ends
    after two calls, the readiness check and the model load, and sends
    nothing to the provider; the status line shows "Translation failed:
    JINA API key required. Environment: <environment>" as an error, and
    the translation and context areas stay as they were. *)
Theorem handleTranslation_without_jina_key (w : World) (value : string) :
  sourceTextArea (view w) = Some value ->
  trim value <> "" ->
  credential_configured env (client w) = false ->
  storage_readable env (client w) = true ->
  exists w',
    run_linked (handleTranslation truncateText toFixed toUpperCase frames) w
    = (Return tt, w', [issued IsEmbeddingModelReady; issued LoadEmbeddingModel])
    /\ fetched (client w') = fetched (client w)
    /\ statusIndicator (view w')
       = (fun _ => {| textContent :=
                        "Translation failed: JINA API key required. Environment: "
                        +:+ environment_name (detectEnvironment env);
                      className := "status-indicator status-error";
                      hidden := false |}) <$> statusIndicator (view w)
    /\ translationOutput (view w') = translationOutput (view w)
    /\ contextInfo (view w') = contextInfo (view w).
Proof.
  destruct w as [s p]. cbn [client view].
  intros Hvalue Htext Hnc Hr. apply credential_configured_false in Hnc.
  apply String.eqb_neq in Htext.
  unfold handleTranslation, read. cbn [App.run_linked task_bind client view].
  rewrite Hvalue. cbn [fmap option_fmap option_map].
  unfold truthy_key at 1. rewrite Htext.
  rewrite run_linked_catch, run_linked_bind.
  cbn [client view].
  destruct (ensure_embedding_ready_without_key {| client := s; view := p |} Hnc Hr)
    as (s2 & -> & Hfetched). cbn [client view] in *.
  cbv beta iota. rewrite translation_failed_shows.
  unfold showStatus, update. cbn [App.run_linked client view error_message].
  eexists. split; [reflexivity|]. cbn [client view].
  split; [exact Hfetched|]. rewrite failure_status_key_required.
  set (checking := showStatus_on "Checking embedding API..." "loading" p).
  assert (status_only p checking) as Honly by (subst checking; constructor; constructor).
  pose proof (same_content_showStatus_on
                ("Translation failed: " +:+ key_required_message env) "error" checking)
    as Hsame.
  pose proof (status_only_same_content _ _ Honly) as Hsame'.
  rewrite (sc_translationOutput _ _ Hsame), (sc_contextInfo _ _ Hsame),
    (sc_translationOutput _ _ Hsame'), (sc_contextInfo _ _ Hsame').
  split; [|done].
  rewrite statusIndicator_showStatus_on. subst checking.
  rewrite statusIndicator_showStatus_on.
  by destruct (statusIndicator p).
Qed.

Lemma create_embedding_sends (w : World) (key text : string) :
  getApiKey env (client w) = (Return (Some key), client w) ->
  text <> "" ->
  cleanText env text <> "" ->
  exists r w',
    run_linked (create_embedding text) w
    = (r, w', [issued (CreateUserInputEmbedding text)])
    /\ fetched (client w')
       = fetched (client w)
         ++ [embedding_request key [truncate_input (cleanText env text)] ∅]
    /\ API_KEY (client w') = API_KEY (client w)
    /\ localStorage (client w') = localStorage (client w).
Proof.
  destruct w as [s p]. cbn [client view]. intros Hget Hne Hclean.
  destruct (createUserInputEmbedding_sends env _ key text Hget Hne Hclean)
    as (r & s' & Hcreate & Hfetched & Hkey & Hstorage).
  unfold create_embedding, await, showStatus, update.
  cbn [task_bind App.run_linked settle of_outcome client view]. rewrite Hcreate.
  destruct r as [created|e]; cbn [task_bind App.run_linked of_outcome client view];
    by eexists _, _.
Qed.

(** X29. A click with a usable text on a page whose client finds a key
    and whose provider accepts the test request sends exactly two
    requests to the provider, whatever happens afterwards (a failing
    search, a cancelled prompt, a failing translation): first the test
    request with the input "test", then the request for the embedding of
    the cleaned text; both carry the key, which is left as it was, like
    the storage. The handler does not throw. *)
Theorem handleTranslation_sends_two_requests (w : World) (value key : string)
        (s1 : State) (answer : ResponseData) :
  sourceTextArea (view w) = Some value ->
  trim value <> "" ->
  cleanText env (trim value) <> "" ->
  is_Some (localStorage (client w)) ->
  getApiKey env (client w) = (Return (Some key), s1) ->
  accepted_answer env (List.length (fetched (client w))) (test_request key) = Some answer ->
  exists w' calls,
    run_linked (handleTranslation truncateText toFixed toUpperCase frames) w = (Return tt, w', calls)
    /\ fetched (client w')
       = fetched (client w)
         ++ [test_request key;
             embedding_request key [truncate_input (cleanText env (trim value))] ∅]
    /\ API_KEY (client w') = API_KEY (client w)
    /\ localStorage (client w') = localStorage (client w).
Proof.
  destruct w as [s p]. cbn [client view].
  intros Hvalue Htext Hclean Hstorage Hget Haccepted.
  pose proof (getApiKey_fetched _ _ _ _ Hget) as Hfetched1.
  destruct (keeps_keys_getApiKey env s) as (Hkey1 & Hstorage1 & _).
  rewrite Hget in Hkey1, Hstorage1. simpl in Hkey1, Hstorage1.
  pose proof (isEmbeddingModelReady_accepted env _ _ _ _ Hstorage Hget Haccepted)
    as Hready.
  pose proof Htext as Htext'. apply String.eqb_neq in Htext'.
  unfold handleTranslation, read. cbn [App.run_linked task_bind client view].
  rewrite Hvalue. cbn [fmap option_fmap option_map].
  unfold truthy_key at 1. rewrite Htext'.
  rewrite run_linked_catch, run_linked_bind.
  unfold ensure_embedding_ready at 1, await.
  cbn [task_bind App.run_linked settle of_outcome client view]. rewrite Hready.
  cbn [task_bind App.run_linked settle of_outcome negb client view].
  set (w1 := {| client := with_request (test_request key) s1; view := p |}).
  assert (getApiKey env (client w1) = (Return (Some key), client w1)) as Hget1.
  { subst w1. cbn [client]. rewrite getApiKey_with_request.
    by rewrite (getApiKey_again _ _ _ _ Hget). }
  rewrite run_linked_bind.
  destruct (create_embedding_sends w1 key (trim value) Hget1 Htext Hclean)
    as (r & w2 & -> & Hfetched2 & Hkey2 & Hstorage2).
  assert (fetched (client w2)
          = fetched s
            ++ [test_request key;
                embedding_request key [truncate_input (cleanText env (trim value))] ∅])
    as Hsent.
  { rewrite Hfetched2. subst w1. cbn [client with_request fetched].
    by rewrite Hfetched1, <- app_assoc. }
  assert (API_KEY (client w2) = API_KEY s
          /\ localStorage (client w2) = localStorage s) as [Hkey Hstore].
  { rewrite Hkey2, Hstorage2. subst w1. cbn [client with_request API_KEY localStorage].
    done. }
  destruct r as [created|e]; cbv beta iota.
  - pose proof (run_linked_no_client_call _ w2
                  (no_client_call_after_embedding (trim value) created)) as Hafter.
    destruct (App.run_linked env other _ w2) as [[r3 w3] calls3]. simpl in Hafter.
    destruct r3 as [[]|e].
    + eexists _, _. split; [reflexivity|]. by rewrite Hafter.
    + pose proof (run_linked_no_client_call _ w3 (no_client_call_translation_failed e))
        as Hfailed.
      destruct (App.run_linked env other (translation_failed e) w3) as [[r4 w4] calls4]
        eqn:Hrun4.
      assert (r4 = Return tt) as ->.
      { revert Hrun4. rewrite translation_failed_shows. unfold showStatus, update.
        cbn [App.run_linked]. by intros [= <- _ _]. }
      eexists _, _. split; [reflexivity|]. simpl in Hfailed. by rewrite Hfailed, Hafter.
  - pose proof (run_linked_no_client_call _ w2 (no_client_call_translation_failed e))
      as Hfailed.
    destruct (App.run_linked env other (translation_failed e) w2) as [[r4 w4] calls4]
      eqn:Hrun4.
    assert (r4 = Return tt) as ->.
    { revert Hrun4. rewrite translation_failed_shows. unfold showStatus, update.
      cbn [App.run_linked]. by intros [= <- _ _]. }
    eexists _, _. split; [reflexivity|]. simpl in Hfailed. by rewrite Hfailed.
Qed.

(** X30. With a storage at hand, [window.testEmbedding] always answers a
    status and ends with the success message "JINA API test completed",
    also when the status it answers says that the key is missing or that
    the test request failed: "JINA API test failed" is shown only when
    the status itself cannot be obtained. It sends at most one request. *)
Theorem window_testEmbedding_completes (w : World) :
  is_Some (localStorage (client w)) ->
  exists st w',
    window_testEmbedding env w = (Some st, w')
    /\ fst (getEmbeddingModelStatus env (client w)) = Return st
    /\ statusIndicator (view w')
       = (fun _ => {| textContent := "JINA API test completed";
                      className := "status-indicator status-success";
                      hidden := false |}) <$> statusIndicator (view w)
    /\ translationOutput (view w') = translationOutput (view w)
    /\ (exists more, fetched (client w') = fetched (client w) ++ more
                     /\ (List.length more <= 1)%nat).
Proof.
  destruct w as [s p]. cbn [client view]. intros Hstorage.
  destruct (getEmbeddingModelStatus_returns env _ Hstorage) as (st & s' & Hstatus).
  destruct (keeps_keys_getEmbeddingModelStatus env s) as (_ & _ & Hmore).
  unfold window_testEmbedding. cbn [client view]. rewrite Hstatus in *. cbv zeta.
  eexists _, _. split; [reflexivity|]. split; [reflexivity|]. cbn [client view].
  rewrite !statusIndicator_showStatus_on.
  split; [by destruct (statusIndicator p)|].
  split; [|exact Hmore].
  pose proof (same_content_showStatus_on "JINA API test completed" "success"
                (showStatus_on "Testing JINA API..." "loading" p)) as Hsame.
  pose proof (same_content_showStatus_on "Testing JINA API..." "loading" p) as Hsame'.
  by rewrite (sc_translationOutput _ _ Hsame), (sc_translationOutput _ _ Hsame').
Qed.

End LinkedFacts.

Lemma handleTranslation_without_jina_key_witness :
  exists w',
    run_linked local_env (shipped uno) (handleTranslation demo_truncateText demo_toFixed demo_toUpperCase demo_frames) fresh_world
    = (Return tt, w', [issued IsEmbeddingModelReady; issued LoadEmbeddingModel])
    /\ fetched (client w') = []
    /\ statusIndicator (view w')
       = Some {| textContent :=
                   "Translation failed: JINA API key required. Environment: local_development";
                 className := "status-indicator status-error";
                 hidden := false |}.
Proof.
  destruct (handleTranslation_without_jina_key local_env demo_truncateText demo_toFixed demo_toUpperCase
              demo_frames (shipped uno) fresh_world "  good morning ")
    as (w' & Hrun & Hfetched & Hstatus & _).
  - reflexivity.
  - discriminate.
  - reflexivity.
  - reflexivity.
  - exists w'. split; [exact Hrun|]. split; [exact Hfetched|exact Hstatus].
Defined.

Lemma handleTranslation_sends_two_requests_witness :
  exists w' calls,
    run_linked local_env (shipped uno) (handleTranslation demo_truncateText demo_toFixed demo_toUpperCase demo_frames) keyed_world
    = (Return tt, w', calls)
    /\ fetched (client w')
       = [test_request "jina_test_key";
          embedding_request "jina_test_key" ["good morning"] ∅].
Proof.
  destruct (handleTranslation_sends_two_requests local_env demo_truncateText demo_toFixed demo_toUpperCase
              demo_frames (shipped uno) keyed_world "  good morning " "jina_test_key" keyed_state
              {| data := Some [ {| embedding := Some [0.5; 0.25]%float |} ];
                 usage := None |})
    as (w' & calls & Hrun & Hfetched & _).
  - reflexivity.
  - discriminate.
  - discriminate.
  - by eexists.
  - reflexivity.
  - reflexivity.
  - exists w', calls. split; [exact Hrun|exact Hfetched].
Defined.

Lemma window_testEmbedding_completes_witness :
  exists st w',
    window_testEmbedding local_env fresh_world = (Some st, w')
    /\ ready st = false
    /\ statusIndicator (view w')
       = Some {| textContent := "JINA API test completed";
                 className := "status-indicator status-success";
                 hidden := false |}.
Proof.
  destruct (window_testEmbedding_completes local_env fresh_world)
    as (st & w' & Htest & Hstatus & Hline & _); [by eexists|].
  exists st, w'. split; [exact Htest|]. split; [|exact Hline].
  by injection Hstatus as <-.
Defined.

End AppFacts.

(** ** Vectors of different dimensions *)

Module DimensionFacts.
Import EmbeddingJina Similarity Main Examples.
Import EmbeddingJinaProofs EmbeddingJinaFacts SimilarityProofs.

(** [createUserInputEmbedding] on a usable text, when a key is found and
    the provider's answer is accepted and carries a vector: the embedding
    is returned, whatever the length of the vector. *)
Lemma createUserInputEmbedding_accepted (env : Env) (s s0 : State) (key text : string)
      (answer : ResponseData) (vector : list float) (rest : list EmbeddingData) :
  is_Some (localStorage s) ->
  getApiKey env s = (Return (Some key), s0) ->
  text <> "" ->
  cleanText env text <> "" ->
  accepted_answer env (List.length (fetched s))
    (embedding_request key [truncate_input (cleanText env text)] ∅) = Some answer ->
  data answer = Some ({| embedding := Some vector |} :: rest) ->
  exists r s',
    createUserInputEmbedding env (JsString text) s = (Return r, s')
    /\ ue_embedding r = vector
    /\ dimension r = List.length vector
    /\ dimensionMismatch r
       = {| userEmbedding := List.length vector;
            corpusVectors := EMBEDDING_dimension env;
            note := if negb (Nat.eqb (List.length vector) (EMBEDDING_dimension env))
                    then "Dimension mismatch - consider regenerating corpus"
                    else "Dimensions match" |}.
Proof.
  intros [items Hstorage] Hget Hne Hclean Haccepted Hdata.
  apply String.eqb_neq in Hne, Hclean.
  pose proof (getApiKey_fetched _ _ _ _ Hget) as Hfetched.
  destruct (callJinaAPI_accepts env s s0 key (Single (JsString (cleanText env text))) ∅
              [cleanText env text] Hget eq_refl) as (result & Hcall & Hresult).
  cbv zeta in Hcall, Hresult. cbn [fmap list_fmap] in Hcall, Hresult.
  set (request := embedding_request key [truncate_input (cleanText env text)] ∅) in *.
  rewrite Hfetched, Haccepted in Hresult. subst result.
  assert (localStorage (with_request request s0) = Some items) as Hstorage0.
  { destruct (keeps_keys_getApiKey env s) as (_ & Hkept & _).
    rewrite Hget in Hkept. simpl in Hkept. by rewrite <- Hstorage, <- Hkept. }
  assert (getApiKey env (with_request request s0)
          = (Return (Some key), with_request request s0)) as Hagain.
  { rewrite getApiKey_with_request. by rewrite (getApiKey_again _ _ _ _ Hget). }
  pose proof (getApiKeyStatus_run env _ _ items _ Hstorage0 Hagain) as Hstatus.
  unfold createUserInputEmbedding, safeAsync at 1, try_catch at 1, bind at 1.
  simpl. rewrite Hne. simpl. rewrite Hclean, Hcall. cbv beta iota.
  rewrite Hdata. cbn [default from_option]. unfold Datatypes.id.
  cbn [lookup list_lookup embedding]. cbv beta iota.
  unfold bind. rewrite Hstatus. cbv beta iota. unfold ret.
  eexists _, _. split; [reflexivity|]. done.
Qed.

(** C1, as the code has it. Two vectors of different lengths are never
    scored: the scorer throws [DimensionMismatch], and so does a search
    whose corpus holds an item of another dimension than the query. The
    creation of the user's embedding does not compare dimensions in this
    way: when a key is found, the text is usable and the provider answers
    with a vector whose length is not the configured dimension of the
    corpus, [createUserInputEmbedding] returns that vector all the same,
    with the two dimensions and the note "Dimension mismatch - consider
    regenerating corpus". *)
Theorem dimension_mismatch_is_reported
        (weighting : Level -> list float -> list float -> float) (bonus : float)
        (query : list float) (store : VectorStore) (options : SearchOptions)
        (it : CorpusItem) (advanced : bool)
        (env : Env) (s s0 : State) (key text : string)
        (answer : ResponseData) (vector : list float) (rest : list EmbeddingData) :
  it ∈ documents store ++ sections store ++ paragraphs store ->
  List.length query <> List.length (item_embedding it) ->
  is_Some (localStorage s) ->
  getApiKey env s = (Return (Some key), s0) ->
  text <> "" ->
  cleanText env text <> "" ->
  accepted_answer env (List.length (fetched s))
    (embedding_request key [truncate_input (cleanText env text)] ∅) = Some answer ->
  data answer = Some ({| embedding := Some vector |} :: rest) ->
  List.length vector <> EMBEDDING_dimension env ->
  Scorer.score weighting query (item_embedding it) (level it) advanced
  = Throw DimensionMismatch
  /\ findSimilarContext (Scorer.score weighting) bonus query store options
     = Throw DimensionMismatch
  /\ exists r s',
       createUserInputEmbedding env (JsString text) s = (Return r, s')
       /\ ue_embedding r = vector
       /\ dimension r = List.length vector
       /\ userEmbedding (dimensionMismatch r) = List.length vector
       /\ corpusVectors (dimensionMismatch r) = EMBEDDING_dimension env
       /\ note (dimensionMismatch r)
          = "Dimension mismatch - consider regenerating corpus".
Proof.
  intros Hin Hlen Hstorage Hget Hne Hclean Haccepted Hdata Hmismatch.
  split; [by apply score_dimension_mismatch|].
  split; [by eapply findSimilarContext_mismatch|].
  destruct (createUserInputEmbedding_accepted env s s0 key text answer vector rest)
    as (r & s' & Hcreate & Hvector & Hdimension & Hnote); try done.
  exists r, s'. split; [exact Hcreate|]. split; [exact Hvector|].
  split; [exact Hdimension|]. rewrite Hnote. cbn.
  apply Nat.eqb_neq in Hmismatch. by rewrite Hmismatch.
Qed.

Lemma dimension_mismatch_is_reported_witness :
  Scorer.score plain_weighting [1; 0; 0]%float (item_embedding item1) (level item1) false
  = Throw DimensionMismatch
  /\ findSimilarContext (Scorer.score plain_weighting) 0.25%float [1; 0; 0]%float
       store_example (page_search_options demo_page)
     = Throw DimensionMismatch
  /\ exists r s',
       createUserInputEmbedding local_env (JsString " hola ") keyed_state = (Return r, s')
       /\ ue_embedding r = [0.5; 0.25]%float
       /\ corpusVectors (dimensionMismatch r) = 1024%nat
       /\ note (dimensionMismatch r)
          = "Dimension mismatch - consider regenerating corpus".
Proof.
  destruct (dimension_mismatch_is_reported plain_weighting 0.25%float [1; 0; 0]%float
              store_example (page_search_options demo_page) item1 false
              local_env keyed_state keyed_state "jina_test_key" " hola "
              {| data := Some [ {| embedding := Some [0.5; 0.25]%float |} ];
                 usage := None |}
              [0.5; 0.25]%float [])
    as (Hscore & Hsearch & r & s' & Hcreate & Hvector & _ & _ & Hcorpus & Hnote).
  - apply list_elem_of_here.
  - simpl. lia.
  - by eexists.
  - reflexivity.
  - discriminate.
  - discriminate.
  - reflexivity.
  - reflexivity.
  - simpl. lia.
  - split; [exact Hscore|]. split; [exact Hsearch|].
    exists r, s'. split; [exact Hcreate|]. split; [exact Hvector|].
    split; [exact Hcorpus|exact Hnote].
Defined.

End DimensionFacts.
